(** * Launchpad: the process-launch library of Magenta

    A shallow embedding of [launchpad.c] (the launch context, its handle
    table, the argument and environment blobs, the loader-service RPC client
    and the start sequence) together with the properties its specification
    states about it.

    Conventions of the embedding.
    - C integers are [Z]; [size_t] arithmetic that can wrap is written with
      [wrap64], [uint32_t] arithmetic with [wrap32].
    - The context [launchpad_t] is a record; a function taking
      [launchpad_t* lp] is a computation over a state that holds the pointee.
    - Everything outside the file (kernel calls, libc allocation, the ELF
      loader, mxio) is an operation of the class [Kernel] over an abstract
      [world]: a call takes the world and returns its results and the next
      world, so the theorems hold for every behaviour of the collaborators.
    - Constants and macros of headers that are not part of the sources at
      hand are fields of the class [Magenta].
    - A read or write outside an array is undefined behaviour in C; the
      computation monad has an undefined outcome ([None]) for it. *)

From Stdlib Require Import ZArith Lia Bool Ascii String.
From stdpp Require Import base numbers list.

Local Open Scope Z_scope.

(** ** Machine integers *)

Definition wrap64 (x : Z) : Z := x mod 2 ^ 64.
Definition wrap32 (x : Z) : Z := x mod 2 ^ 32.

(** [SIZE_MAX] of <stdint.h> on the LP64 targets Magenta builds for. *)
Definition SIZE_MAX : Z := 2 ^ 64 - 1.

(** [NO_ERROR] and [MX_HANDLE_INVALID] are both zero: the source tests them
    with [if (lp->error)] and [if (vmo)]. *)
Definition NO_ERROR : Z := 0.
Definition MX_HANDLE_INVALID : Z := 0.

(** [sizeof(mx_handle_t)] and [sizeof(uint32_t)]: handles are 32-bit signed
    integers (the source compares them with zero as [vmo < 0]). *)
Definition sizeof_handle : Z := 4.
Definition sizeof_uint32 : Z := 4.

(** ** Constants and macros of headers outside the sources *)

Class Magenta := {
  (* magenta/errors.h *)
  ERR_INTERNAL : Z;
  ERR_NO_MEMORY : Z;
  ERR_CALL_FAILED : Z;
  ERR_INVALID_ARGS : Z;
  ERR_BAD_HANDLE : Z;
  ERR_BAD_STATE : Z;
  ERR_BUFFER_TOO_SMALL : Z;
  (* limits.h: PAGE_SIZE is 1 << PAGE_SIZE_SHIFT *)
  PAGE_SIZE_SHIFT : Z;
  (* magenta/stack.h *)
  MAGENTA_DEFAULT_STACK_SIZE : Z;
  compute_initial_stack_pointer : Z -> Z -> Z;
  (* magenta/processargs.h *)
  sizeof_mx_proc_args_t : Z;
  MX_PROCARGS_PROTOCOL : Z;
  MX_PROCARGS_VERSION : Z;
  MX_HND_TYPE_PROC_SELF : Z;
  MX_HND_TYPE_VMAR_ROOT : Z;
  MX_HND_TYPE_THREAD_SELF : Z;
  MX_HND_TYPE_STACK_VMO : Z;
  MX_HND_TYPE_JOB : Z;
  MX_HND_TYPE_VDSO_VMO : Z;
  MX_HND_TYPE_LOADER_SVC : Z;
  MX_HND_TYPE_EXEC_VMO : Z;
  MX_HND_INFO : Z -> Z -> Z;
  MX_HND_INFO_TYPE : Z -> Z;
  (* mxio/loader-service.h, mxio/limits.h *)
  sizeof_mx_loader_svc_msg_t : Z;
  LOADER_SVC_OP_STATUS : Z;
  LOADER_SVC_OP_LOAD_OBJECT : Z;
  MAX_MXIO_FD : Z;
}.

Definition PAGE_SIZE {Mg : Magenta} : Z := 2 ^ PAGE_SIZE_SHIFT.

(** ** The launch context *)

(** [enum special_handles] *)
Inductive special_handles_t := HND_LOADER_SVC | HND_EXEC_VMO.

Definition HND_SPECIAL_COUNT : Z := 2.
Definition HND_LOADER_COUNT : Z := 3.

(** [struct launchpad].  A [char*] buffer is [None] when it is [NULL];
    [handles] and [handles_info] are the allocated arrays ([[]] for [NULL]),
    of which the first [handle_count] slots are in use; the array
    [special_handles] indexed by the enumeration is the pair of its two
    slots. *)
Record launchpad := mkLaunchpad {
  argc : Z;
  envc : Z;
  args : option (list ascii);
  args_len : Z;
  env : option (list ascii);
  env_len : Z;
  handles : list Z;
  handles_info : list Z;
  handle_count : Z;
  handle_alloc : Z;
  errmsg : string;
  error : Z;
  entry : Z;
  base : Z;
  vdso_base : Z;
  stack_size : Z;
  special_handles : Z * Z;
  loader_message : bool;
}.

Definition special_get (sh : Z * Z) (i : special_handles_t) : Z :=
  match i with HND_LOADER_SVC => fst sh | HND_EXEC_VMO => snd sh end.

Definition special_set (sh : Z * Z) (i : special_handles_t) (h : Z) : Z * Z :=
  match i with HND_LOADER_SVC => (h, snd sh) | HND_EXEC_VMO => (fst sh, h) end.

(** Field updates, one per group of fields the source assigns together. *)

Definition with_error (e : Z) (msg : string) (lp : launchpad) : launchpad :=
  mkLaunchpad (argc lp) (envc lp) (args lp) (args_len lp) (env lp) (env_len lp)
    (handles lp) (handles_info lp) (handle_count lp) (handle_alloc lp)
    msg e (entry lp) (base lp) (vdso_base lp) (stack_size lp)
    (special_handles lp) (loader_message lp).

Definition with_args (c : Z) (buf : option (list ascii)) (len : Z)
    (lp : launchpad) : launchpad :=
  mkLaunchpad c (envc lp) buf len (env lp) (env_len lp)
    (handles lp) (handles_info lp) (handle_count lp) (handle_alloc lp)
    (errmsg lp) (error lp) (entry lp) (base lp) (vdso_base lp) (stack_size lp)
    (special_handles lp) (loader_message lp).

Definition with_env (c : Z) (buf : option (list ascii)) (len : Z)
    (lp : launchpad) : launchpad :=
  mkLaunchpad (argc lp) c (args lp) (args_len lp) buf len
    (handles lp) (handles_info lp) (handle_count lp) (handle_alloc lp)
    (errmsg lp) (error lp) (entry lp) (base lp) (vdso_base lp) (stack_size lp)
    (special_handles lp) (loader_message lp).

Definition with_handles (hs : list Z) (lp : launchpad) : launchpad :=
  mkLaunchpad (argc lp) (envc lp) (args lp) (args_len lp) (env lp) (env_len lp)
    hs (handles_info lp) (handle_count lp) (handle_alloc lp)
    (errmsg lp) (error lp) (entry lp) (base lp) (vdso_base lp) (stack_size lp)
    (special_handles lp) (loader_message lp).

Definition with_handles_info (ids : list Z) (lp : launchpad) : launchpad :=
  mkLaunchpad (argc lp) (envc lp) (args lp) (args_len lp) (env lp) (env_len lp)
    (handles lp) ids (handle_count lp) (handle_alloc lp)
    (errmsg lp) (error lp) (entry lp) (base lp) (vdso_base lp) (stack_size lp)
    (special_handles lp) (loader_message lp).

Definition with_handle_count (n : Z) (lp : launchpad) : launchpad :=
  mkLaunchpad (argc lp) (envc lp) (args lp) (args_len lp) (env lp) (env_len lp)
    (handles lp) (handles_info lp) n (handle_alloc lp)
    (errmsg lp) (error lp) (entry lp) (base lp) (vdso_base lp) (stack_size lp)
    (special_handles lp) (loader_message lp).

Definition with_handle_alloc (n : Z) (lp : launchpad) : launchpad :=
  mkLaunchpad (argc lp) (envc lp) (args lp) (args_len lp) (env lp) (env_len lp)
    (handles lp) (handles_info lp) (handle_count lp) n
    (errmsg lp) (error lp) (entry lp) (base lp) (vdso_base lp) (stack_size lp)
    (special_handles lp) (loader_message lp).

Definition with_entry (e : Z) (lp : launchpad) : launchpad :=
  mkLaunchpad (argc lp) (envc lp) (args lp) (args_len lp) (env lp) (env_len lp)
    (handles lp) (handles_info lp) (handle_count lp) (handle_alloc lp)
    (errmsg lp) (error lp) e (base lp) (vdso_base lp) (stack_size lp)
    (special_handles lp) (loader_message lp).

Definition with_base (b : Z) (lp : launchpad) : launchpad :=
  mkLaunchpad (argc lp) (envc lp) (args lp) (args_len lp) (env lp) (env_len lp)
    (handles lp) (handles_info lp) (handle_count lp) (handle_alloc lp)
    (errmsg lp) (error lp) (entry lp) b (vdso_base lp) (stack_size lp)
    (special_handles lp) (loader_message lp).

Definition with_vdso_base (b : Z) (lp : launchpad) : launchpad :=
  mkLaunchpad (argc lp) (envc lp) (args lp) (args_len lp) (env lp) (env_len lp)
    (handles lp) (handles_info lp) (handle_count lp) (handle_alloc lp)
    (errmsg lp) (error lp) (entry lp) (base lp) b (stack_size lp)
    (special_handles lp) (loader_message lp).

Definition with_stack_size (n : Z) (lp : launchpad) : launchpad :=
  mkLaunchpad (argc lp) (envc lp) (args lp) (args_len lp) (env lp) (env_len lp)
    (handles lp) (handles_info lp) (handle_count lp) (handle_alloc lp)
    (errmsg lp) (error lp) (entry lp) (base lp) (vdso_base lp) n
    (special_handles lp) (loader_message lp).

Definition with_special_handles (sh : Z * Z) (lp : launchpad) : launchpad :=
  mkLaunchpad (argc lp) (envc lp) (args lp) (args_len lp) (env lp) (env_len lp)
    (handles lp) (handles_info lp) (handle_count lp) (handle_alloc lp)
    (errmsg lp) (error lp) (entry lp) (base lp) (vdso_base lp) (stack_size lp)
    sh (loader_message lp).

Definition with_loader_message (b : bool) (lp : launchpad) : launchpad :=
  mkLaunchpad (argc lp) (envc lp) (args lp) (args_len lp) (env lp) (env_len lp)
    (handles lp) (handles_info lp) (handle_count lp) (handle_alloc lp)
    (errmsg lp) (error lp) (entry lp) (base lp) (vdso_base lp) (stack_size lp)
    (special_handles lp) b.

(** A [launchpad_t*] is either the address of the static
    [invalid_launchpad] or a block obtained from [calloc]; the source
    compares the two in [launchpad_destroy]. *)
Inductive lp_ptr := LpInvalidStatic | LpHeap.

(** [static launchpad_t invalid_launchpad]: every field zero except the two
    the initializer names. *)
Definition invalid_launchpad {Mg : Magenta} : launchpad :=
  mkLaunchpad 0 0 None 0 None 0 [] [] 0 0
    "create: could not allocate launchpad_t" ERR_NO_MEMORY
    0 0 0 0 (MX_HANDLE_INVALID, MX_HANDLE_INVALID) false.

(** The block [calloc] returns: all fields zero. *)
Definition zeroed_launchpad : launchpad :=
  mkLaunchpad 0 0 None 0 None 0 [] [] 0 0 "" 0
    0 0 0 0 (MX_HANDLE_INVALID, MX_HANDLE_INVALID) false.

(** ** Messages exchanged with the kernel *)

(** The bootstrap record written on the channel ([mx_proc_args_t] followed
    by the handle-info words and the string bytes).  [pa_handle_info] holds
    the words the source writes, [pa_strings] the bytes it copies after
    them, [pa_size] the byte count passed to [mx_channel_write]. *)
Record proc_args_msg := mkProcArgs {
  pa_protocol : Z;
  pa_version : Z;
  pa_handle_info_off : Z;
  pa_args_off : Z;
  pa_args_num : Z;
  pa_environ_off : Z;
  pa_environ_num : Z;
  pa_handle_info : list Z;
  pa_strings : list ascii;
  pa_size : Z;
}.

(** The request [loader_svc_rpc] writes: header fields, payload, and the
    byte count [wr_num_bytes]. *)
Record loader_svc_request := mkRequest {
  rq_txid : Z;
  rq_opcode : Z;
  rq_data : list ascii;
  rq_num_bytes : Z;
}.

(** What [mx_channel_call] leaves behind: its status, [read_status],
    [reply_size], the header fields of the reply buffer and the handle slot
    (which the source initialises to [MX_HANDLE_INVALID]). *)
Record loader_svc_reply := mkReply {
  rp_status : Z;
  rp_read_status : Z;
  rp_reply_size : Z;
  rp_opcode : Z;
  rp_arg : Z;
  rp_handle : Z;
}.

(** ** The collaborators *)

Class Kernel (world elf_load_info_t : Type) := {
  (* libc: whether the allocation succeeds; for realloc, the contents of
     the slots beyond the old block *)
  calloc : world -> bool * world;
  malloc : Z -> world -> bool * world;
  realloc : Z -> world -> option (nat -> Z) * world;
  free : world -> world;
  close : Z -> world -> world;
  mtx_lock : world -> world;
  mtx_unlock : world -> world;
  atomic_fetch_add : world -> Z * world;
  (* system calls: status first, then the out parameters *)
  mx_handle_close : Z -> world -> world;
  mx_handle_duplicate : Z -> world -> (Z * Z) * world;
  mx_job_default : world -> Z * world;
  mx_process_create : Z -> string -> world -> (Z * Z * Z) * world;
  mx_channel_create : world -> (Z * Z * Z) * world;
  mx_channel_write : Z -> proc_args_msg -> list Z -> world -> Z * world;
  mx_channel_call : Z -> loader_svc_request -> world -> loader_svc_reply * world;
  mx_vmo_create : Z -> world -> (Z * Z) * world;
  mx_vmar_map : Z -> Z -> Z -> world -> (Z * Z) * world;
  mx_thread_create : Z -> string -> world -> (Z * Z) * world;
  mx_process_start : Z -> Z -> Z -> Z -> Z -> Z -> world -> Z * world;
  mx_thread_start : Z -> Z -> Z -> Z -> Z -> world -> Z * world;
  (* mxio and launchpad/vmo.h *)
  mxio_loader_service : world -> Z * world;
  mxio_pipe_half : world -> (Z * Z * Z) * world;
  mxio_get_startup_handle : Z -> world -> Z * world;
  launchpad_vmo_from_file : string -> world -> Z * world;
  launchpad_vmo_from_fd : Z -> world -> Z * world;
  (* elf.h; elf_load_finish is given the current values of its two out
     parameters and returns the new ones *)
  elf_load_start : Z -> world -> (Z * elf_load_info_t) * world;
  elf_load_finish :
    Z -> elf_load_info_t -> Z -> Z -> Z -> world -> (Z * Z * Z) * world;
  elf_load_get_interp :
    elf_load_info_t -> Z -> world -> (Z * option string * Z) * world;
  elf_load_get_stack_size : elf_load_info_t -> world -> Z * world;
  elf_load_destroy : elf_load_info_t -> world -> world;
}.

(** ** Computations *)

(** The state a launchpad function runs in: the context its [lp] argument
    points to, the file-level static [vdso_vmo], and the world. *)
Record state (world : Type) := mkState {
  st_lp : launchpad;
  st_vdso_vmo : Z;
  st_world : world;
}.
Arguments mkState {world} _ _ _.
Arguments st_lp {world} _.
Arguments st_vdso_vmo {world} _.
Arguments st_world {world} _.

Definition M (world A : Type) : Type := state world -> option (A * state world).

Definition ret {world A} (a : A) : M world A := fun st => Some (a, st).

Definition bind {world A B} (m : M world A) (k : A -> M world B) : M world B :=
  fun st => match m st with
            | Some (a, st') => k a st'
            | None => None
            end.

Definition undefined {world A} : M world A := fun _ => None.

Declare Scope lp_scope.
Delimit Scope lp_scope with lp.
Notation "x <- m ;; k" := (bind m (fun x => k))
  (at level 100, m at next level, right associativity) : lp_scope.
Notation "m ;; k" := (bind m (fun _ => k))
  (at level 100, right associativity) : lp_scope.
Local Open Scope lp_scope.

Definition get_lp {world} : M world launchpad := fun st => Some (st_lp st, st).

Definition modify_lp {world} (f : launchpad -> launchpad) : M world unit :=
  fun st => Some (tt, mkState (f (st_lp st)) (st_vdso_vmo st) (st_world st)).

Definition put_lp {world} (lp : launchpad) : M world unit :=
  modify_lp (fun _ => lp).

Definition get_vdso_vmo {world} : M world Z :=
  fun st => Some (st_vdso_vmo st, st).

Definition put_vdso_vmo {world} (h : Z) : M world unit :=
  fun st => Some (tt, mkState (st_lp st) h (st_world st)).

(** A call that returns something, and a call whose result is ignored. *)
Definition call {world A} (f : world -> A * world) : M world A :=
  fun st => let (a, w) := f (st_world st) in
            Some (a, mkState (st_lp st) (st_vdso_vmo st) w).

Definition call_ {world} (f : world -> world) : M world unit :=
  fun st => Some (tt, mkState (st_lp st) (st_vdso_vmo st) (f (st_world st))).

(** Array accesses.  [len l] is the number of slots of the array. *)
Definition len {A} (l : list A) : Z := Z.of_nat (length l).

Definition load {world} (l : list Z) (i : Z) : M world Z :=
  match l !! Z.to_nat i with
  | Some x => if 0 <=? i then ret x else undefined
  | None => undefined
  end.

Definition store {world} (l : list Z) (i : Z) (x : Z) : M world (list Z) :=
  if (0 <=? i) && (i <? len l) then ret (<[Z.to_nat i := x]> l) else undefined.

(** The first [n] elements of a caller's array of 4-byte elements. *)
Definition load_n {world} (l : list Z) (n : Z) : M world (list Z) :=
  if (0 <=? n) && (n <=? len l) && (n * 4 <=? SIZE_MAX)
  then ret (take (Z.to_nat n) l) else undefined.

(** [memcpy(&dst[off], src, ...)] of whole elements. *)
Definition memcpy {world} (dst : list Z) (off : Z) (src : list Z)
    : M world (list Z) :=
  if (0 <=? off) && (off + len src <=? len dst)
  then ret (list_inserts (Z.to_nat off) src dst) else undefined.

(** The block [realloc] returns on success: [n] slots, the old contents
    first, then whatever the allocator left there. *)
Definition resize_block (old : list Z) (n : Z) (fresh : nat -> Z) : list Z :=
  take (Z.to_nat n) old ++
  map fresh (seq (length old) (Z.to_nat n - length old)).

Definition buf_bytes (b : option (list ascii)) : list ascii :=
  match b with Some l => l | None => [] end.

(** A caller's string as the two loops of [launchpad_set_args] and
    [launchpad_set_environ] see it: once by [strlen], later by [stpcpy].
    The source's comment ("The strings changed in parallel") is about the
    two differing. *)
Record observed := mkObserved {
  at_strlen : string;
  at_stpcpy : string;
}.

Definition stable (s : string) : observed := mkObserved s s.

Definition nul : ascii := Ascii.zero.

Definition strlen (s : string) : Z := Z.of_nat (String.length s).

(** ** The functions of launchpad.c *)

Section Launchpad.

Context {Mg : Magenta} {world elf_load_info_t : Type}
        {K : Kernel world elf_load_info_t}.

Local Abbreviation M := (M world).

Definition lp_error (err : Z) (msg : string) : M Z :=
  lp <- get_lp ;;
  (if error lp =? NO_ERROR then put_lp (with_error err msg lp) else ret tt) ;;
  lp <- get_lp ;;
  ret (error lp).

Definition launchpad_get_status : M Z :=
  lp <- get_lp ;; ret (error lp).

Definition launchpad_abort (err : Z) (msg : string) : M unit :=
  lp_error (if err <? 0 then err else ERR_INTERNAL) msg ;; ret tt.

Definition launchpad_error_message : M string :=
  lp <- get_lp ;; ret (errmsg lp).

(** [lp_proc(lp)] and [lp_vmar(lp)] *)
Definition lp_proc : M Z := lp <- get_lp ;; load (handles lp) 0.
Definition lp_vmar : M Z := lp <- get_lp ;; load (handles lp) 1.

Fixpoint close_each (hs : list Z) : M unit :=
  match hs with
  | [] => ret tt
  | h :: rest =>
      (if h =? MX_HANDLE_INVALID then ret tt else call_ (mx_handle_close h)) ;;
      close_each rest
  end.

Definition close_handles (hs : list Z) (count : Z) : M unit :=
  if count <=? len hs then close_each (take (Z.to_nat count) hs)
  else undefined.

Definition launchpad_destroy (p : lp_ptr) : M unit :=
  match p with
  | LpInvalidStatic => ret tt
  | LpHeap =>
      lp <- get_lp ;;
      close_handles [special_get (special_handles lp) HND_LOADER_SVC;
                     special_get (special_handles lp) HND_EXEC_VMO]
                    HND_SPECIAL_COUNT ;;
      close_handles (handles lp) (handle_count lp) ;;
      call_ free ;;
      call_ free ;;
      call_ free ;;
      call_ free ;;
      call_ free
  end.

Definition more_handles (n : Z) : M Z :=
  lp <- get_lp ;;
  if negb (error lp =? NO_ERROR) then ret (error lp) else
  if wrap64 (handle_alloc lp - handle_count lp) <? n then
    let alloc :=
      if handle_alloc lp =? 0 then 8 else wrap64 (handle_alloc lp * 2) in
    r <- call (realloc (wrap64 (alloc * sizeof_handle))) ;;
    match r with
    | None => lp_error ERR_NO_MEMORY "out of memory for handle table"
    | Some fresh =>
        modify_lp (with_handles
          (resize_block (handles lp)
             (wrap64 (alloc * sizeof_handle) / sizeof_handle) fresh)) ;;
        r' <- call (realloc (wrap64 (alloc * sizeof_uint32))) ;;
        match r' with
        | None => lp_error ERR_NO_MEMORY "out of memory for handle table"
        | Some fresh' =>
            modify_lp (with_handles_info
              (resize_block (handles_info lp)
                 (wrap64 (alloc * sizeof_uint32) / sizeof_uint32) fresh')) ;;
            modify_lp (with_handle_alloc alloc) ;;
            ret NO_ERROR
        end
    end
  else ret NO_ERROR.

Definition launchpad_add_handle (h id : Z) : M Z :=
  if h =? MX_HANDLE_INVALID
  then lp_error ERR_BAD_HANDLE "added invalid handle"
  else
    status <- more_handles 1 ;;
    if status =? NO_ERROR then
      lp <- get_lp ;;
      hs <- store (handles lp) (handle_count lp) h ;;
      ids <- store (handles_info lp) (handle_count lp) id ;;
      put_lp (with_handle_count (wrap64 (handle_count lp + 1))
                (with_handles_info ids (with_handles hs lp))) ;;
      ret status
    else
      call_ (mx_handle_close h) ;;
      ret status.

Fixpoint close_all (hs : list Z) : M unit :=
  match hs with
  | [] => ret tt
  | h :: rest => call_ (mx_handle_close h) ;; close_all rest
  end.

Definition launchpad_add_handles (n : Z) (h id : list Z) : M Z :=
  status <- more_handles n ;;
  if status =? NO_ERROR then
    lp <- get_lp ;;
    src <- load_n h n ;;
    src_id <- load_n id n ;;
    hs <- memcpy (handles lp) (handle_count lp) src ;;
    ids <- memcpy (handles_info lp) (handle_count lp) src_id ;;
    put_lp (with_handle_count (wrap64 (handle_count lp + n))
              (with_handles_info ids (with_handles hs lp))) ;;
    if existsb (fun x => x =? MX_HANDLE_INVALID) src
    then lp_error ERR_BAD_HANDLE "added invalid handle"
    else ret status
  else
    src <- load_n h n ;;
    close_all src ;;
    ret status.

Definition launchpad_create_with_process (proc vmar : Z) : M (Z * lp_ptr) :=
  ok <- call calloc ;;
  (if ok : bool
   then put_lp (with_stack_size MAGENTA_DEFAULT_STACK_SIZE
                  (with_error (error zeroed_launchpad) "no error"
                     zeroed_launchpad))
   else put_lp invalid_launchpad) ;;
  launchpad_add_handle proc MX_HND_TYPE_PROC_SELF ;;
  launchpad_add_handle vmar MX_HND_TYPE_VMAR_ROOT ;;
  lp <- get_lp ;;
  ret (error lp, if ok then LpHeap else LpInvalidStatic).

Definition launchpad_create_with_jobs (creation_job transfered_job : Z)
    (name : string) : M (Z * lp_ptr) :=
  r <- call (mx_process_create creation_job name) ;;
  let '(status, proc, vmar) := r in
  c <- launchpad_create_with_process proc vmar ;;
  (if status <? 0
   then lp_error status "create: mx_process_create() failed" ;; ret tt
   else ret tt) ;;
  (if negb (transfered_job =? MX_HANDLE_INVALID)
   then launchpad_add_handle transfered_job (MX_HND_INFO MX_HND_TYPE_JOB 0) ;;
        ret tt
   else ret tt) ;;
  lp <- get_lp ;;
  ret (error lp, snd c).

Definition launchpad_create (job : Z) (name : string) : M (Z * lp_ptr) :=
  job <- (if job =? MX_HANDLE_INVALID then call mx_job_default else ret job) ;;
  d <- call (mx_handle_duplicate job) ;;
  (* xjob starts as MX_HANDLE_INVALID; the status is ignored *)
  launchpad_create_with_jobs job (snd d) name.

Definition launchpad_get_process_handle : M Z := lp_proc.
Definition launchpad_get_root_vmar_handle : M Z := lp_vmar.

(** The first [argc] entries of [argv]. *)
Definition read_argv (argv : list observed) (argc : Z) : M (list observed) :=
  if argc <=? len argv then ret (take (Z.to_nat argc) argv) else undefined.

(** First loop: [total += strlen(argv[i]) + 1]. *)
Definition strlen_total (av : list observed) : Z :=
  fold_left (fun total o => wrap64 (total + strlen (at_strlen o) + 1)) av 0.

(** Second loop: [p = stpcpy(p, argv[i]) + 1]; the bytes written. *)
Definition stpcpy_all (av : list observed) : list ascii :=
  flat_map (fun o => list_ascii_of_string (at_stpcpy o) ++ [nul]) av.

(** The body both setters share once [total] is known: allocate, copy,
    compare; [None] stands for the paths that return through [lp_error].
    Writing past the [total] bytes allocated is undefined. *)
Definition copy_strings (av : list observed) (total : Z)
    (oom trickery : string) : M (Z + option (list ascii)) :=
  if 0 <? total then
    ok <- call (malloc total) ;;
    if negb ok then e <- lp_error ERR_NO_MEMORY oom ;; ret (inl e) else
    let copied := stpcpy_all av in
    if total <? len copied then undefined else
    if negb (len copied =? total) then
      call_ free ;;
      e <- lp_error ERR_INVALID_ARGS trickery ;; ret (inl e)
    else ret (inr (Some copied))
  else ret (inr None).

Definition launchpad_set_args (argc : Z) (argv : list observed) : M Z :=
  lp <- get_lp ;;
  if negb (error lp =? NO_ERROR) then ret (error lp) else
  if argc <? 0 then lp_error ERR_INVALID_ARGS "arguments: negative argc" else
  av <- read_argv argv argc ;;
  let total := strlen_total av in
  r <- copy_strings av total "arguments: out of memory" "arguments: trickery" ;;
  match r with
  | inl e => ret e
  | inr buffer =>
      call_ free ;;
      modify_lp (with_args argc buffer total) ;;
      ret NO_ERROR
  end.

(** [envp] is [None] for [NULL], otherwise the entries before the
    terminating [NULL]. *)
Definition launchpad_set_environ (envp : option (list observed)) : M Z :=
  lp <- get_lp ;;
  if negb (error lp =? NO_ERROR) then ret (error lp) else
  let ev := match envp with Some l => l | None => [] end in
  let total := strlen_total ev in
  let envc := fold_left (fun c _ => wrap32 (c + 1)) ev 0 in
  r <- copy_strings ev total "environ: out of memory" "environ: trickery" ;;
  match r with
  | inl e => ret e
  | inr buffer =>
      call_ free ;;
      modify_lp (with_env envc buffer total) ;;
      ret NO_ERROR
  end.

Definition launchpad_add_pipe (target_fd : Z) : M (Z * option Z) :=
  lp <- get_lp ;;
  if negb (error lp =? NO_ERROR) then ret (error lp, None) else
  if (target_fd <? 0) || (MAX_MXIO_FD <=? target_fd) then
    e <- lp_error ERR_INVALID_ARGS "add_pipe: invalid target fd" ;;
    ret (e, None)
  else
    r <- call mxio_pipe_half ;;
    let '(status, handle, id) := r in
    if status <? 0 then
      e <- lp_error status "add_pipe: failed to create pipe" ;;
      ret (e, None)
    else
      let fd := status in
      status <- launchpad_add_handle handle
                  (MX_HND_INFO (MX_HND_INFO_TYPE id) target_fd) ;;
      if status <? 0 then
        call_ (close fd) ;;
        call_ (mx_handle_close handle) ;;
        ret (status, None)
      else ret (NO_ERROR, Some fd).

(** [PAGE_SIZE] is an [int] constant, so [-PAGE_SIZE] converts to
    [size_t] as [2^64 - PAGE_SIZE]. *)
Definition page_mask : Z := wrap64 (- PAGE_SIZE).

Definition launchpad_set_stack_size (new_size : Z) : M Z :=
  lp <- get_lp ;;
  let old_size := stack_size lp in
  let new_size :=
    if Z.land SIZE_MAX page_mask <=? new_size then Z.land SIZE_MAX page_mask
    else if 0 <? new_size
         then Z.land (wrap64 (new_size + PAGE_SIZE - 1)) page_mask
         else new_size in
  (if error lp =? NO_ERROR
   then modify_lp (with_stack_size new_size) else ret tt) ;;
  ret old_size.

Definition check_elf_stack_size (elf : elf_load_info_t) : M unit :=
  elf_stack_size <- call (elf_load_get_stack_size elf) ;;
  if 0 <? elf_stack_size
  then launchpad_set_stack_size elf_stack_size ;; ret tt
  else ret tt.

(** [elf_load_finish(lp_vmar(lp), elf, vmo, &lp->base, &lp->entry)] *)
Definition elf_load_finish_lp (elf : elf_load_info_t) (vmo : Z) : M Z :=
  vmar <- lp_vmar ;;
  lp <- get_lp ;;
  r <- call (elf_load_finish vmar elf vmo (base lp) (entry lp)) ;;
  let '(status, b, e) := r in
  modify_lp (fun lp => with_entry e (with_base b lp)) ;;
  ret status.

Definition launchpad_elf_load_basic (vmo : Z) : M Z :=
  if vmo <? 0 then lp_error vmo "elf_load: negative vmo" else
  if vmo =? MX_HANDLE_INVALID
  then lp_error ERR_INVALID_ARGS "elf_load: invalid vmo" else
  lp <- get_lp ;;
  (if negb (error lp =? NO_ERROR) then ret tt else
     r <- call (elf_load_start vmo) ;;
     let '(status, elf) := r in
     (if negb (status =? NO_ERROR)
      then lp_error status "elf_load: elf_load_start() failed" ;; ret tt
      else ret tt) ;;
     status <- elf_load_finish_lp elf vmo ;;
     (if negb (status =? NO_ERROR)
      then lp_error status "elf_load: elf_load_finish() failed" ;; ret tt
      else ret tt) ;;
     check_elf_stack_size elf ;;
     call_ (elf_load_destroy elf) ;;
     if status =? NO_ERROR then modify_lp (with_loader_message false)
     else ret tt) ;;
  (* done: *)
  call_ (mx_handle_close vmo) ;;
  lp <- get_lp ;;
  ret (error lp).

(** The two out parameters are passed as their current values and returned
    as their final ones. *)
Definition launchpad_elf_load_extra (vmo : Z) (base0 entry0 : Z)
    : M (Z * Z * Z) :=
  lp <- get_lp ;;
  if negb (error lp =? NO_ERROR) then ret (error lp, base0, entry0) else
  if vmo <? 0 then
    e <- lp_error vmo "elf_load_extra: negative vmo" ;; ret (e, base0, entry0)
  else if vmo =? MX_HANDLE_INVALID then
    e <- lp_error ERR_INVALID_ARGS "elf_load_extra: invalid vmo" ;;
    ret (e, base0, entry0)
  else
    r <- call (elf_load_start vmo) ;;
    let '(status, elf) := r in
    (if negb (status =? NO_ERROR)
     then lp_error status "elf_load_extra: elf_load_start() failed" ;; ret tt
     else ret tt) ;;
    vmar <- lp_vmar ;;
    r <- call (elf_load_finish vmar elf vmo base0 entry0) ;;
    let '(status, b, e) := r in
    (if negb (status =? NO_ERROR)
     then lp_error status "elf_load_extra: elf_load_finish() failed" ;; ret tt
     else ret tt) ;;
    call_ (elf_load_destroy elf) ;;
    lp <- get_lp ;;
    ret (error lp, b, e).

Definition LOADER_SVC_MSG_MAX : Z := 1024.

(** [sizeof(msg.data)] *)
Definition loader_svc_data_size : Z :=
  LOADER_SVC_MSG_MAX - sizeof_mx_loader_svc_msg_t.

Definition protocol_violation (handle : Z) : M Z :=
  call_ (mx_handle_close handle) ;;
  ret ERR_BAD_STATE.

Definition loader_svc_rpc (loader_svc opcode : Z) (data : list ascii)
    (len : Z) : M Z :=
  if loader_svc_data_size <=? len then ret ERR_BUFFER_TOO_SMALL else
  txid <- call atomic_fetch_add ;;
  if negb ((0 <=? len) && (len <=? Z.of_nat (length data))) then undefined else
  let request :=
    mkRequest txid opcode (take (Z.to_nat len) data ++ [nul])
              (sizeof_mx_loader_svc_msg_t + len + 1) in
  reply <- call (mx_channel_call loader_svc request) ;;
  if negb (rp_status reply =? NO_ERROR) then
    ret (if rp_status reply =? ERR_CALL_FAILED
         then rp_read_status reply else rp_status reply)
  else
  (* Check for protocol violations. *)
  if negb (rp_reply_size reply =? sizeof_mx_loader_svc_msg_t) then
    protocol_violation (rp_handle reply)
  else if negb (rp_opcode reply =? LOADER_SVC_OP_STATUS) then
    protocol_violation (rp_handle reply)
  else if negb (rp_arg reply =? NO_ERROR) then
    if negb (rp_handle reply =? MX_HANDLE_INVALID) then
      protocol_violation (rp_handle reply)
    else if 0 <? rp_arg reply then
      protocol_violation (rp_handle reply)
    else ret (rp_arg reply)
  else ret (rp_handle reply).

Definition setup_loader_svc : M Z :=
  lp <- get_lp ;;
  if negb (special_get (special_handles lp) HND_LOADER_SVC =? MX_HANDLE_INVALID)
  then ret NO_ERROR
  else
    loader_svc <- call mxio_loader_service ;;
    if loader_svc <? 0 then ret loader_svc
    else
      modify_lp (fun lp => with_special_handles
                   (special_set (special_handles lp) HND_LOADER_SVC loader_svc)
                   lp) ;;
      ret NO_ERROR.

(** Consumes [vmo] on success, not on failure. *)
Definition handle_interp (vmo : Z) (interp : string) (interp_len : Z) : M Z :=
  status <- setup_loader_svc ;;
  if negb (status =? NO_ERROR) then ret status else
  lp <- get_lp ;;
  interp_vmo <- loader_svc_rpc
                  (special_get (special_handles lp) HND_LOADER_SVC)
                  LOADER_SVC_OP_LOAD_OBJECT
                  (list_ascii_of_string interp) interp_len ;;
  if interp_vmo <? 0 then ret interp_vmo else
  r <- call (elf_load_start interp_vmo) ;;
  let '(status, elf) := r in
  status <- (if status =? NO_ERROR then
               status <- elf_load_finish_lp elf interp_vmo ;;
               call_ (elf_load_destroy elf) ;;
               ret status
             else ret status) ;;
  call_ (mx_handle_close interp_vmo) ;;
  (if status =? NO_ERROR then
     lp <- get_lp ;;
     (if negb (special_get (special_handles lp) HND_EXEC_VMO
               =? MX_HANDLE_INVALID)
      then call_ (mx_handle_close
                    (special_get (special_handles lp) HND_EXEC_VMO))
      else ret tt) ;;
     modify_lp (fun lp => with_special_handles
                  (special_set (special_handles lp) HND_EXEC_VMO vmo) lp) ;;
     modify_lp (with_loader_message true)
   else ret tt) ;;
  ret status.

Definition launchpad_elf_load (vmo : Z) : M Z :=
  if vmo <? 0 then lp_error vmo "elf_load: negative vmo" else
  if vmo =? MX_HANDLE_INVALID
  then lp_error ERR_INVALID_ARGS "elf_load: invalid vmo" else
  lp <- get_lp ;;
  vmo <- (if negb (error lp =? NO_ERROR) then ret vmo else
    r <- call (elf_load_start vmo) ;;
    let '(status, elf) := r in
    if negb (status =? NO_ERROR) then
      lp_error status "elf_load: elf_load_start() failed" ;; ret vmo
    else
      r <- call (elf_load_get_interp elf vmo) ;;
      let '(status, interp, interp_len) := r in
      vmo <- (if negb (status =? NO_ERROR) then
                lp_error status "elf_load: get_interp() failed" ;; ret vmo
              else
                sv <- match interp with
                      | None =>
                          status <- elf_load_finish_lp elf vmo ;;
                          (if negb (status =? NO_ERROR) then
                             lp_error status
                               "elf_load: elf_load_finish() failed" ;; ret tt
                           else modify_lp (with_loader_message false)) ;;
                          ret (status, vmo)
                      | Some path =>
                          status <- handle_interp vmo path interp_len ;;
                          vmo <- (if negb (status =? NO_ERROR) then
                                    lp_error status
                                      "elf_load: handle_interp failed" ;;
                                    ret vmo
                                  else
                                    (* handle_interp() takes ownership of vmo
                                       on success *)
                                    ret MX_HANDLE_INVALID) ;;
                          call_ free ;;
                          ret (status, vmo)
                      end ;;
                (if fst sv =? NO_ERROR then check_elf_stack_size elf
                 else ret tt) ;;
                ret (snd sv)) ;;
      call_ (elf_load_destroy elf) ;;
      ret vmo) ;;
  (* done: *)
  (if negb (vmo =? 0) then call_ (mx_handle_close vmo) else ret tt) ;;
  lp <- get_lp ;;
  ret (error lp).

Definition vdso_lock : M unit := call_ mtx_lock.
Definition vdso_unlock : M unit := call_ mtx_unlock.

Definition vdso_get_vmo : M Z :=
  v <- get_vdso_vmo ;;
  (if v =? MX_HANDLE_INVALID then
     h <- call (mxio_get_startup_handle (MX_HND_INFO MX_HND_TYPE_VDSO_VMO 0)) ;;
     put_vdso_vmo h
   else ret tt) ;;
  get_vdso_vmo.

Definition launchpad_get_vdso_vmo : M Z :=
  vdso_lock ;;
  v <- vdso_get_vmo ;;
  d <- call (mx_handle_duplicate v) ;;
  vdso_unlock ;;
  if fst d <? 0 then ret (fst d) else ret (snd d).

Definition launchpad_set_vdso_vmo (new_vdso_vmo : Z) : M Z :=
  vdso_lock ;;
  old <- get_vdso_vmo ;;
  put_vdso_vmo new_vdso_vmo ;;
  vdso_unlock ;;
  ret old.

Definition launchpad_add_vdso_vmo : M Z :=
  lp <- get_lp ;;
  if negb (error lp =? NO_ERROR) then ret (error lp) else
  vdso <- launchpad_get_vdso_vmo ;;
  if vdso <? 0 then lp_error vdso "add_vdso_vmo: get_vdso_vmo failed" else
  status <- launchpad_add_handle vdso (MX_HND_INFO MX_HND_TYPE_VDSO_VMO 0) ;;
  (if negb (status =? NO_ERROR) then call_ (mx_handle_close vdso)
   else ret tt) ;;
  ret status.

(** [launchpad_elf_load_extra(lp, vmo, &lp->vdso_base, NULL)] *)
Definition elf_load_extra_vdso (vmo : Z) : M Z :=
  lp <- get_lp ;;
  r <- launchpad_elf_load_extra vmo (vdso_base lp) 0 ;;
  modify_lp (with_vdso_base (snd (fst r))) ;;
  ret (fst (fst r)).

Definition launchpad_load_vdso (vmo : Z) : M Z :=
  if negb (vmo =? MX_HANDLE_INVALID) then elf_load_extra_vdso vmo else
  vdso_lock ;;
  vmo <- vdso_get_vmo ;;
  status <- elf_load_extra_vdso vmo ;;
  vdso_unlock ;;
  ret status.

Definition launchpad_get_entry_address : M (Z * option Z) :=
  lp <- get_lp ;;
  if entry lp =? 0 then ret (ERR_BAD_STATE, None)
  else ret (NO_ERROR, Some (entry lp)).

Definition launchpad_get_base_address : M (Z * option Z) :=
  lp <- get_lp ;;
  if base lp =? 0 then ret (ERR_BAD_STATE, None)
  else ret (NO_ERROR, Some (base lp)).

Definition launchpad_send_loader_message (do_send : bool) : M bool :=
  lp <- get_lp ;;
  let result := loader_message lp in
  (if error lp =? NO_ERROR then modify_lp (with_loader_message do_send)
   else ret tt) ;;
  ret result.

Definition launchpad_use_loader_service (svc : Z) : M Z :=
  lp <- get_lp ;;
  if negb (error lp =? NO_ERROR) then
    call_ (mx_handle_close svc) ;;
    ret (error lp)
  else
    let result := special_get (special_handles lp) HND_LOADER_SVC in
    modify_lp (fun lp => with_special_handles
                 (special_set (special_handles lp) HND_LOADER_SVC svc) lp) ;;
    ret result.

(** [struct loader_msg] is the header, five handle-info words and the
    strings; all its members are 32-bit words or bytes, so there is no
    padding. *)
Definition sizeof_loader_msg : Z :=
  sizeof_mx_proc_args_t + (HND_SPECIAL_COUNT + HND_LOADER_COUNT) * sizeof_uint32.

(** The [args] and [env] bytes a message carries. *)
Definition message_strings (lp : launchpad) : list ascii :=
  (if 0 <? argc lp
   then take (Z.to_nat (args_len lp)) (buf_bytes (args lp)) else []) ++
  (if 0 <? envc lp
   then take (Z.to_nat (env_len lp)) (buf_bytes (env lp)) else []).

(** One turn of the loop over the special handles, for [i] below
    [HND_SPECIAL_COUNT]: the handle and its info word, when present. *)
Definition loader_special (lp : launchpad) (i : special_handles_t)
    : list (Z * Z) :=
  let id := match i with
            | HND_LOADER_SVC => MX_HND_TYPE_LOADER_SVC
            | HND_EXEC_VMO => MX_HND_TYPE_EXEC_VMO
            end in
  if negb (special_get (special_handles lp) i =? MX_HANDLE_INVALID)
  then [(special_get (special_handles lp) i, id)] else [].

Definition send_loader_message (first_thread tochannel : Z) : M Z :=
  lp <- get_lp ;;
  let msg_size := wrap64 (sizeof_loader_msg + args_len lp + env_len lp) in
  ok <- call (malloc msg_size) ;;
  if negb ok then ret ERR_NO_MEMORY else
  let specials :=
    loader_special lp HND_LOADER_SVC ++ loader_special lp HND_EXEC_VMO in
  (* case HND_SPECIAL_COUNT: duplicate the handles for the loader *)
  p <- lp_proc ;;
  d <- call (mx_handle_duplicate p) ;;
  let '(status, proc) := d in
  if negb (status =? NO_ERROR) then call_ free ;; ret status else
  v <- lp_vmar ;;
  d <- call (mx_handle_duplicate v) ;;
  let '(status, vmar) := d in
  if negb (status =? NO_ERROR) then
    call_ (mx_handle_close proc) ;; call_ free ;; ret status
  else
  d <- call (mx_handle_duplicate first_thread) ;;
  let '(status, thread) := d in
  if negb (status =? NO_ERROR) then
    call_ (mx_handle_close proc) ;; call_ (mx_handle_close vmar) ;;
    call_ free ;; ret status
  else
  let sent := specials ++ [(proc, MX_HND_TYPE_PROC_SELF);
                           (vmar, MX_HND_TYPE_VMAR_ROOT);
                           (thread, MX_HND_TYPE_THREAD_SELF)] in
  let msg :=
    mkProcArgs MX_PROCARGS_PROTOCOL MX_PROCARGS_VERSION
      sizeof_mx_proc_args_t
      (if 0 <? argc lp then sizeof_loader_msg else 0)
      (if 0 <? argc lp then argc lp else 0)
      (if 0 <? envc lp then wrap32 (sizeof_loader_msg + args_len lp) else 0)
      (if 0 <? envc lp then envc lp else 0)
      (map snd sent) (message_strings lp) msg_size in
  status <- call (mx_channel_write tochannel msg (map fst sent)) ;;
  (if status =? NO_ERROR then
     (* message_write consumed all those handles. *)
     modify_lp (with_special_handles (MX_HANDLE_INVALID, MX_HANDLE_INVALID)) ;;
     modify_lp (with_loader_message false)
   else
     (* Close the handles we duplicated for the loader. *)
     call_ (mx_handle_close thread) ;;
     call_ (mx_handle_close vmar) ;;
     call_ (mx_handle_close proc)) ;;
  call_ free ;;
  ret status.

(** [build_message]: [None] when [malloc] fails, otherwise the message,
    whose [pa_size] is [*total_size]. *)
Definition build_message : M (option proc_args_msg) :=
  lp <- get_lp ;;
  let total :=
    wrap64 (sizeof_mx_proc_args_t + handle_count lp * sizeof_uint32
            + args_len lp + env_len lp) in
  ok <- call (malloc total) ;;
  if negb ok then ret None else
  info <- load_n (handles_info lp) (handle_count lp) ;;
  let after_info := sizeof_mx_proc_args_t + handle_count lp * sizeof_uint32 in
  let after_args :=
    if 0 <? argc lp then after_info + args_len lp else after_info in
  ret (Some
    (mkProcArgs MX_PROCARGS_PROTOCOL MX_PROCARGS_VERSION
       sizeof_mx_proc_args_t
       (if 0 <? argc lp then wrap32 after_info else 0)
       (if 0 <? argc lp then argc lp else 0)
       (if 0 <? envc lp then wrap32 after_args else 0)
       (if 0 <? envc lp then envc lp else 0)
       info (message_strings lp) total)).

(** [prepare_start], in the four steps of its body.  A step returns
    [Some status] when the function returns from inside it. *)

(** Lines 787-814: [*sp = 0] and the stack; returns also the value of
    [*sp]. *)
Definition prepare_start_stack : M (option Z * Z) :=
  lp <- get_lp ;;
  if 0 <? stack_size lp then
    (* Allocate the initial thread's stack. *)
    r <- call (mx_vmo_create (stack_size lp)) ;;
    let '(status, stack_vmo) := r in
    if status <? 0 then
      e <- lp_error status "cannot create stack vmo" ;; ret (Some e, 0)
    else
      vmar <- lp_vmar ;;
      r <- call (mx_vmar_map vmar stack_vmo (stack_size lp)) ;;
      let '(status, stack_base) := r in
      r <- (if status =? NO_ERROR then
              status <- launchpad_add_handle stack_vmo MX_HND_TYPE_STACK_VMO ;;
              ret (status,
                   compute_initial_stack_pointer stack_base (stack_size lp))
            else ret (status, 0)) ;;
      let '(status, sp) := r in
      if negb (status =? NO_ERROR) then
        call_ (mx_handle_close stack_vmo) ;;
        e <- lp_error status "cannot map stack vmo" ;; ret (Some e, sp)
      else ret (None, sp)
  else ret (None, 0).

(** Lines 816-836: the initial thread; returns also the value of
    [*thread]. *)
Definition prepare_start_thread (thread_name : string) : M (option Z * Z) :=
  p <- lp_proc ;;
  r <- call (mx_thread_create p thread_name) ;;
  let '(status, thread) := r in
  if status <? 0 then
    e <- lp_error status "cannot create initial thread" ;; ret (Some e, thread)
  else
    d <- call (mx_handle_duplicate thread) ;;
    let '(status, thread_copy) := d in
    if status <? 0 then
      call_ (mx_handle_close thread) ;;
      e <- lp_error status "cannot duplicate thread handle" ;;
      ret (Some e, thread)
    else
      status <- launchpad_add_handle thread_copy MX_HND_TYPE_THREAD_SELF ;;
      if negb (status =? NO_ERROR) then
        call_ (mx_handle_close thread) ;;
        ret (Some status, thread)
      else ret (None, thread).

(** Lines 838-844: the loader message. *)
Definition prepare_start_loader (thread to_child : Z) : M (option Z) :=
  lp <- get_lp ;;
  if loader_message lp then
    status <- send_loader_message thread to_child ;;
    if negb (status =? NO_ERROR) then
      call_ (mx_handle_close thread) ;;
      e <- lp_error status "failed to send loader message" ;; ret (Some e)
    else ret None
  else ret None.

(** Lines 846-877: the bootstrap message. *)
Definition prepare_start_procargs (thread to_child : Z) : M Z :=
  msg <- build_message ;;
  match msg with
  | None =>
      call_ (mx_handle_close thread) ;;
      lp_error ERR_NO_MEMORY "out of memory assembling procargs message"
  | Some msg =>
      lp <- get_lp ;;
      if stack_size lp / 2 <? pa_size msg then
        call_ free ;;
        call_ (mx_handle_close thread) ;;
        lp_error ERR_BUFFER_TOO_SMALL "procargs message is too large"
      else
        sent <- load_n (handles lp) (handle_count lp) ;;
        status <- call (mx_channel_write to_child msg sent) ;;
        call_ free ;;
        if status =? NO_ERROR then
          (* message_write consumed all the handles. *)
          modify_lp (fun lp =>
            with_handles
              (list_inserts 0
                 (replicate (Z.to_nat (handle_count lp)) MX_HANDLE_INVALID)
                 (handles lp)) lp) ;;
          modify_lp (with_handle_count 0) ;;
          ret NO_ERROR
        else
          call_ (mx_handle_close thread) ;;
          lp_error status "failed to write procargs message"
  end.

(** The result is the status and the values of [*thread] and [*sp], [None]
    while the function has not written them. *)
Definition prepare_start (thread_name : string) (to_child : Z)
    : M (Z * option Z * option Z) :=
  lp <- get_lp ;;
  if entry lp =? 0 then ret (ERR_BAD_STATE, None, None) else
  r <- prepare_start_stack ;;
  let '(early, sp) := r in
  match early with Some e => ret (e, None, Some sp) | None =>
  r <- prepare_start_thread thread_name ;;
  let '(early, thread) := r in
  match early with Some e => ret (e, Some thread, Some sp) | None =>
  early <- prepare_start_loader thread to_child ;;
  match early with Some e => ret (e, Some thread, Some sp) | None =>
  status <- prepare_start_procargs thread to_child ;;
  ret (status, Some thread, Some sp)
  end end end.

Definition launchpad_start : M Z :=
  lp <- get_lp ;;
  if negb (error lp =? NO_ERROR) then ret (error lp) else
  p <- lp_proc ;;
  d <- call (mx_handle_duplicate p) ;;
  let '(status, proc) := d in
  if status <? 0 then lp_error status "start: cannot duplicate process handle"
  else
  c <- call mx_channel_create ;;
  let '(status, to_child, child_bootstrap) := c in
  if negb (status =? NO_ERROR) then
    call_ (mx_handle_close proc) ;;
    lp_error status "start: cannot create channel"
  else
  r <- prepare_start "main" to_child ;;
  let '(status, thread, sp) := r in
  call_ (mx_handle_close to_child) ;;
  status <- (if negb (status =? NO_ERROR) then
               lp_error status "start: prepare_start() failed" ;; ret status
             else
               match thread, sp with
               | Some thread, Some sp =>
                   lp <- get_lp ;;
                   status <- call (mx_process_start proc thread (entry lp) sp
                                     child_bootstrap (vdso_base lp)) ;;
                   (if negb (status =? NO_ERROR) then
                      lp_error status "start: mx_process_start() failed" ;;
                      ret tt
                    else ret tt) ;;
                   call_ (mx_handle_close thread) ;;
                   ret status
               | _, _ => undefined
               end) ;;
  (* process_start consumed child_bootstrap if successful. *)
  if status =? NO_ERROR then ret proc else
  call_ (mx_handle_close child_bootstrap) ;;
  ret status.

Definition launchpad_start_injected (thread_name : string)
    (to_child bootstrap_handle_in_child : Z) : M Z :=
  lp <- get_lp ;;
  if negb (error lp =? NO_ERROR) then ret (error lp) else
  r <- prepare_start thread_name to_child ;;
  let '(status, thread, sp) := r in
  if negb (status =? NO_ERROR) then
    lp_error status "start_injected: prepare_start() failed" ;; ret status
  else
    match thread, sp with
    | Some thread, Some sp =>
        lp <- get_lp ;;
        status <- call (mx_thread_start thread (entry lp) sp
                          bootstrap_handle_in_child (vdso_base lp)) ;;
        (if negb (status =? NO_ERROR) then
           lp_error status "start_injected: mx_thread_start() failed" ;; ret tt
         else ret tt) ;;
        call_ (mx_handle_close thread) ;;
        ret status
    | _, _ => undefined
    end.

(** [want_proc] and [want_errmsg] tell whether the two out pointers are
    non-null; the result carries what is stored through them. *)
Definition launchpad_go (p : lp_ptr) (want_proc want_errmsg : bool)
    : M (Z * option Z * option string) :=
  h <- launchpad_start ;;
  lp <- get_lp ;;
  let msg := if want_errmsg then Some (errmsg lp) else None in
  r <- (if 0 <? h then
          if want_proc then ret (NO_ERROR, Some h)
          else call_ (mx_handle_close h) ;; ret (NO_ERROR, None)
        else ret (h, None)) ;;
  launchpad_destroy p ;;
  ret (fst r, snd r, msg).

Definition launchpad_arguments (argc : Z) (argv : list observed) : M Z :=
  launchpad_set_args argc argv.

Definition launchpad_environ (envp : option (list observed)) : M Z :=
  launchpad_set_environ envp.

Definition launchpad_elf_load_with_vdso (vmo : Z) : M Z :=
  launchpad_elf_load vmo ;;
  launchpad_load_vdso MX_HANDLE_INVALID ;;
  launchpad_add_vdso_vmo.

Definition launchpad_load_from_file (path : string) : M Z :=
  vmo <- call (launchpad_vmo_from_file path) ;;
  launchpad_elf_load_with_vdso vmo.

Definition launchpad_load_from_fd (fd : Z) : M Z :=
  vmo <- call (launchpad_vmo_from_fd fd) ;;
  launchpad_elf_load_with_vdso vmo.

Definition launchpad_load_from_vmo (vmo : Z) : M Z :=
  launchpad_elf_load_with_vdso vmo.

End Launchpad.

(** ** A scripted kernel

    One instance of the collaborators, used to run the functions on
    concrete inputs: the world is the log of the calls that have effects
    (most recent first) and a count of the allocations made; the answers
    come from a fixed script. *)

Inductive event :=
  | EvHandleClose (h : Z)
  | EvFree
  | EvClose (fd : Z)
  | EvLock
  | EvUnlock
  | EvChannelWrite (channel : Z) (msg : proc_args_msg) (hs : list Z)
  | EvChannelCall (channel : Z) (request : loader_svc_request)
  | EvElfFinish (vmo : Z)
  | EvElfDestroy
  | EvVmoCreate (size : Z)
  | EvProcessStart (proc thread entry sp arg : Z)
  | EvThreadStart (thread entry sp arg : Z).

Record trace := mkTrace {
  events : list event;
  allocations : nat;
}.

Definition log (e : event) (w : trace) : trace :=
  mkTrace (e :: events w) (allocations w).

Record script := mkScript {
  (* does the k-th allocation (calloc, malloc, realloc) succeed *)
  sc_alloc : nat -> bool;
  (* the words an enlarged block holds beyond the old contents *)
  sc_garbage : nat -> Z;
  (* status of mx_channel_write *)
  sc_write : Z;
  (* what the loader service answers *)
  sc_reply : loader_svc_reply;
  (* the PT_INTERP string of the image in a vmo *)
  sc_interp : Z -> option string;
  (* the stack size an image asks for *)
  sc_elf_stack : Z;
}.

Definition allocate (s : script) (w : trace) : bool * trace :=
  (sc_alloc s (allocations w), mkTrace (events w) (S (allocations w))).

(** The image in vmo [v] loads at base [v * 65536] with entry point
    [v * 65536 + 4096]; a duplicate of handle [h] is [h + 1000]. *)
Definition scripted (s : script) : Kernel trace Z := {|
  calloc w := allocate s w;
  malloc _ w := allocate s w;
  realloc _ w :=
    let (ok, w') := allocate s w in
    (if ok then Some (sc_garbage s) else None, w');
  free w := log EvFree w;
  close fd w := log (EvClose fd) w;
  mtx_lock w := log EvLock w;
  mtx_unlock w := log EvUnlock w;
  atomic_fetch_add w := (7, w);
  mx_handle_close h w := log (EvHandleClose h) w;
  mx_handle_duplicate h w := ((NO_ERROR, h + 1000), w);
  mx_job_default w := (3, w);
  mx_process_create _ _ w := ((NO_ERROR, 10, 11), w);
  mx_channel_create w := ((NO_ERROR, 20, 21), w);
  mx_channel_write ch msg hs w := (sc_write s, log (EvChannelWrite ch msg hs) w);
  mx_channel_call ch rq w := (sc_reply s, log (EvChannelCall ch rq) w);
  mx_vmo_create size w := ((NO_ERROR, 30), log (EvVmoCreate size) w);
  mx_vmar_map _ _ _ w := ((NO_ERROR, 1048576), w);
  mx_thread_create _ _ w := ((NO_ERROR, 40), w);
  mx_process_start proc thread entry sp arg _ w :=
    (NO_ERROR, log (EvProcessStart proc thread entry sp arg) w);
  mx_thread_start thread entry sp arg _ w :=
    (NO_ERROR, log (EvThreadStart thread entry sp arg) w);
  mxio_loader_service w := (50, w);
  mxio_pipe_half w := ((5, 60, 0), w);
  mxio_get_startup_handle _ w := (70, w);
  launchpad_vmo_from_file _ w := (80, w);
  launchpad_vmo_from_fd _ w := (81, w);
  elf_load_start vmo w := ((NO_ERROR, vmo), w);
  elf_load_finish _ elf vmo _ _ w :=
    ((NO_ERROR, vmo * 65536, vmo * 65536 + 4096), log (EvElfFinish vmo) w);
  elf_load_get_interp elf _ w :=
    ((NO_ERROR, sc_interp s elf,
      match sc_interp s elf with Some p => strlen p | None => 0 end), w);
  elf_load_get_stack_size _ w := (sc_elf_stack s, w);
  elf_load_destroy _ w := log EvElfDestroy w;
|}.

(** The constants of the headers as Magenta defines them for x86-64. *)
Definition magenta_x86_64 : Magenta := {|
  ERR_INTERNAL := -1;
  ERR_NO_MEMORY := -4;
  ERR_CALL_FAILED := -5;
  ERR_INVALID_ARGS := -10;
  ERR_BAD_HANDLE := -11;
  ERR_BAD_STATE := -20;
  ERR_BUFFER_TOO_SMALL := -15;
  PAGE_SIZE_SHIFT := 12;
  MAGENTA_DEFAULT_STACK_SIZE := 262144;
  compute_initial_stack_pointer b size := b + size - 8;
  sizeof_mx_proc_args_t := 28;
  MX_PROCARGS_PROTOCOL := 1094795585;
  MX_PROCARGS_VERSION := 4096;
  MX_HND_TYPE_PROC_SELF := 1;
  MX_HND_TYPE_VMAR_ROOT := 4;
  MX_HND_TYPE_THREAD_SELF := 2;
  MX_HND_TYPE_STACK_VMO := 19;
  MX_HND_TYPE_JOB := 6;
  MX_HND_TYPE_VDSO_VMO := 17;
  MX_HND_TYPE_LOADER_SVC := 16;
  MX_HND_TYPE_EXEC_VMO := 18;
  MX_HND_INFO type arg := Z.lor (Z.land type 65535) (Z.shiftl (Z.land arg 65535) 16);
  MX_HND_INFO_TYPE n := Z.land n 65535;
  sizeof_mx_loader_svc_msg_t := 20;
  LOADER_SVC_OP_STATUS := 0;
  LOADER_SVC_OP_LOAD_OBJECT := 2;
  MAX_MXIO_FD := 256;
|}.

Definition no_reply : loader_svc_reply := mkReply NO_ERROR NO_ERROR 20 0 0 90.

(** Every allocation succeeds, the channel write succeeds, no image names an
    interpreter. *)
Definition plain : script :=
  mkScript (fun _ => true) (fun _ => 57005) NO_ERROR no_reply (fun _ => None) 0.

Definition fresh_trace : trace := mkTrace [] 0.

Definition start_state (lp : launchpad) : state trace :=
  mkState lp MX_HANDLE_INVALID fresh_trace.

(** ** Notions the statements use *)

(** A call of one of the two functions that add to the handle table. *)
Inductive add_call :=
  | Add (h id : Z)
  | AddBatch (n : Z) (h id : list Z).

(** *** The operations on a context

    The public functions that can change a context, with their arguments.
    [perform] runs one and gives its status, or [None] for the three that do
    not return one: [launchpad_abort] returns nothing,
    [launchpad_set_stack_size] and [launchpad_send_loader_message] return
    the previous setting. *)
Inductive operation :=
  | OpSetArgs (n : Z) (argv : list observed)
  | OpSetEnviron (envp : option (list observed))
  | OpAddHandle (h id : Z)
  | OpAddHandles (n : Z) (h id : list Z)
  | OpAddPipe (target_fd : Z)
  | OpElfLoadBasic (vmo : Z)
  | OpElfLoadExtra (vmo base0 entry0 : Z)
  | OpElfLoad (vmo : Z)
  | OpAddVdsoVmo
  | OpLoadVdso (vmo : Z)
  | OpUseLoaderService (svc : Z)
  | OpLoadFromFile (path : string)
  | OpLoadFromFd (fd : Z)
  | OpLoadFromVmo (vmo : Z)
  | OpStart
  | OpStartInjected (thread_name : string) (to_child bootstrap : Z)
  | OpAbort (err : Z) (msg : string)
  | OpSetStackSize (new_size : Z)
  | OpSendLoaderMessage (do_send : bool).

Definition returns_status (op : operation) : bool :=
  match op with
  | OpAbort _ _ | OpSetStackSize _ | OpSendLoaderMessage _ => false
  | _ => true
  end.

(** The arrays of a batch hold the [n] entries the call names. *)
Definition well_formed (op : operation) : Prop :=
  match op with
  | OpAddHandles n h _ => 0 <= n <= len h /\ n * 4 <= SIZE_MAX
  | _ => True
  end.

(** A handle handed over, unless it is the invalid handle; an image vmo
    handed over, unless it is not a handle at all. *)
Definition given_handle (h : Z) : list Z :=
  if h =? MX_HANDLE_INVALID then [] else [h].

Definition given_vmo (vmo : Z) : list Z := if 0 <? vmo then [vmo] else [].

(** The handles an operation is given to own. *)
Definition handles_given (op : operation) : list Z :=
  match op with
  | OpAddHandle h _ => given_handle h
  | OpAddHandles n h _ => take (Z.to_nat n) h
  | OpElfLoadBasic vmo | OpElfLoad vmo | OpLoadFromVmo vmo => given_vmo vmo
  | OpUseLoaderService svc => [svc]
  | _ => []
  end.

Section Statements.

Context {Mg : Magenta} {world elf_load_info_t : Type}
        {K : Kernel world elf_load_info_t}.

Local Abbreviation M := (M world).

(** The world after closing the handles of [hs] in order. *)
Definition close_world (hs : list Z) (w : world) : world :=
  fold_left (fun w h => mx_handle_close h w) hs w.

(** An array of 4-byte words that exists in a 64-bit address space. *)
Definition fits_address_space (lp : launchpad) : Prop :=
  len (handles lp) < 2 ^ 62.

Definition run_call (c : add_call) : M Z :=
  match c with
  | Add h id => launchpad_add_handle h id
  | AddBatch n h id => launchpad_add_handles n h id
  end.

(** A sequence of calls, with the status each returns. *)
Fixpoint run_calls (cs : list add_call) : M (list Z) :=
  match cs with
  | [] => ret []
  | c :: rest => s <- run_call c ;; ss <- run_calls rest ;; ret (s :: ss)
  end.

(** The handles of the calls that returned [NO_ERROR]: what the
    specification calls the successfully added handles. *)
Fixpoint added_ok (cs : list add_call) (ss : list Z) : Z :=
  match cs, ss with
  | c :: cs', s :: ss' =>
      (if s =? NO_ERROR
       then match c with Add _ _ => 1 | AddBatch n _ _ => n end
       else 0) + added_ok cs' ss'
  | _, _ => 0
  end.

(** The handles the table takes from call [c], made when the sticky error
    was [e] and answered with status [s]: those of a successful call, and
    those of a batch that latched [ERR_BAD_HANDLE]. *)
Definition taken (e : Z) (c : add_call) (s : Z) : Z :=
  match c with
  | Add _ _ => if s =? NO_ERROR then 1 else 0
  | AddBatch n _ _ =>
      if s =? NO_ERROR then n
      else if (e =? NO_ERROR) && (s =? ERR_BAD_HANDLE) then n else 0
  end.

Fixpoint taken_total (e : Z) (cs : list add_call) (ss : list Z) : Z :=
  match cs, ss with
  | c :: cs', s :: ss' =>
      taken e c s + taken_total (if e =? NO_ERROR then s else e) cs' ss'
  | _, _ => 0
  end.

(** The table of a context: the slots in use lie inside both arrays. *)
Definition table_ok (lp : launchpad) : Prop :=
  0 <= handle_count lp <= handle_alloc lp /\
  handle_alloc lp <= len (handles lp) /\
  handle_alloc lp <= len (handles_info lp) /\
  handle_alloc lp < 2 ^ 61.

(** The capacity [more_handles] asks for. *)
Definition grown (alloc : Z) : Z :=
  if alloc =? 0 then 8 else wrap64 (alloc * 2).


Definition perform (op : operation) : M (option Z) :=
  match op with
  | OpSetArgs n argv => s <- launchpad_set_args n argv ;; ret (Some s)
  | OpSetEnviron envp => s <- launchpad_set_environ envp ;; ret (Some s)
  | OpAddHandle h id => s <- launchpad_add_handle h id ;; ret (Some s)
  | OpAddHandles n h id => s <- launchpad_add_handles n h id ;; ret (Some s)
  | OpAddPipe target_fd => r <- launchpad_add_pipe target_fd ;; ret (Some (fst r))
  | OpElfLoadBasic vmo => s <- launchpad_elf_load_basic vmo ;; ret (Some s)
  | OpElfLoadExtra vmo base0 entry0 =>
      r <- launchpad_elf_load_extra vmo base0 entry0 ;; ret (Some (fst (fst r)))
  | OpElfLoad vmo => s <- launchpad_elf_load vmo ;; ret (Some s)
  | OpAddVdsoVmo => s <- launchpad_add_vdso_vmo ;; ret (Some s)
  | OpLoadVdso vmo => s <- launchpad_load_vdso vmo ;; ret (Some s)
  | OpUseLoaderService svc => s <- launchpad_use_loader_service svc ;; ret (Some s)
  | OpLoadFromFile path => s <- launchpad_load_from_file path ;; ret (Some s)
  | OpLoadFromFd fd => s <- launchpad_load_from_fd fd ;; ret (Some s)
  | OpLoadFromVmo vmo => s <- launchpad_load_from_vmo vmo ;; ret (Some s)
  | OpStart => s <- launchpad_start ;; ret (Some s)
  | OpStartInjected thread_name to_child bootstrap =>
      s <- launchpad_start_injected thread_name to_child bootstrap ;;
      ret (Some s)
  | OpAbort err msg => launchpad_abort err msg ;; ret None
  | OpSetStackSize new_size => launchpad_set_stack_size new_size ;; ret None
  | OpSendLoaderMessage do_send =>
      launchpad_send_loader_message do_send ;; ret None
  end.

(** The two operations whose result is a handle when they succeed, and the
    handle each hands out from the state [st]: [launchpad_start] the
    duplicate of the process handle (slot 0) that a successful
    [mx_handle_duplicate] gave it at its start (lines 886-889 and 915),
    [launchpad_use_loader_service] the service handle held before (line
    609). *)
Definition hands_out (op : operation) (st : state world) (s : Z) : Prop :=
  match op with
  | OpStart =>
      exists proc status w1,
        handles (st_lp st) !! 0%nat = Some proc /\
        mx_handle_duplicate proc (st_world st) = ((status, s), w1) /\
        0 <= status
  | OpUseLoaderService _ =>
      s = special_get (special_handles (st_lp st)) HND_LOADER_SVC
  | _ => False
  end.

(** What an operation on a context in error does to the rest of the state,
    the static [vdso_vmo] and the world: it closes the handles it was given;
    the loaders that take the default vDSO also take and release its lock
    (fetching the startup handle if it has not been fetched), and the two
    that open the image first open and close it. *)
Definition vdso_default_in_error (vw : Z * world) : Z * world :=
  let (v, w) := vw in
  let w := mtx_lock w in
  let (v, w) :=
    if v =? MX_HANDLE_INVALID
    then mxio_get_startup_handle (MX_HND_INFO MX_HND_TYPE_VDSO_VMO 0) w
    else (v, w) in
  (v, mtx_unlock w).

Definition rest_in_error (op : operation) (vw : Z * world) : Z * world :=
  match op with
  | OpLoadVdso vmo =>
      if vmo =? MX_HANDLE_INVALID then vdso_default_in_error vw else vw
  | OpLoadFromFile path =>
      let (vmo, w) := launchpad_vmo_from_file path (snd vw) in
      vdso_default_in_error (fst vw, close_world (given_vmo vmo) w)
  | OpLoadFromFd fd =>
      let (vmo, w) := launchpad_vmo_from_fd fd (snd vw) in
      vdso_default_in_error (fst vw, close_world (given_vmo vmo) w)
  | OpLoadFromVmo vmo =>
      vdso_default_in_error (fst vw, close_world (given_vmo vmo) (snd vw))
  | _ => (fst vw, close_world (handles_given op) (snd vw))
  end.

End Statements.

(** *** Strings *)

(** A C string holds no zero byte. *)
Definition nul_free (s : string) : Prop :=
  ~ In nul (list_ascii_of_string s).

(** The bytes an argument list takes: each string and its terminator. *)
Definition serialized_length (argv : list string) : Z :=
  fold_right (fun s acc => strlen s + 1 + acc) 0 argv.

(** Reading a blob back: each run of bytes up to a zero byte is one
    string; bytes after the last zero byte belong to no string. *)
Fixpoint split_nul (l : list ascii) : list string :=
  match l with
  | [] => []
  | c :: rest =>
      if Ascii.eqb c nul then EmptyString :: split_nul rest
      else match split_nul rest with
           | s :: ss => String c s :: ss
           | [] => []
           end
  end.

(** The bytes the two loops see in [av]. *)
Definition measured (av : list observed) : Z :=
  fold_right (fun o acc => strlen (at_strlen o) + 1 + acc) 0 av.

(** The error names of the specification, and the status codes the source
    uses for them; the source has no status for [Inconsistent]. *)
Inductive error_name :=
  | InvalidArgs | InvalidHandle | OutOfMemory | BadState | BufferTooSmall
  | Inconsistent.

Definition error_name_of {Mg : Magenta} (status : Z) : option error_name :=
  if status =? ERR_INVALID_ARGS then Some InvalidArgs
  else if status =? ERR_BAD_HANDLE then Some InvalidHandle
  else if status =? ERR_NO_MEMORY then Some OutOfMemory
  else if status =? ERR_BAD_STATE then Some BadState
  else if status =? ERR_BUFFER_TOO_SMALL then Some BufferTooSmall
  else None.

(** *** The loader service *)

(** The replies the specification calls protocol violations: a size other
    than the header's, an opcode other than the status opcode, a handle
    together with a failure status, a failure status that is positive. *)
Definition protocol_violating {Mg : Magenta} (reply : loader_svc_reply) : Prop :=
  rp_reply_size reply <> sizeof_mx_loader_svc_msg_t \/
  rp_opcode reply <> LOADER_SVC_OP_STATUS \/
  (rp_arg reply <> NO_ERROR /\ rp_handle reply <> MX_HANDLE_INVALID) \/
  0 < rp_arg reply.

(** The request [loader_svc_rpc] sends for [len] bytes of [data]. *)
Definition request_for {Mg : Magenta} (txid opcode : Z) (data : list ascii)
    (len : Z) : loader_svc_request :=
  mkRequest txid opcode (take (Z.to_nat len) data ++ [nul])
            (sizeof_mx_loader_svc_msg_t + len + 1).

(** The context [launchpad_create_with_process(10, 11, &lp)] returns under
    the script [plain]: two handles in a table of eight slots. *)
Definition created : state trace :=
  match launchpad_create_with_process (Mg := magenta_x86_64)
          (K := scripted plain) 10 11 (start_state zeroed_launchpad) with
  | Some (_, st) => st
  | None => start_state zeroed_launchpad
  end.

Definition plain_kernel : Kernel trace Z := scripted plain.

(** The script [plain] with another answer from the loader service. *)
Definition replying (reply : loader_svc_reply) : Kernel trace Z :=
  scripted (mkScript (fun _ => true) (fun _ => 57005) NO_ERROR reply
                     (fun _ => None) 0).

(** The script [plain], except that the image in vmo 80 names an
    interpreter; the loader service answers with the vmo 90. *)
Definition with_interpreter : Kernel trace Z :=
  scripted (mkScript (fun _ => true) (fun _ => 57005) NO_ERROR no_reply
                     (fun v => if v =? 80 then Some "lib/ld.so.1"%string
                               else None) 0).

(** A string of [n] letters. *)
Definition padding (n : nat) : string :=
  string_of_list_ascii (repeat "a"%char n).

(** A context ready to start: the image of vmo 80 loaded, a stack of 4096
    bytes, one argument of [n] letters. *)
Definition ready (n : nat) : state trace :=
  match (launchpad_elf_load (Mg := magenta_x86_64) (K := plain_kernel) 80 ;;
         launchpad_set_stack_size (Mg := magenta_x86_64) 4096 ;;
         launchpad_set_args (Mg := magenta_x86_64) (K := plain_kernel)
           1 [stable (padding n)])%lp created with
  | Some (_, st) => st
  | None => created
  end.

(** The channel writes a log holds: channel, message size, handles. *)
Definition channel_writes (w : trace) : list (Z * Z * list Z) :=
  flat_map (fun e => match e with
                     | EvChannelWrite ch msg hs => [(ch, pa_size msg, hs)]
                     | _ => []
                     end) (events w).

(** The script [plain], except that no allocation succeeds. *)
Definition exhausted : Kernel trace Z :=
  scripted (mkScript (fun _ => false) (fun _ => 57005) NO_ERROR no_reply
                     (fun _ => None) 0).

(** The context left by the batch [5; 0] on [created]: in error. *)
Definition failed : state trace :=
  match launchpad_add_handles (Mg := magenta_x86_64) (K := plain_kernel)
          2 [5; 0] [1; 2] created with
  | Some (_, st) => st
  | None => created
  end.

(** *** Further notions *)

(** The handles of a list that [close_handles] closes: the valid ones. *)
Definition valid_handles (hs : list Z) : list Z :=
  List.filter (fun h => negb (h =? MX_HANDLE_INVALID)) hs.

(** The slots of the table that are in use. *)
Definition in_use (lp : launchpad) : list Z :=
  take (Z.to_nat (handle_count lp)) (handles lp).

Definition in_use_info (lp : launchpad) : list Z :=
  take (Z.to_nat (handle_count lp)) (handles_info lp).

(** The size [launchpad_set_stack_size] computes for a request: the value
    of [new_size] after the two branches of lines 768-775. *)
Definition page_rounded {Mg : Magenta} (new_size : Z) : Z :=
  if Z.land SIZE_MAX page_mask <=? new_size then Z.land SIZE_MAX page_mask
  else if 0 <? new_size
       then Z.land (wrap64 (new_size + PAGE_SIZE - 1)) page_mask
       else new_size.

(** *** Further scripts *)

(** The kernel [plain], except that the calls that create or open
    something (the process, the pipe, the image) fail with [status]. *)
Definition failing (status : Z) : Kernel trace Z :=
  let k := scripted plain in {|
  calloc := @calloc _ _ k;
  malloc := @malloc _ _ k;
  realloc := @realloc _ _ k;
  free := @free _ _ k;
  close := @close _ _ k;
  mtx_lock := @mtx_lock _ _ k;
  mtx_unlock := @mtx_unlock _ _ k;
  atomic_fetch_add := @atomic_fetch_add _ _ k;
  mx_handle_close := @mx_handle_close _ _ k;
  mx_handle_duplicate := @mx_handle_duplicate _ _ k;
  mx_job_default := @mx_job_default _ _ k;
  mx_process_create _ _ w :=
    ((status, MX_HANDLE_INVALID, MX_HANDLE_INVALID), w);
  mx_channel_create := @mx_channel_create _ _ k;
  mx_channel_write := @mx_channel_write _ _ k;
  mx_channel_call := @mx_channel_call _ _ k;
  mx_vmo_create := @mx_vmo_create _ _ k;
  mx_vmar_map := @mx_vmar_map _ _ k;
  mx_thread_create := @mx_thread_create _ _ k;
  mx_process_start := @mx_process_start _ _ k;
  mx_thread_start := @mx_thread_start _ _ k;
  mxio_loader_service := @mxio_loader_service _ _ k;
  mxio_pipe_half w := ((status, MX_HANDLE_INVALID, 0), w);
  mxio_get_startup_handle := @mxio_get_startup_handle _ _ k;
  launchpad_vmo_from_file _ w := (status, w);
  launchpad_vmo_from_fd _ w := (status, w);
  elf_load_start := @elf_load_start _ _ k;
  elf_load_finish := @elf_load_finish _ _ k;
  elf_load_get_interp := @elf_load_get_interp _ _ k;
  elf_load_get_stack_size := @elf_load_get_stack_size _ _ k;
  elf_load_destroy := @elf_load_destroy _ _ k;
|}.

(** The script [plain], except that the image in vmo 80 names an
    interpreter and the loader service answers the request for it with the
    status -25 and no handle. *)
Definition interpreter_refused : Kernel trace Z :=
  scripted (mkScript (fun _ => true) (fun _ => 57005) NO_ERROR
                     (mkReply NO_ERROR NO_ERROR 20 0 (-25) MX_HANDLE_INVALID)
                     (fun v => if v =? 80 then Some "lib/ld.so.1"%string
                               else None) 0).

(** The context [ready 5] after [launchpad_set_stack_size(lp, 0)]. *)
Definition unstacked : state trace :=
  match launchpad_set_stack_size (Mg := magenta_x86_64) 0 (ready 5) with
  | Some (_, st) => st
  | None => ready 5
  end.

(** The context [created] in a process whose vDSO handle is 70. *)
Definition created_with_vdso : state trace :=
  mkState (st_lp created) 70 (st_world created).

(** * Properties *)

(** ** The computation monad and the handle table *)

Section HandleTable.

Context {Mg : Magenta} {world elf_load_info_t : Type}
        {K : Kernel world elf_load_info_t}.

Lemma state_eta (st : state world) :
  mkState (st_lp st) (st_vdso_vmo st) (st_world st) = st.
Proof. destruct st; reflexivity. Qed.

Lemma lp_error_eq err msg (st : state world) :
  lp_error err msg st =
  Some (if error (st_lp st) =? NO_ERROR then err else error (st_lp st),
        mkState (if error (st_lp st) =? NO_ERROR
                 then with_error err msg (st_lp st) else st_lp st)
                (st_vdso_vmo st) (st_world st)).
Proof.
  unfold lp_error, bind, get_lp, put_lp, modify_lp, ret.
  destruct (error (st_lp st) =? NO_ERROR) eqn:E; simpl.
  - reflexivity.
  - rewrite state_eta. reflexivity.
Qed.

Lemma length_resize_block old n fresh :
  length (resize_block old n fresh) = Z.to_nat n.
Proof.
  unfold resize_block.
  rewrite length_app, length_take, length_map, length_seq. lia.
Qed.

Lemma resize_block_lookup old n fresh (i : nat) :
  (i < length old)%nat -> (i < Z.to_nat n)%nat ->
  resize_block old n fresh !! i = old !! i.
Proof.
  intros Hi Hn. unfold resize_block.
  rewrite lookup_app_l by (rewrite length_take; lia).
  apply lookup_take_lt. exact Hn.
Qed.

Lemma wrap64_small x : 0 <= x < 2 ^ 64 -> wrap64 x = x.
Proof. intros. unfold wrap64. apply Z.mod_small. assumption. Qed.

Lemma wrap64_range x : 0 <= wrap64 x < 2 ^ 64.
Proof. unfold wrap64. apply Z.mod_pos_bound. lia. Qed.

Lemma resized_fits old bytes fresh :
  0 <= bytes < 2 ^ 64 ->
  len (resize_block old (bytes / sizeof_handle) fresh) < 2 ^ 62.
Proof.
  intros Hb. unfold len. rewrite length_resize_block.
  unfold sizeof_handle.
  rewrite Z2Nat.id by (apply Z.div_pos; lia).
  apply Z.div_lt_upper_bound; lia.
Qed.

(** What [more_handles] leaves behind, whatever the allocator does. *)
Lemma more_handles_cases n (st : state world) r st' :
  more_handles n st = Some (r, st') ->
  r = error (st_lp st') /\
  handle_count (st_lp st') = handle_count (st_lp st) /\
  (error (st_lp st) <> NO_ERROR -> st' = st) /\
  (fits_address_space (st_lp st) -> fits_address_space (st_lp st')) /\
  (error (st_lp st) = NO_ERROR -> r <> NO_ERROR -> r = ERR_NO_MEMORY).
Proof.
  unfold more_handles, bind, get_lp, modify_lp, call, ret.
  destruct (error (st_lp st) =? NO_ERROR) eqn:E; simpl.
  2:{ intros [= <- <-]. apply Z.eqb_neq in E. repeat split; auto. congruence. }
  apply Z.eqb_eq in E.
  destruct (wrap64 _ <? n); simpl.
  2:{ intros [= <- <-]. repeat split; auto; congruence. }
  destruct (realloc _ _) as [[fresh|] w1]; simpl.
  2:{ rewrite lp_error_eq. simpl. rewrite E. simpl. intros [= <- <-]. simpl.
      repeat split; auto; congruence. }
  destruct (realloc _ w1) as [[fresh'|] w2]; simpl.
  2:{ rewrite lp_error_eq. simpl. rewrite E. simpl. intros [= <- <-]. simpl.
      repeat split; auto; try congruence.
      intros _. apply resized_fits, wrap64_range. }
  intros [= <- <-]. simpl. repeat split; auto; try congruence.
  intros _. apply resized_fits, wrap64_range.
Qed.

Lemma store_Some l i x (st : state world) r st' :
  store l i x st = Some (r, st') ->
  st' = st /\ r = <[Z.to_nat i := x]> l /\ 0 <= i < len l.
Proof.
  unfold store, ret, undefined.
  destruct (0 <=? i) eqn:E1; destruct (i <? len l) eqn:E2; simpl;
    try discriminate.
  intros [= <- <-]. repeat split; lia.
Qed.

Lemma load_n_Some l n (st : state world) r st' :
  load_n l n st = Some (r, st') ->
  st' = st /\ r = take (Z.to_nat n) l /\ 0 <= n <= len l /\ len r = n.
Proof.
  unfold load_n, ret, undefined.
  destruct (0 <=? n) eqn:E1; destruct (n <=? len l) eqn:E2;
    destruct (n * 4 <=? SIZE_MAX) eqn:E3; simpl; try discriminate.
  intros [= <- <-]. unfold len in *. rewrite length_take.
  repeat split; lia.
Qed.

Lemma memcpy_Some dst off src (st : state world) r st' :
  memcpy dst off src st = Some (r, st') ->
  st' = st /\ r = list_inserts (Z.to_nat off) src dst /\
  0 <= off /\ off + len src <= len dst.
Proof.
  unfold memcpy, ret, undefined.
  destruct (0 <=? off) eqn:E1; destruct (off + len src <=? len dst) eqn:E2;
    simpl; try discriminate.
  intros [= <- <-]. repeat split; lia.
Qed.

Lemma close_all_eq hs (st : state world) :
  close_all hs st =
  Some (tt, mkState (st_lp st) (st_vdso_vmo st) (close_world hs (st_world st))).
Proof.
  revert st. induction hs as [|h hs IH]; intros st; simpl.
  - unfold ret. rewrite state_eta. reflexivity.
  - unfold bind, call_. rewrite IH. reflexivity.
Qed.

Lemma existsb_invalid (l : list Z) :
  existsb (fun x => x =? MX_HANDLE_INVALID) l = true <-> MX_HANDLE_INVALID ∈ l.
Proof.
  rewrite existsb_exists. split.
  - intros (x & Hin & Hx). apply Z.eqb_eq in Hx. subst.
    apply list_elem_of_In. exact Hin.
  - intros Hin. exists MX_HANDLE_INVALID. split.
    + apply list_elem_of_In. exact Hin.
    + apply Z.eqb_refl.
Qed.

Lemma take_drop_inserts {A} (l k : list A) (i : nat) :
  (i + length k <= length l)%nat ->
  take (length k) (drop i (list_inserts i k l)) = k.
Proof.
  intros Hfit. apply list_eq. intros j.
  destruct (decide (j < length k)%nat) as [Hj|Hj].
  - rewrite lookup_take_lt by exact Hj. rewrite lookup_drop.
    rewrite list_lookup_inserts by lia.
    f_equal. lia.
  - rewrite lookup_take_ge by lia. symmetry. apply lookup_ge_None. lia.
Qed.

(** What one batch call does: when [more_handles] answers [NO_ERROR] the
    batch is copied and counted before it is validated; otherwise it is
    closed. *)
Lemma launchpad_add_handles_cases n h id (st st' : state world) r :
  launchpad_add_handles n h id st = Some (r, st') ->
  exists s st1, more_handles n st = Some (s, st1) /\
    if s =? NO_ERROR then
      0 <= n <= len h /\
      0 <= handle_count (st_lp st) /\
      handle_count (st_lp st) + n <= len (handles (st_lp st1)) /\
      st' = mkState
              ((if existsb (fun x => x =? MX_HANDLE_INVALID) (take (Z.to_nat n) h)
                then with_error ERR_BAD_HANDLE "added invalid handle"
                else fun lp => lp)
                 (with_handle_count (wrap64 (handle_count (st_lp st) + n))
                    (with_handles_info
                       (list_inserts (Z.to_nat (handle_count (st_lp st)))
                          (take (Z.to_nat n) id) (handles_info (st_lp st1)))
                       (with_handles
                          (list_inserts (Z.to_nat (handle_count (st_lp st)))
                             (take (Z.to_nat n) h) (handles (st_lp st1)))
                          (st_lp st1)))))
              (st_vdso_vmo st1) (st_world st1) /\
      r = (if existsb (fun x => x =? MX_HANDLE_INVALID) (take (Z.to_nat n) h)
           then ERR_BAD_HANDLE else NO_ERROR)
    else
      r = s /\
      st' = mkState (st_lp st1) (st_vdso_vmo st1)
                    (close_world (take (Z.to_nat n) h) (st_world st1)).
Proof.
  unfold launchpad_add_handles. unfold bind at 1.
  destruct (more_handles n st) as [[s st1]|] eqn:Hm; [|discriminate].
  intros Hrun. exists s, st1. split; [reflexivity|].
  destruct (more_handles_cases _ _ _ _ Hm) as (Hs & Hc & _ & _ & _).
  destruct (s =? NO_ERROR) eqn:Es.
  - apply Z.eqb_eq in Es.
    unfold bind at 1 in Hrun. unfold get_lp at 1 in Hrun.
    unfold bind at 1 in Hrun.
    destruct (load_n h n st1) as [[src st2]|] eqn:H1; [|discriminate].
    apply load_n_Some in H1 as (-> & -> & Hn & Hl1).
    unfold bind at 1 in Hrun.
    destruct (load_n id n st1) as [[src_id st2]|] eqn:H2; [|discriminate].
    apply load_n_Some in H2 as (-> & -> & Hn2 & Hl2).
    unfold bind at 1 in Hrun.
    destruct (memcpy _ _ _ st1) as [[hs st2]|] eqn:H3; [|discriminate].
    apply memcpy_Some in H3 as (-> & -> & Hoff & Hfit).
    unfold bind at 1 in Hrun.
    destruct (memcpy _ _ _ st1) as [[ids st2]|] eqn:H4; [|discriminate].
    apply memcpy_Some in H4 as (-> & -> & _ & Hfit2).
    rewrite Hc in *. rewrite Hl1 in Hfit.
    split; [lia|]. split; [lia|]. split; [lia|].
    unfold bind, put_lp, modify_lp in Hrun. simpl in Hrun.
    destruct (existsb _ _) eqn:Eex.
    + rewrite lp_error_eq in Hrun. simpl in Hrun.
      rewrite <- Hs, Es in Hrun. simpl in Hrun.
      injection Hrun as <- <-. split; reflexivity.
    + unfold ret in Hrun. injection Hrun as <- <-. split; [reflexivity|].
      exact Es.
  - unfold bind at 1 in Hrun.
    destruct (load_n h n st1) as [[src st2]|] eqn:H1; [|discriminate].
    apply load_n_Some in H1 as (-> & -> & Hn & Hl1).
    unfold bind in Hrun. rewrite close_all_eq in Hrun.
    unfold ret in Hrun. injection Hrun as <- <-. split; reflexivity.
Qed.

Lemma launchpad_add_handles_step n h id (st st' : state world) r :
  fits_address_space (st_lp st) ->
  ERR_BAD_HANDLE <> NO_ERROR ->
  ERR_NO_MEMORY <> ERR_BAD_HANDLE ->
  launchpad_add_handles n h id st = Some (r, st') ->
  r = error (st_lp st') /\
  handle_count (st_lp st') =
    handle_count (st_lp st) + taken (error (st_lp st)) (AddBatch n h id) r /\
  fits_address_space (st_lp st') /\
  (error (st_lp st) <> NO_ERROR -> r = error (st_lp st)).
Proof.
  intros Hfits Hbh Hne Hrun.
  destruct (launchpad_add_handles_cases _ _ _ _ _ _ Hrun)
    as (s & st1 & Hm & Hcase).
  destruct (more_handles_cases _ _ _ _ Hm) as (Hs & Hc & Herr & Hf & Hnm).
  specialize (Hf Hfits).
  destruct (s =? NO_ERROR) eqn:Es.
  - apply Z.eqb_eq in Es.
    destruct Hcase as (Hn & H0 & Hroom & -> & ->).
    assert (E0 : error (st_lp st) = NO_ERROR).
    { destruct (Z.eq_dec (error (st_lp st)) NO_ERROR) as [E|E]; [exact E|].
      rewrite (Herr E) in Hs. congruence. }
    assert (Hw : wrap64 (handle_count (st_lp st) + n)
                 = handle_count (st_lp st) + n).
    { apply wrap64_small. unfold fits_address_space in Hf. lia. }
    assert (Hlen : fits_address_space
              (with_handles
                 (list_inserts (Z.to_nat (handle_count (st_lp st)))
                    (take (Z.to_nat n) h) (handles (st_lp st1))) (st_lp st1))).
    { unfold fits_address_space, len in *. simpl. rewrite length_inserts.
      exact Hf. }
    rewrite E0. unfold taken. simpl.
    destruct (existsb _ _); simpl.
    + rewrite Hw. destruct (ERR_BAD_HANDLE =? NO_ERROR) eqn:E1.
      * apply Z.eqb_eq in E1. contradiction.
      * rewrite Z.eqb_refl. repeat split; auto. congruence.
    + rewrite Hw. repeat split; auto; congruence.
  - apply Z.eqb_neq in Es. destruct Hcase as (-> & ->). simpl.
    split; [exact Hs|]. split.
    + rewrite Hc. unfold taken.
      destruct (s =? NO_ERROR) eqn:E1; [apply Z.eqb_eq in E1; contradiction|].
      destruct (error (st_lp st) =? NO_ERROR) eqn:E2; simpl; [|lia].
      apply Z.eqb_eq in E2. rewrite (Hnm E2 Es).
      destruct (ERR_NO_MEMORY =? ERR_BAD_HANDLE) eqn:E3; [|lia].
      apply Z.eqb_eq in E3. contradiction.
    + split; [exact Hf|]. intros E. rewrite (Herr E) in Hs. exact Hs.
Qed.

Lemma launchpad_add_handle_step h id (st st' : state world) r :
  fits_address_space (st_lp st) ->
  ERR_BAD_HANDLE <> NO_ERROR ->
  launchpad_add_handle h id st = Some (r, st') ->
  r = error (st_lp st') /\
  handle_count (st_lp st') =
    handle_count (st_lp st) + taken (error (st_lp st)) (Add h id) r /\
  fits_address_space (st_lp st') /\
  (error (st_lp st) <> NO_ERROR -> r = error (st_lp st)).
Proof.
  intros Hfits Hbh. unfold launchpad_add_handle.
  destruct (h =? MX_HANDLE_INVALID).
  - rewrite lp_error_eq. intros [= <- <-]. simpl.
    destruct (error (st_lp st) =? NO_ERROR) eqn:E; simpl.
    + destruct (ERR_BAD_HANDLE =? NO_ERROR) eqn:E1;
        [apply Z.eqb_eq in E1; contradiction|].
      apply Z.eqb_eq in E. repeat split; auto; try lia; congruence.
    + rewrite E. repeat split; auto; lia.
  - unfold bind at 1.
    destruct (more_handles 1 st) as [[s st1]|] eqn:Hm; [|discriminate].
    destruct (more_handles_cases _ _ _ _ Hm) as (Hs & Hc & Herr & Hf & Hnm).
    specialize (Hf Hfits).
    destruct (s =? NO_ERROR) eqn:Es.
    + unfold bind at 1. unfold get_lp at 1. unfold bind at 1.
      destruct (store _ _ _ st1) as [[hs st2]|] eqn:H1; [|discriminate].
      apply store_Some in H1 as (-> & -> & Hi).
      unfold bind at 1.
      destruct (store _ _ _ st1) as [[ids st2]|] eqn:H2; [|discriminate].
      apply store_Some in H2 as (-> & -> & Hi2).
      unfold bind, put_lp, modify_lp, ret. intros [= <- <-]. simpl.
      apply Z.eqb_eq in Es. rewrite Es, Hc in *.
      rewrite wrap64_small by (unfold fits_address_space in Hf; lia).
      repeat split; auto.
      * unfold fits_address_space, len in *. simpl. rewrite length_insert.
        exact Hf.
      * intros E. rewrite (Herr E) in Hs. congruence.
    + unfold bind, call_, ret. intros [= <- <-]. simpl.
      rewrite Es. repeat split; auto; try lia.
      intros E. rewrite (Herr E) in Hs. exact Hs.
Qed.

Lemma run_calls_count cs : forall (st st' : state world) ss,
  fits_address_space (st_lp st) ->
  ERR_BAD_HANDLE <> NO_ERROR ->
  ERR_NO_MEMORY <> ERR_BAD_HANDLE ->
  run_calls cs st = Some (ss, st') ->
  handle_count (st_lp st') =
    handle_count (st_lp st) + taken_total (error (st_lp st)) cs ss.
Proof.
  induction cs as [|c cs IH]; intros st st' ss Hfits Hbh Hne; simpl.
  - unfold ret. intros [= <- <-]. lia.
  - unfold bind at 1.
    destruct (run_call c st) as [[s st1]|] eqn:Hc; [|discriminate].
    unfold bind at 1.
    destruct (run_calls cs st1) as [[ss1 st2]|] eqn:Hr; [|discriminate].
    unfold ret. intros [= <- <-].
    assert (Hstep : s = error (st_lp st1) /\
              handle_count (st_lp st1) =
                handle_count (st_lp st) + taken (error (st_lp st)) c s /\
              fits_address_space (st_lp st1) /\
              (error (st_lp st) <> NO_ERROR -> s = error (st_lp st))).
    { destruct c as [h id|n h id]; simpl in Hc.
      - eapply launchpad_add_handle_step; eauto.
      - eapply launchpad_add_handles_step; eauto. }
    destruct Hstep as (Hs & Hcount & Hf & Hsticky).
    rewrite (IH _ _ _ Hf Hbh Hne Hr), Hcount.
    assert (He : (if error (st_lp st) =? NO_ERROR then s else error (st_lp st))
                 = error (st_lp st1)).
    { destruct (error (st_lp st) =? NO_ERROR) eqn:E; [exact Hs|].
      apply Z.eqb_neq in E. rewrite <- Hs. symmetry. apply Hsticky. exact E. }
    rewrite He. lia.
Qed.

(** C1 (as the code has it).  From a context that is not in error, a batch
    that holds an invalid handle is not discarded when the table has room
    for it: [more_handles] answers [NO_ERROR], the whole batch is copied
    into the table, the count grows by [n], nothing is closed, and the call
    latches and returns [ERR_BAD_HANDLE].  Only when [more_handles] fails is
    the batch closed and the count kept.  Over a sequence of calls the final
    count is therefore the initial one plus the handles of the successful
    calls plus the size of the batch that latched [ERR_BAD_HANDLE]. *)
Theorem launchpad_add_handles_invalid_batch_kept :
  (forall n h id (st st' : state world) r,
      error (st_lp st) = NO_ERROR ->
      fits_address_space (st_lp st) ->
      MX_HANDLE_INVALID ∈ take (Z.to_nat n) h ->
      launchpad_add_handles n h id st = Some (r, st') ->
      exists s st1, more_handles n st = Some (s, st1) /\
        (s = NO_ERROR ->
           r = ERR_BAD_HANDLE /\
           error (st_lp st') = ERR_BAD_HANDLE /\
           handle_count (st_lp st') = handle_count (st_lp st) + n /\
           take (Z.to_nat n)
                (drop (Z.to_nat (handle_count (st_lp st))) (handles (st_lp st')))
             = take (Z.to_nat n) h /\
           st_world st' = st_world st1) /\
        (s <> NO_ERROR ->
           r = s /\
           handle_count (st_lp st') = handle_count (st_lp st) /\
           st_world st' = close_world (take (Z.to_nat n) h) (st_world st1)))
  /\
  (forall cs (st st' : state world) ss,
      fits_address_space (st_lp st) ->
      ERR_BAD_HANDLE <> NO_ERROR ->
      ERR_NO_MEMORY <> ERR_BAD_HANDLE ->
      run_calls cs st = Some (ss, st') ->
      handle_count (st_lp st') =
        handle_count (st_lp st) + taken_total (error (st_lp st)) cs ss).
Proof.
  split; [|intros; eapply run_calls_count; eauto].
  intros n h id st st' r E0 Hfits Hin Hrun.
  destruct (launchpad_add_handles_cases _ _ _ _ _ _ Hrun)
    as (s & st1 & Hm & Hcase).
  destruct (more_handles_cases _ _ _ _ Hm) as (Hs & Hc & _ & Hf & _).
  specialize (Hf Hfits).
  exists s, st1. split; [exact Hm|]. split; intros Es.
  - rewrite Es in Hcase. simpl in Hcase.
    destruct Hcase as (Hn & H0 & Hroom & -> & ->).
    apply existsb_invalid in Hin. rewrite Hin. simpl.
    rewrite wrap64_small by (unfold fits_address_space in Hf; lia).
    repeat split; auto.
    assert (Hl : length (take (Z.to_nat n) h) = Z.to_nat n).
    { rewrite length_take. unfold len in Hn. lia. }
    rewrite <- Hl at 1. apply take_drop_inserts.
    unfold len in Hroom. lia.
  - destruct (s =? NO_ERROR) eqn:E; [apply Z.eqb_eq in E; contradiction|].
    destruct Hcase as (-> & ->). simpl. repeat split; auto.
Qed.

(** In a context already in error the batch is closed and nothing else
    changes. *)
Lemma launchpad_add_handles_in_error n h id (st : state world) :
  error (st_lp st) <> NO_ERROR ->
  0 <= n <= len h -> n * 4 <= SIZE_MAX ->
  launchpad_add_handles n h id st =
  Some (error (st_lp st),
        mkState (st_lp st) (st_vdso_vmo st)
                (close_world (take (Z.to_nat n) h) (st_world st))).
Proof.
  intros E Hn Hsz. unfold launchpad_add_handles, more_handles.
  unfold bind at 1. unfold bind at 1. unfold get_lp at 1.
  apply Z.eqb_neq in E. rewrite E. simpl. unfold ret at 1. rewrite E.
  unfold bind at 1. unfold load_n.
  replace (0 <=? n) with true by (symmetry; apply Z.leb_le; lia).
  replace (n <=? len h) with true by (symmetry; apply Z.leb_le; lia).
  replace (n * 4 <=? SIZE_MAX) with true by (symmetry; apply Z.leb_le; lia).
  simpl. unfold ret at 1. unfold bind. rewrite close_all_eq. reflexivity.
Qed.

(** ** Growth of the table (C8) *)

(** When the table has to grow: the capacity doubles (8 for an empty
    table); when an allocation fails the call reports [ERR_NO_MEMORY], the
    count and the capacity are the old ones, and every slot in use still
    holds its handle and its tag. *)
Lemma more_handles_grow n (st st' : state world) r :
  error (st_lp st) = NO_ERROR ->
  table_ok (st_lp st) ->
  handle_alloc (st_lp st) - handle_count (st_lp st) < n ->
  more_handles n st = Some (r, st') ->
  (r = NO_ERROR /\
   handle_alloc (st_lp st') = grown (handle_alloc (st_lp st)) /\
   len (handles (st_lp st')) = grown (handle_alloc (st_lp st)) /\
   len (handles_info (st_lp st')) = grown (handle_alloc (st_lp st))
   \/
   r = ERR_NO_MEMORY /\ error (st_lp st') = ERR_NO_MEMORY /\
   handle_alloc (st_lp st') = handle_alloc (st_lp st)) /\
  handle_count (st_lp st') = handle_count (st_lp st) /\
  (forall i : nat, Z.of_nat i < handle_count (st_lp st) ->
     handles (st_lp st') !! i = handles (st_lp st) !! i /\
     handles_info (st_lp st') !! i = handles_info (st_lp st) !! i).
Proof.
  intros E (Hc & Hh & Hi & Hb) Hroom.
  assert (Hg : 0 < grown (handle_alloc (st_lp st)) < 2 ^ 62 /\
               handle_alloc (st_lp st) <= grown (handle_alloc (st_lp st))).
  { unfold grown. destruct (handle_alloc (st_lp st) =? 0) eqn:E0.
    - apply Z.eqb_eq in E0. lia.
    - apply Z.eqb_neq in E0. rewrite wrap64_small by lia. lia. }
  assert (Hsz : wrap64 (grown (handle_alloc (st_lp st)) * 4) / 4
                = grown (handle_alloc (st_lp st))).
  { rewrite wrap64_small by lia. apply Z.div_mul. lia. }
  unfold more_handles, bind, get_lp, modify_lp, call, ret.
  rewrite E. simpl.
  rewrite (wrap64_small (handle_alloc (st_lp st) - handle_count (st_lp st)))
    by lia.
  apply Z.ltb_lt in Hroom. rewrite Hroom.
  fold (grown (handle_alloc (st_lp st))). unfold sizeof_handle, sizeof_uint32.
  rewrite Hsz.
  assert (Hkeep : forall old fresh (i : nat),
            grown (handle_alloc (st_lp st)) >= 0 ->
            handle_alloc (st_lp st) <= len old ->
            Z.of_nat i < handle_count (st_lp st) ->
            resize_block old (grown (handle_alloc (st_lp st))) fresh !! i
            = old !! i).
  { intros old fresh i _ Hold Hlt. apply resize_block_lookup; unfold len in *; lia. }
  destruct (realloc _ _) as [[fresh|] w1]; simpl.
  2:{ rewrite lp_error_eq. simpl. rewrite E. simpl. intros [= <- <-]. simpl.
      split; [right; auto|]. split; [reflexivity|]. intros; split; reflexivity. }
  destruct (realloc _ w1) as [[fresh'|] w2]; simpl.
  2:{ rewrite lp_error_eq. simpl. rewrite E. simpl. intros [= <- <-]. simpl.
      split; [right; auto|]. split; [reflexivity|]. intros i Hlt. split.
      - apply Hkeep; [lia|exact Hh|exact Hlt].
      - reflexivity. }
  intros [= <- <-]. simpl. split.
  - left. unfold len. rewrite !length_resize_block. repeat split; lia.
  - split; [reflexivity|]. intros i Hlt. split; apply Hkeep; auto; lia.
Qed.

(** After a successful call for one more handle there is room for it, so
    [launchpad_add_handle] never writes outside the table. *)
Lemma more_handles_one_fits (st st' : state world) :
  ERR_NO_MEMORY <> NO_ERROR ->
  table_ok (st_lp st) ->
  more_handles 1 st = Some (NO_ERROR, st') ->
  handle_count (st_lp st') < handle_alloc (st_lp st') /\
  handle_alloc (st_lp st') <= len (handles (st_lp st')) /\
  handle_alloc (st_lp st') <= len (handles_info (st_lp st')).
Proof.
  intros Hnm Hok Hm.
  destruct (Z.eq_dec (error (st_lp st)) NO_ERROR) as [E|E].
  2:{ destruct (more_handles_cases _ _ _ _ Hm) as (Hs & _ & Hsame & _).
      rewrite (Hsame E) in Hs. congruence. }
  destruct (Z_lt_dec (handle_alloc (st_lp st) - handle_count (st_lp st)) 1)
    as [Hroom|Hroom].
  - destruct (more_handles_grow _ _ _ _ E Hok Hroom Hm)
      as ([(_ & Ha & Hh & Hi)|(Hr & He & _)] & Hc & _).
    + destruct Hok as (Hc0 & _ & _ & Hb). rewrite Ha, Hh, Hi, Hc.
      unfold grown. destruct (handle_alloc (st_lp st) =? 0) eqn:E0.
      * apply Z.eqb_eq in E0. lia.
      * apply Z.eqb_neq in E0. rewrite wrap64_small by lia. lia.
    + congruence.
  - revert Hm. unfold more_handles, bind, get_lp, ret. rewrite E. simpl.
    destruct Hok as (Hc0 & Hh & Hi & Hb).
    rewrite wrap64_small by lia.
    replace (_ <? 1) with false by (symmetry; apply Z.ltb_ge; lia).
    intros [= <-]. lia.
Qed.

End HandleTable.

Section HandleTableRuns.

#[local] Existing Instance magenta_x86_64.
#[local] Existing Instance plain_kernel.

Lemma created_eq :
  created =
  mkState
    (mkLaunchpad 0 0 None 0 None 0
       [10; 11; 57005; 57005; 57005; 57005; 57005; 57005]
       [1; 4; 57005; 57005; 57005; 57005; 57005; 57005]
       2 8 "no error" 0 0 0 0 262144 (0, 0) false)
    0 (mkTrace [] 3).
Proof. reflexivity. Qed.

(** C1 as stated fails: on a fresh context holding its two handles, the
    batch [5; 0] contains the invalid handle, yet the call leaves the count
    at 4 with both entries stored, and closes nothing.  The count then
    differs from the number of successfully added handles. *)
Lemma launchpad_add_handles_invalid_batch_counted :
  error (st_lp created) = NO_ERROR /\
  handle_count (st_lp created) = 2 /\
  MX_HANDLE_INVALID ∈ [5; 0] /\
  exists st',
    launchpad_add_handles 2 [5; 0] [1; 2] created = Some (ERR_BAD_HANDLE, st') /\
    handle_count (st_lp st') = 4 /\
    take 4 (handles (st_lp st')) = [10; 11; 5; 0] /\
    events (st_world st') = [] /\
    run_calls [AddBatch 2 [5; 0] [1; 2]] created
      = Some ([ERR_BAD_HANDLE], st') /\
    handle_count (st_lp st') <>
      handle_count (st_lp created)
      + added_ok [AddBatch 2 [5; 0] [1; 2]] [ERR_BAD_HANDLE].
Proof.
  split; [reflexivity|]. split; [reflexivity|].
  split; [apply list_elem_of_In; simpl; auto|].
  eexists. split; [vm_compute; reflexivity|].
  split; [reflexivity|]. split; [reflexivity|]. split; [reflexivity|].
  split; [reflexivity|]. vm_compute. discriminate.
Qed.

Lemma launchpad_add_handles_invalid_batch_kept_witness :
  (exists s st1, more_handles 2 created = Some (s, st1) /\
     (s = NO_ERROR ->
        ERR_BAD_HANDLE = ERR_BAD_HANDLE /\
        error (st_lp (mkState
           (mkLaunchpad 0 0 None 0 None 0
              [10; 11; 5; 0; 57005; 57005; 57005; 57005]
              [1; 4; 1; 2; 57005; 57005; 57005; 57005]
              4 8 "added invalid handle" ERR_BAD_HANDLE 0 0 0 262144 (0, 0)
              false) 0 (mkTrace [] 3))) = ERR_BAD_HANDLE /\
        4 = handle_count (st_lp created) + 2 /\
        [5; 0] = take (Z.to_nat 2) [5; 0] /\
        mkTrace [] 3 = st_world st1) /\
     (s <> NO_ERROR ->
        ERR_BAD_HANDLE = s /\
        4 = handle_count (st_lp created) /\
        mkTrace [] 3 = close_world (take (Z.to_nat 2) [5; 0]) (st_world st1)))
  /\
  handle_count (st_lp created) + 3 =
    handle_count (st_lp created)
    + taken_total (error (st_lp created))
        [Add 5 1; AddBatch 2 [6; 0] [1; 2]; Add 7 1]
        [NO_ERROR; ERR_BAD_HANDLE; ERR_BAD_HANDLE].
Proof.
  split.
  - apply (proj1 launchpad_add_handles_invalid_batch_kept
             2 [5; 0] [1; 2] created
             (mkState
                (mkLaunchpad 0 0 None 0 None 0
                   [10; 11; 5; 0; 57005; 57005; 57005; 57005]
                   [1; 4; 1; 2; 57005; 57005; 57005; 57005]
                   4 8 "added invalid handle" ERR_BAD_HANDLE 0 0 0 262144
                   (0, 0) false) 0 (mkTrace [] 3))
             ERR_BAD_HANDLE).
    + reflexivity.
    + vm_compute. reflexivity.
    + apply list_elem_of_In. simpl. auto.
    + vm_compute. reflexivity.
  - apply (proj2 launchpad_add_handles_invalid_batch_kept
             [Add 5 1; AddBatch 2 [6; 0] [1; 2]; Add 7 1] created
             (mkState
                (mkLaunchpad 0 0 None 0 None 0
                   [10; 11; 5; 6; 0; 57005; 57005; 57005]
                   [1; 4; 1; 1; 2; 57005; 57005; 57005]
                   5 8 "added invalid handle" ERR_BAD_HANDLE 0 0 0 262144
                   (0, 0) false) 0 (mkTrace [EvHandleClose 7] 3))
             [NO_ERROR; ERR_BAD_HANDLE; ERR_BAD_HANDLE]).
    + vm_compute. reflexivity.
    + vm_compute. discriminate.
    + vm_compute. discriminate.
    + vm_compute. reflexivity.
Defined.

(** C8 at a failing input.  A fresh context holds 2 handles in 8 slots; a
    batch of 15 valid handles makes [more_handles] double the capacity once,
    to 16, and answer [NO_ERROR] although only 14 slots are free; the copy
    of the batch then runs past the end of both arrays. *)
Theorem more_handles_single_doubling_overflows :
  let batch := [101; 102; 103; 104; 105; 106; 107; 108; 109; 110;
                111; 112; 113; 114; 115] in
  (exists st1,
     more_handles 15 created = Some (NO_ERROR, st1) /\
     handle_count (st_lp st1) = 2 /\
     handle_alloc (st_lp st1) = 16 /\
     len (handles (st_lp st1)) = 16 /\
     len (handles_info (st_lp st1)) = 16 /\
     handle_alloc (st_lp st1) - handle_count (st_lp st1) < 15) /\
  launchpad_add_handles 15 batch batch created = None.
Proof.
  split.
  - eexists. split; [vm_compute; reflexivity|].
    repeat split; vm_compute; reflexivity.
  - vm_compute. reflexivity.
Qed.

End HandleTableRuns.

(** ** Reasoning about computations *)

Section Inversion.
Context {Mg : Magenta} {world elf_load_info_t : Type}
        {K : Kernel world elf_load_info_t}.

Lemma bind_inv {A B} (m : M world A) (k : A -> M world B) st r st' :
  bind m k st = Some (r, st') ->
  exists a st1, m st = Some (a, st1) /\ k a st1 = Some (r, st').
Proof.
  unfold bind. destruct (m st) as [[a st1]|]; [|discriminate].
  intros Hk. exists a, st1. split; [reflexivity|exact Hk].
Qed.

Lemma ret_inv {A} (a : A) (st : state world) r st' :
  ret a st = Some (r, st') -> r = a /\ st' = st.
Proof. unfold ret. intros [= <- <-]. split; reflexivity. Qed.

Lemma get_lp_inv (st : state world) r st' :
  get_lp st = Some (r, st') -> r = st_lp st /\ st' = st.
Proof. unfold get_lp. intros [= <- <-]. split; reflexivity. Qed.

Lemma modify_lp_inv f (st : state world) r st' :
  modify_lp f st = Some (r, st') ->
  st' = mkState (f (st_lp st)) (st_vdso_vmo st) (st_world st).
Proof. unfold modify_lp. intros [= <- <-]. reflexivity. Qed.

Lemma call_inv {A} (f : world -> A * world) (st : state world) r st' :
  call f st = Some (r, st') ->
  exists w, f (st_world st) = (r, w) /\
            st' = mkState (st_lp st) (st_vdso_vmo st) w.
Proof.
  unfold call. destruct (f (st_world st)) as [a w]. intros [= <- <-].
  exists w. split; reflexivity.
Qed.

Lemma call__inv (f : world -> world) (st : state world) r st' :
  call_ f st = Some (r, st') ->
  st' = mkState (st_lp st) (st_vdso_vmo st) (f (st_world st)).
Proof. unfold call_. intros [= <- <-]. reflexivity. Qed.

End Inversion.

Ltac inv_step :=
  match goal with
  | H : bind _ _ _ = Some _ |- _ =>
      let a := fresh "a" in let s := fresh "s" in let E := fresh "E" in
      apply bind_inv in H as (a & s & E & H)
  | H : ret _ _ = Some _ |- _ => apply ret_inv in H as [? ?]; simplify_eq
  | H : get_lp _ = Some _ |- _ => apply get_lp_inv in H as [? ?]; subst
  | H : put_lp _ _ = Some _ |- _ => apply modify_lp_inv in H; subst
  | H : modify_lp _ _ = Some _ |- _ => apply modify_lp_inv in H; subst
  | H : call_ _ _ = Some _ |- _ => apply call__inv in H; subst
  | H : call _ _ = Some _ |- _ =>
      let w := fresh "w" in let E := fresh "E" in
      apply call_inv in H as (w & E & ?); subst
  | H : undefined _ = Some _ |- _ => discriminate H
  | H : None = Some _ |- _ => discriminate H
  | H : lp_error _ _ _ = Some _ |- _ =>
      rewrite lp_error_eq in H; injection H as ? ?; subst
  | H : (let '(_, _) := ?p in _) _ = Some _ |- _ => destruct p
  | H : (if ?b then _ else _) _ = Some _ |- _ => destruct b eqn:?
  | H : match ?o with Some _ => _ | None => _ end _ = Some _ |- _ =>
      destruct o eqn:?
  | H : match ?x with inl _ => _ | inr _ => _ end _ = Some _ |- _ =>
      destruct x
  | H : match ?m with Some _ => _ | None => None end = Some _ |- _ =>
      let E := fresh "E" in
      destruct m as [[? ?]|] eqn:E; [|discriminate H]
  end.

Ltac inv_m := repeat inv_step.

Ltac bool_hyps :=
  repeat match goal with
  | H : negb _ = true |- _ => apply negb_true_iff in H
  | H : negb _ = false |- _ => apply negb_false_iff in H
  | H : (_ =? _) = true |- _ => apply Z.eqb_eq in H
  | H : (_ =? _) = false |- _ => apply Z.eqb_neq in H
  | H : (_ <? _) = true |- _ => apply Z.ltb_lt in H
  | H : (_ <? _) = false |- _ => apply Z.ltb_ge in H
  | H : (_ <=? _) = true |- _ => apply Z.leb_le in H
  | H : (_ <=? _) = false |- _ => apply Z.leb_gt in H
  end.

Ltac split_ifs :=
  repeat match goal with
  | |- context [if ?b then _ else _] => destruct b eqn:?; simpl in *
  end.

Ltac fin := simpl in *; split_ifs; bool_hyps; simpl in *;
            try congruence; try lia; auto.

(** ** The status a function returns and the sticky error *)

Section Steps.
Context {Mg : Magenta} {world elf_load_info_t : Type}
        {K : Kernel world elf_load_info_t}.

Lemma launchpad_add_handle_status h id (st st' : state world) r :
  launchpad_add_handle h id st = Some (r, st') ->
  r = error (st_lp st') /\
  (error (st_lp st) <> NO_ERROR ->
     r = error (st_lp st) /\ st_lp st' = st_lp st).
Proof.
  unfold launchpad_add_handle. intros Hrun.
  destruct (h =? MX_HANDLE_INVALID).
  - inv_m. simpl. destruct (error (st_lp st) =? NO_ERROR) eqn:E; simpl.
    + apply Z.eqb_eq in E. split; [reflexivity|]. intros. contradiction.
    + split; [reflexivity|]. auto.
  - apply bind_inv in Hrun as (s & st1 & Hm & Hrun).
    destruct (s =? NO_ERROR) eqn:Es.
    + inv_m.
      apply store_Some in E0 as (-> & -> & _).
      apply store_Some in E1 as (-> & -> & _). simpl.
      destruct (more_handles_cases _ _ _ _ Hm) as (Hs & Hc & Herr & _).
      split; [exact Hs|]. intros E. rewrite (Herr E) in Hs.
      apply Z.eqb_eq in Es. congruence.
    + inv_m. simpl.
      destruct (more_handles_cases _ _ _ _ Hm) as (Hs & Hc & Herr & _).
      split; [exact Hs|]. intros E. rewrite (Herr E) in *. auto.
Qed.

Lemma send_loader_message_error thread ch (st st' : state world) r :
  send_loader_message thread ch st = Some (r, st') ->
  error (st_lp st') = error (st_lp st).
Proof.
  unfold send_loader_message, lp_proc, lp_vmar, load. intros Hrun.
  inv_m; simpl; reflexivity.
Qed.

Lemma build_message_lp (st st' : state world) m :
  build_message st = Some (m, st') ->
  st_lp st' = st_lp st /\ st_vdso_vmo st' = st_vdso_vmo st /\
  forall msg, m = Some msg ->
    pa_size msg = wrap64 (sizeof_mx_proc_args_t
                          + handle_count (st_lp st) * sizeof_uint32
                          + args_len (st_lp st) + env_len (st_lp st)).
Proof.
  unfold build_message. intros Hrun. inv_m.
  - simpl. repeat split. intros msg Hm. discriminate.
  - apply load_n_Some in E0 as (-> & -> & _). inv_m. simpl.
    repeat split. intros msg [= <-]. reflexivity.
Qed.

Lemma prepare_start_stack_error (st st' : state world) early sp :
  error (st_lp st) = NO_ERROR ->
  prepare_start_stack st = Some ((early, sp), st') ->
  match early with
  | Some e => e = error (st_lp st')
  | None => error (st_lp st') = NO_ERROR
  end.
Proof.
  unfold prepare_start_stack, lp_vmar, load. intros E0 Hrun.
  inv_m.
  all: repeat match goal with
       | H : launchpad_add_handle _ _ _ = Some _ |- _ =>
           apply launchpad_add_handle_status in H as (? & _)
       end.
  all: fin.
Qed.

Lemma prepare_start_thread_error name (st st' : state world) early thread :
  error (st_lp st) = NO_ERROR ->
  prepare_start_thread name st = Some ((early, thread), st') ->
  match early with
  | Some e => e = error (st_lp st')
  | None => error (st_lp st') = NO_ERROR
  end.
Proof.
  unfold prepare_start_thread, lp_proc, load. intros E0 Hrun.
  inv_m.
  all: repeat match goal with
       | H : launchpad_add_handle _ _ _ = Some _ |- _ =>
           apply launchpad_add_handle_status in H as (? & _)
       end.
  all: fin.
Qed.

Lemma prepare_start_loader_error thread ch (st st' : state world) early :
  error (st_lp st) = NO_ERROR ->
  prepare_start_loader thread ch st = Some (early, st') ->
  match early with
  | Some e => e = error (st_lp st')
  | None => error (st_lp st') = NO_ERROR
  end.
Proof.
  unfold prepare_start_loader. intros E0 Hrun.
  inv_m.
  all: repeat match goal with
       | H : send_loader_message _ _ _ = Some _ |- _ =>
           apply send_loader_message_error in H
       end.
  all: fin.
Qed.

Lemma prepare_start_procargs_error thread ch (st st' : state world) r :
  error (st_lp st) = NO_ERROR ->
  prepare_start_procargs thread ch st = Some (r, st') ->
  r = error (st_lp st').
Proof.
  unfold prepare_start_procargs. intros E0 Hrun.
  apply bind_inv in Hrun as (m & st1 & Hb & Hrun).
  apply build_message_lp in Hb as (Hlp & _ & _).
  destruct m as [msg|]; inv_m.
  all: repeat match goal with
       | H : load_n _ _ _ = Some _ |- _ => apply load_n_Some in H as (? & ? & _)
       end; subst.
  all: fin.
Qed.

Lemma prepare_start_error name ch (st st' : state world) status thread sp :
  error (st_lp st) = NO_ERROR ->
  prepare_start name ch st = Some ((status, thread, sp), st') ->
  status = error (st_lp st') \/ error (st_lp st') = NO_ERROR.
Proof.
  unfold prepare_start. intros E0 Hrun.
  apply bind_inv in Hrun as (lp & st0 & Hg & Hrun).
  apply get_lp_inv in Hg as (-> & ->).
  destruct (entry (st_lp st) =? 0).
  { inv_m. right. exact E0. }
  apply bind_inv in Hrun as ([early sp1] & st1 & H1 & Hrun).
  pose proof (prepare_start_stack_error _ _ _ _ E0 H1) as I1.
  destruct early as [e|]; [inv_m; left; congruence|].
  apply bind_inv in Hrun as ([early t] & st2 & H2 & Hrun).
  pose proof (prepare_start_thread_error _ _ _ _ _ I1 H2) as I2.
  destruct early as [e|]; [inv_m; left; congruence|].
  apply bind_inv in Hrun as (early & st3 & H3 & Hrun).
  pose proof (prepare_start_loader_error _ _ _ _ _ I2 H3) as I3.
  destruct early as [e|]; [inv_m; left; congruence|].
  apply bind_inv in Hrun as (s & st4 & H4 & Hrun).
  pose proof (prepare_start_procargs_error _ _ _ _ _ I3 H4) as I4.
  inv_m. left. congruence.
Qed.
End Steps.

(** ** The argument and environment blobs (C6, C7) *)

Section Blobs.

Context {Mg : Magenta} {world elf_load_info_t : Type}
        {K : Kernel world elf_load_info_t}.

Lemma wrap64_add_l a b : wrap64 (wrap64 a + b) = wrap64 (a + b).
Proof. unfold wrap64. apply Zplus_mod_idemp_l. Qed.

Lemma strlen_total_from av : forall a,
  fold_left (fun total o => wrap64 (total + strlen (at_strlen o) + 1)) av
            (wrap64 a)
  = wrap64 (a + measured av).
Proof.
  induction av as [|o av IH]; intros a; simpl.
  - f_equal. lia.
  - replace (wrap64 a + strlen (at_strlen o) + 1)
      with (wrap64 a + (strlen (at_strlen o) + 1)) by lia.
    rewrite wrap64_add_l, IH. f_equal. lia.
Qed.

Lemma strlen_total_eq av : strlen_total av = wrap64 (measured av).
Proof.
  unfold strlen_total. change 0 with (wrap64 0) at 1.
  rewrite strlen_total_from. reflexivity.
Qed.

Lemma measured_stable argv : measured (map stable argv) = serialized_length argv.
Proof. induction argv as [|s argv IH]; simpl; [reflexivity|]. rewrite IH. reflexivity. Qed.

Lemma serialized_length_nonneg argv : 0 <= serialized_length argv.
Proof. induction argv as [|s argv IH]; simpl; unfold strlen in *; lia. Qed.

Lemma length_list_ascii_of_string s :
  length (list_ascii_of_string s) = String.length s.
Proof. induction s as [|c s IH]; simpl; [reflexivity|]. rewrite IH. reflexivity. Qed.

Lemma len_stpcpy_all_stable argv :
  len (stpcpy_all (map stable argv)) = serialized_length argv.
Proof.
  unfold len. induction argv as [|s argv IH]; simpl; [reflexivity|].
  rewrite !length_app, length_list_ascii_of_string. simpl.
  unfold strlen. lia.
Qed.

Lemma split_nul_string s rest :
  nul_free s ->
  split_nul (list_ascii_of_string s ++ nul :: rest) = s :: split_nul rest.
Proof.
  unfold nul_free. induction s as [|c s IH]; simpl; intros Hfree.
  - reflexivity.
  - destruct (Ascii.eqb c nul) eqn:E.
    + apply Ascii.eqb_eq in E. exfalso. apply Hfree. left. exact E.
    + rewrite IH; [reflexivity|]. intros Hin. apply Hfree. right. exact Hin.
Qed.

Lemma split_nul_stpcpy_all argv :
  Forall nul_free argv ->
  split_nul (stpcpy_all (map stable argv)) = argv.
Proof.
  induction 1 as [|s argv Hs _ IH]; [reflexivity|].
  unfold stpcpy_all in *. simpl. rewrite <- app_assoc. simpl.
  rewrite split_nul_string by exact Hs. rewrite IH. reflexivity.
Qed.

Lemma read_argv_stable (argv : list string) (st : state world) :
  read_argv (map stable argv) (len argv) st = Some (map stable argv, st).
Proof.
  unfold read_argv, ret, len. rewrite length_map, Z.leb_refl.
  rewrite Nat2Z.id, <- (length_map stable argv), firstn_all. reflexivity.
Qed.

(** C7.  [launchpad_set_args] stores the strings back to back, each with
    its terminator: the stored length is the sum of the lengths plus one
    each, the stored count is the number of strings, and cutting the buffer
    at its zero bytes gives the argument list back. *)
Theorem launchpad_set_args_round_trip (argv : list string) (st : state world) :
  error (st_lp st) = NO_ERROR ->
  Forall nul_free argv ->
  serialized_length argv < 2 ^ 64 ->
  fst (malloc (serialized_length argv) (st_world st)) = true ->
  exists st',
    launchpad_set_args (len argv) (map stable argv) st = Some (NO_ERROR, st') /\
    argc (st_lp st') = len argv /\
    args_len (st_lp st') = serialized_length argv /\
    len (buf_bytes (args (st_lp st'))) = serialized_length argv /\
    split_nul (buf_bytes (args (st_lp st'))) = argv.
Proof.
  intros E Hfree Hsmall Hmalloc.
  pose proof (serialized_length_nonneg argv) as Hnn.
  unfold launchpad_set_args. unfold bind at 1. unfold get_lp at 1.
  rewrite E. simpl.
  replace (len argv <? 0) with false
    by (symmetry; apply Z.ltb_ge; unfold len; lia).
  unfold bind at 1. rewrite read_argv_stable.
  rewrite strlen_total_eq, measured_stable, (wrap64_small _ (conj Hnn Hsmall)).
  unfold copy_strings.
  destruct (0 <? serialized_length argv) eqn:Epos.
  - unfold bind, call. destruct (malloc _ _) as [ok w1]. simpl in Hmalloc.
    subst ok. simpl. rewrite len_stpcpy_all_stable.
    rewrite Z.ltb_irrefl, Z.eqb_refl. simpl.
    unfold ret, call_, modify_lp. simpl. eexists. split; [reflexivity|]. simpl.
    repeat split.
    + apply len_stpcpy_all_stable.
    + apply split_nul_stpcpy_all. exact Hfree.
  - unfold ret, bind, call_, modify_lp. simpl.
    eexists. split; [reflexivity|]. simpl.
    apply Z.ltb_ge in Epos.
    assert (H0 : serialized_length argv = 0) by lia.
    destruct argv as [|s argv].
    + repeat split.
    + simpl in H0. pose proof (serialized_length_nonneg argv).
      unfold strlen in H0. lia.
Qed.

Lemma copy_strings_torn av oom trickery (st : state world) w1 :
  error (st_lp st) = NO_ERROR ->
  malloc (strlen_total av) (st_world st) = (true, w1) ->
  len (stpcpy_all av) < strlen_total av ->
  copy_strings av (strlen_total av) oom trickery st =
  Some (inl ERR_INVALID_ARGS,
        mkState (with_error ERR_INVALID_ARGS trickery (st_lp st))
                (st_vdso_vmo st) (free w1)).
Proof.
  intros E Hm Hlt. unfold copy_strings.
  replace (0 <? strlen_total av) with true
    by (symmetry; apply Z.ltb_lt; unfold len in Hlt; lia).
  unfold bind at 1. unfold call. rewrite Hm. simpl.
  replace (strlen_total av <? len (stpcpy_all av)) with false
    by (symmetry; apply Z.ltb_ge; lia).
  replace (len (stpcpy_all av) =? strlen_total av) with false
    by (symmetry; apply Z.eqb_neq; lia).
  simpl. unfold bind, call_. simpl. rewrite lp_error_eq. simpl.
  rewrite E. simpl. reflexivity.
Qed.

(** C6 (as the code has it).  When the second loop copies fewer bytes than
    the first loop measured, [launchpad_set_args] and
    [launchpad_set_environ] free the new buffer, latch and return
    [ERR_INVALID_ARGS], and leave the stored buffer, count and length as
    they were. *)
Theorem launchpad_set_args_torn_copy :
  (forall n argv (st : state world) w1,
      error (st_lp st) = NO_ERROR ->
      0 <= n <= len argv ->
      malloc (strlen_total (take (Z.to_nat n) argv)) (st_world st) = (true, w1) ->
      len (stpcpy_all (take (Z.to_nat n) argv))
        < strlen_total (take (Z.to_nat n) argv) ->
      exists st',
        launchpad_set_args n argv st = Some (ERR_INVALID_ARGS, st') /\
        error (st_lp st') = ERR_INVALID_ARGS /\
        st_world st' = free w1 /\
        args (st_lp st') = args (st_lp st) /\
        argc (st_lp st') = argc (st_lp st) /\
        args_len (st_lp st') = args_len (st_lp st))
  /\
  (forall envp (st : state world) w1,
      error (st_lp st) = NO_ERROR ->
      malloc (strlen_total envp) (st_world st) = (true, w1) ->
      len (stpcpy_all envp) < strlen_total envp ->
      exists st',
        launchpad_set_environ (Some envp) st = Some (ERR_INVALID_ARGS, st') /\
        error (st_lp st') = ERR_INVALID_ARGS /\
        st_world st' = free w1 /\
        env (st_lp st') = env (st_lp st) /\
        envc (st_lp st') = envc (st_lp st) /\
        env_len (st_lp st') = env_len (st_lp st)).
Proof.
  split.
  - intros n argv st w1 E Hn Hm Hlt.
    unfold launchpad_set_args. unfold bind at 1. unfold get_lp at 1.
    rewrite E. simpl.
    replace (n <? 0) with false by (symmetry; apply Z.ltb_ge; lia).
    unfold bind at 1. unfold read_argv.
    replace (n <=? len argv) with true by (symmetry; apply Z.leb_le; lia).
    unfold ret at 1. unfold bind at 1.
    rewrite (copy_strings_torn _ _ _ _ _ E Hm Hlt).
    unfold ret. eexists. split; [reflexivity|]. simpl. repeat split.
  - intros envp st w1 E Hm Hlt.
    unfold launchpad_set_environ. unfold bind at 1. unfold get_lp at 1.
    rewrite E. simpl. unfold bind at 1.
    rewrite (copy_strings_torn _ _ _ _ _ E Hm Hlt).
    unfold ret. eexists. split; [reflexivity|]. simpl. repeat split.
Qed.

End Blobs.

Section BlobRuns.

#[local] Existing Instance magenta_x86_64.
#[local] Existing Instance plain_kernel.

Lemma launchpad_set_args_round_trip_witness :
  exists st',
    launchpad_set_args 3 [stable "a"; stable "bb"; stable "ccc"] created
      = Some (NO_ERROR, st') /\
    argc (st_lp st') = 3 /\
    args_len (st_lp st') = 9 /\
    len (buf_bytes (args (st_lp st'))) = 9 /\
    split_nul (buf_bytes (args (st_lp st'))) = ["a"; "bb"; "ccc"]%string.
Proof.
  apply (launchpad_set_args_round_trip ["a"; "bb"; "ccc"]%string created).
  - reflexivity.
  - repeat constructor; unfold nul_free; simpl; intuition discriminate.
  - vm_compute. reflexivity.
  - reflexivity.
Defined.

(** C6 as stated fails on the status: a string that reads "abc" to
    [strlen] and "a" to [stpcpy] makes the call fail with
    [ERR_INVALID_ARGS], the status of an invalid argument (the one a
    negative [argc] gets), not with a status of its own. *)
Lemma launchpad_set_args_torn_reports_invalid_args :
  exists st' st'',
    launchpad_set_args 1 [mkObserved "abc" "a"] created
      = Some (ERR_INVALID_ARGS, st') /\
    errmsg (st_lp st') = "arguments: trickery"%string /\
    error_name_of ERR_INVALID_ARGS = Some InvalidArgs /\
    error_name_of ERR_INVALID_ARGS <> Some Inconsistent /\
    launchpad_set_args (-1) [] created = Some (ERR_INVALID_ARGS, st'').
Proof.
  do 2 eexists. split; [vm_compute; reflexivity|].
  split; [reflexivity|]. split; [reflexivity|].
  split; [vm_compute; discriminate|]. vm_compute. reflexivity.
Qed.

Lemma launchpad_set_args_torn_copy_witness :
  (exists st',
     launchpad_set_args 1 [mkObserved "abc" "a"] created
       = Some (ERR_INVALID_ARGS, st') /\
     error (st_lp st') = ERR_INVALID_ARGS /\
     st_world st' = free (mkTrace [] 4) /\
     args (st_lp st') = args (st_lp created) /\
     argc (st_lp st') = argc (st_lp created) /\
     args_len (st_lp st') = args_len (st_lp created))
  /\
  (exists st',
     launchpad_set_environ (Some [mkObserved "HOME=/data" "HOME=/"]) created
       = Some (ERR_INVALID_ARGS, st') /\
     error (st_lp st') = ERR_INVALID_ARGS /\
     st_world st' = free (mkTrace [] 4) /\
     env (st_lp st') = env (st_lp created) /\
     envc (st_lp st') = envc (st_lp created) /\
     env_len (st_lp st') = env_len (st_lp created)).
Proof.
  split.
  - apply (proj1 launchpad_set_args_torn_copy
             1 [mkObserved "abc" "a"] created (mkTrace [] 4)).
    + reflexivity.
    + vm_compute. split; discriminate.
    + reflexivity.
    + vm_compute. reflexivity.
  - apply (proj2 launchpad_set_args_torn_copy
             [mkObserved "HOME=/data" "HOME=/"] created (mkTrace [] 4)).
    + reflexivity.
    + reflexivity.
    + vm_compute. reflexivity.
Defined.

(** The other direction: a string that has grown between the two loops is
    copied past the end of the buffer before the lengths are compared. *)
Lemma launchpad_set_args_overrun :
  launchpad_set_args 1 [mkObserved "a" "abc"] created = None.
Proof. vm_compute. reflexivity. Qed.

End BlobRuns.

(** ** The stack size (C9) *)

Section StackSize.

Context {Mg : Magenta} {world elf_load_info_t : Type}
        {K : Kernel world elf_load_info_t}.

Lemma land_neg_pow2 x k :
  0 <= k < 64 -> 0 <= x < 2 ^ 64 ->
  Z.land x (wrap64 (- 2 ^ k)) = 2 ^ k * (x / 2 ^ k).
Proof.
  intros Hk Hx. unfold wrap64.
  rewrite <- (Z.land_ones (- 2 ^ k) 64) by lia.
  rewrite (Z.land_comm (- 2 ^ k)), Z.land_assoc.
  rewrite (Z.land_ones x 64) by lia.
  rewrite (Z.mod_small x) by lia.
  replace (- 2 ^ k) with (Z.lnot (Z.ones k)).
  2:{ unfold Z.lnot. rewrite Z.ones_equiv. lia. }
  rewrite <- Z.ldiff_land, Z.ldiff_ones_r by lia.
  rewrite Z.shiftl_mul_pow2, Z.shiftr_div_pow2 by lia. lia.
Qed.

Lemma page_size_bounds : 0 <= PAGE_SIZE_SHIFT < 64 -> 0 < PAGE_SIZE <= 2 ^ 63.
Proof.
  intros Hk. unfold PAGE_SIZE. split.
  - apply Z.pow_pos_nonneg; lia.
  - apply Z.pow_le_mono_r; lia.
Qed.

Lemma page_mask_eq : 0 <= PAGE_SIZE_SHIFT < 64 -> page_mask = 2 ^ 64 - PAGE_SIZE.
Proof.
  intros Hk. pose proof (page_size_bounds Hk) as Hp.
  unfold page_mask, wrap64.
  replace (- PAGE_SIZE) with (2 ^ 64 - PAGE_SIZE + (-1) * 2 ^ 64) by lia.
  rewrite Z_mod_plus_full. apply Z.mod_small. lia.
Qed.

Lemma size_max_mask :
  0 <= PAGE_SIZE_SHIFT < 64 -> Z.land SIZE_MAX page_mask = 2 ^ 64 - PAGE_SIZE.
Proof.
  intros Hk. pose proof (page_size_bounds Hk) as Hp.
  rewrite Z.land_comm. change SIZE_MAX with (Z.ones 64).
  rewrite Z.land_ones by lia. rewrite (page_mask_eq Hk).
  apply Z.mod_small. lia.
Qed.

Lemma round_up_page n :
  0 <= PAGE_SIZE_SHIFT < 64 ->
  0 < n < 2 ^ 64 - PAGE_SIZE ->
  let stored := Z.land (wrap64 (n + PAGE_SIZE - 1)) page_mask in
  stored mod PAGE_SIZE = 0 /\ n <= stored < n + PAGE_SIZE.
Proof.
  intros Hk Hn stored. pose proof (page_size_bounds Hk) as Hp.
  assert (Hs : stored = PAGE_SIZE * ((n + PAGE_SIZE - 1) / PAGE_SIZE)).
  { unfold stored, page_mask, PAGE_SIZE.
    rewrite (wrap64_small (n + 2 ^ PAGE_SIZE_SHIFT - 1))
      by (unfold PAGE_SIZE in *; lia).
    apply land_neg_pow2; [exact Hk|]. unfold PAGE_SIZE in *. lia. }
  rewrite Hs. split.
  - rewrite Z.mul_comm. apply Z_mod_mult.
  - assert (Hnz : PAGE_SIZE <> 0) by lia.
    assert (Hpos : 0 < PAGE_SIZE) by lia.
    pose proof (Z.div_mod (n + PAGE_SIZE - 1) PAGE_SIZE Hnz) as Hdm.
    pose proof (Z.mod_pos_bound (n + PAGE_SIZE - 1) PAGE_SIZE Hpos).

    lia.
Qed.

(** C9.  On a context that is not in error [launchpad_set_stack_size]
    stores a multiple of the page size: zero for zero, the least multiple
    not below the request for a positive request, and the largest
    page-aligned [size_t] value for a request so large that rounding would
    wrap.  With a stack size of zero the stack step of [prepare_start] does
    nothing: it creates no vmo, adds no handle, and the stack pointer is
    zero. *)
Theorem launchpad_set_stack_size_page_rounded :
  0 <= PAGE_SIZE_SHIFT < 64 ->
  (forall new_size (st : state world),
      error (st_lp st) = NO_ERROR ->
      0 <= new_size <= SIZE_MAX ->
      exists stored,
        launchpad_set_stack_size new_size st =
          Some (stack_size (st_lp st),
                mkState (with_stack_size stored (st_lp st))
                        (st_vdso_vmo st) (st_world st)) /\
        stored mod PAGE_SIZE = 0 /\
        (new_size = 0 -> stored = 0) /\
        (0 < new_size < SIZE_MAX + 1 - PAGE_SIZE ->
           new_size <= stored < new_size + PAGE_SIZE) /\
        (SIZE_MAX + 1 - PAGE_SIZE <= new_size ->
           stored = SIZE_MAX + 1 - PAGE_SIZE))
  /\
  (forall st : state world,
      stack_size (st_lp st) = 0 ->
      prepare_start_stack st = Some ((None, 0), st)).
Proof.
  intros Hk. pose proof (page_size_bounds Hk) as Hp. split.
  - intros new_size st E Hn.
    unfold launchpad_set_stack_size, bind, get_lp, modify_lp, ret.
    rewrite E, Z.eqb_refl, (size_max_mask Hk). unfold SIZE_MAX in *.
    destruct (2 ^ 64 - PAGE_SIZE <=? new_size) eqn:Ebig.
    + apply Z.leb_le in Ebig. eexists. split; [reflexivity|].
      split.
      * unfold PAGE_SIZE.
        replace (2 ^ 64) with (2 ^ (64 - PAGE_SIZE_SHIFT) * 2 ^ PAGE_SIZE_SHIFT)
          by (rewrite <- Z.pow_add_r by lia; f_equal; lia).
        replace (2 ^ (64 - PAGE_SIZE_SHIFT) * 2 ^ PAGE_SIZE_SHIFT
                 - 2 ^ PAGE_SIZE_SHIFT)
          with ((2 ^ (64 - PAGE_SIZE_SHIFT) - 1) * 2 ^ PAGE_SIZE_SHIFT) by lia.
        apply Z_mod_mult.
      * repeat split; intros; lia.
    + apply Z.leb_gt in Ebig.
      destruct (0 <? new_size) eqn:Epos.
      * apply Z.ltb_lt in Epos.
        assert (Hrange : 0 < new_size < 2 ^ 64 - PAGE_SIZE) by lia.
        destruct (round_up_page new_size Hk Hrange) as (Hm & Hr).
        eexists. split; [reflexivity|]. split; [exact Hm|].
        repeat split; intros; lia.
      * apply Z.ltb_ge in Epos. assert (new_size = 0) by lia. subst.
        eexists. split; [reflexivity|]. split; [apply Z.mod_0_l; lia|].
        repeat split; intros; lia.
  - intros st E. unfold prepare_start_stack, bind, get_lp, ret.
    rewrite E. reflexivity.
Qed.

End StackSize.

Section StackSizeRuns.

#[local] Existing Instance magenta_x86_64.
#[local] Existing Instance plain_kernel.

Lemma launchpad_set_stack_size_page_rounded_witness :
  (exists stored,
     launchpad_set_stack_size 5000 created =
       Some (stack_size (st_lp created),
             mkState (with_stack_size stored (st_lp created))
                     (st_vdso_vmo created) (st_world created)) /\
     stored mod PAGE_SIZE = 0 /\
     (5000 = 0 -> stored = 0) /\
     (0 < 5000 < SIZE_MAX + 1 - PAGE_SIZE ->
        5000 <= stored < 5000 + PAGE_SIZE) /\
     (SIZE_MAX + 1 - PAGE_SIZE <= 5000 -> stored = SIZE_MAX + 1 - PAGE_SIZE))
  /\
  prepare_start_stack
    (mkState (with_stack_size 0 (st_lp created)) 0 fresh_trace)
  = Some ((None, 0), mkState (with_stack_size 0 (st_lp created)) 0 fresh_trace).
Proof.
  assert (Hk : 0 <= PAGE_SIZE_SHIFT < 64) by (vm_compute; split; [discriminate|reflexivity]).
  split.
  - apply (proj1 (launchpad_set_stack_size_page_rounded Hk) 5000 created).
    + reflexivity.
    + vm_compute. split; discriminate.
  - apply (proj2 (launchpad_set_stack_size_page_rounded Hk)). reflexivity.
Defined.

(** The sizes the source's comments speak of. *)
Lemma launchpad_set_stack_size_examples :
  (exists st, launchpad_set_stack_size 5000 created = Some (262144, st) /\
              stack_size (st_lp st) = 8192) /\
  (exists st, launchpad_set_stack_size 0 created = Some (262144, st) /\
              stack_size (st_lp st) = 0) /\
  (exists st, launchpad_set_stack_size (SIZE_MAX - 1) created
                = Some (262144, st) /\
              stack_size (st_lp st) = SIZE_MAX - 4095).
Proof.
  repeat split; eexists; (split; [vm_compute; reflexivity|reflexivity]).
Qed.

End StackSizeRuns.

(** ** The loader-service client (C4) *)

Section LoaderService.

Context {Mg : Magenta} {world elf_load_info_t : Type}
        {K : Kernel world elf_load_info_t}.

(** [loader_svc_rpc] up to the reply: the call is made once, with the
    request built from the arguments. *)
Lemma loader_svc_rpc_replied loader_svc opcode data len (st : state world)
    txid w1 reply w2 :
  len < loader_svc_data_size ->
  0 <= len <= Z.of_nat (length data) ->
  atomic_fetch_add (st_world st) = (txid, w1) ->
  mx_channel_call loader_svc (request_for txid opcode data len) w1
    = (reply, w2) ->
  rp_status reply = NO_ERROR ->
  loader_svc_rpc loader_svc opcode data len st =
  (if negb (rp_reply_size reply =? sizeof_mx_loader_svc_msg_t) then
     protocol_violation (rp_handle reply)
   else if negb (rp_opcode reply =? LOADER_SVC_OP_STATUS) then
     protocol_violation (rp_handle reply)
   else if negb (rp_arg reply =? NO_ERROR) then
     if negb (rp_handle reply =? MX_HANDLE_INVALID) then
       protocol_violation (rp_handle reply)
     else if 0 <? rp_arg reply then
       protocol_violation (rp_handle reply)
     else ret (rp_arg reply)
   else ret (rp_handle reply))
    (mkState (st_lp st) (st_vdso_vmo st) w2).
Proof.
  intros Hlen Hdata Htx Hcall Hstatus. unfold loader_svc_rpc.
  replace (loader_svc_data_size <=? len) with false
    by (symmetry; apply Z.leb_gt; exact Hlen).
  unfold bind at 1. unfold call at 1. rewrite Htx.
  replace ((0 <=? len) && (len <=? Z.of_nat (length data))) with true
    by (symmetry; apply andb_true_iff; split; apply Z.leb_le; lia).
  cbn [negb]. unfold bind at 1. unfold call at 1. cbn [st_world st_lp st_vdso_vmo].
  fold (request_for txid opcode data len). rewrite Hcall.
  rewrite Hstatus. cbn [negb Z.eqb NO_ERROR]. reflexivity.
Qed.

(** C4.  Once the channel call itself has succeeded, a reply that violates
    the protocol in any of the four ways makes [loader_svc_rpc] close the
    handle slot of the reply and return [ERR_BAD_STATE]. *)
Theorem loader_svc_rpc_protocol_violation loader_svc opcode data len
    (st : state world) txid w1 reply w2 :
  len < loader_svc_data_size ->
  0 <= len <= Z.of_nat (length data) ->
  atomic_fetch_add (st_world st) = (txid, w1) ->
  mx_channel_call loader_svc (request_for txid opcode data len) w1
    = (reply, w2) ->
  rp_status reply = NO_ERROR ->
  protocol_violating reply ->
  loader_svc_rpc loader_svc opcode data len st =
  Some (ERR_BAD_STATE,
        mkState (st_lp st) (st_vdso_vmo st)
                (mx_handle_close (rp_handle reply) w2)).
Proof.
  intros Hlen Hdata Htx Hcall Hstatus Hviol.
  rewrite (loader_svc_rpc_replied _ _ _ _ _ _ _ _ _ Hlen Hdata Htx Hcall Hstatus).
  unfold protocol_violation, bind, call_, ret. cbn [st_world st_lp st_vdso_vmo].
  destruct (rp_reply_size reply =? sizeof_mx_loader_svc_msg_t) eqn:E1;
    [|reflexivity].
  destruct (rp_opcode reply =? LOADER_SVC_OP_STATUS) eqn:E2; [|reflexivity].
  destruct (rp_arg reply =? NO_ERROR) eqn:E3; cbn [negb].
  - apply Z.eqb_eq in E1, E2, E3. exfalso.
    destruct Hviol as [Hv|[Hv|[(Hv & _)|Hv]]]; try contradiction.
    rewrite E3 in Hv. unfold NO_ERROR in Hv. lia.
  - destruct (rp_handle reply =? MX_HANDLE_INVALID) eqn:E4; [|reflexivity].
    destruct (0 <? rp_arg reply) eqn:E5; [reflexivity|]. cbn [negb].
    apply Z.eqb_eq in E1, E2, E4. apply Z.ltb_ge in E5. exfalso.
    destruct Hviol as [Hv|[Hv|[(_ & Hv)|Hv]]]; try contradiction. lia.
Qed.

(** The replies that are not violations: a handle (or none) with status
    zero is returned as it is, a negative status without a handle is
    returned as the status. *)
Lemma loader_svc_rpc_accepts loader_svc opcode data len
    (st : state world) txid w1 reply w2 :
  len < loader_svc_data_size ->
  0 <= len <= Z.of_nat (length data) ->
  atomic_fetch_add (st_world st) = (txid, w1) ->
  mx_channel_call loader_svc (request_for txid opcode data len) w1
    = (reply, w2) ->
  rp_status reply = NO_ERROR ->
  ~ protocol_violating reply ->
  loader_svc_rpc loader_svc opcode data len st =
  Some (if rp_arg reply =? NO_ERROR then rp_handle reply else rp_arg reply,
        mkState (st_lp st) (st_vdso_vmo st) w2).
Proof.
  intros Hlen Hdata Htx Hcall Hstatus Hok.
  rewrite (loader_svc_rpc_replied _ _ _ _ _ _ _ _ _ Hlen Hdata Htx Hcall Hstatus).
  unfold protocol_violating in Hok.
  destruct (rp_reply_size reply =? sizeof_mx_loader_svc_msg_t) eqn:E1.
  2:{ apply Z.eqb_neq in E1. tauto. }
  destruct (rp_opcode reply =? LOADER_SVC_OP_STATUS) eqn:E2.
  2:{ apply Z.eqb_neq in E2. tauto. }
  destruct (rp_arg reply =? NO_ERROR) eqn:E3; cbn [negb]; [reflexivity|].
  destruct (rp_handle reply =? MX_HANDLE_INVALID) eqn:E4.
  2:{ apply Z.eqb_neq in E3, E4. tauto. }
  destruct (0 <? rp_arg reply) eqn:E5.
  - apply Z.ltb_lt in E5. tauto.
  - reflexivity.
Qed.

End LoaderService.

Section LoaderServiceRuns.

#[local] Existing Instance magenta_x86_64.

(** A failure status with a handle attached. *)
Lemma loader_svc_rpc_protocol_violation_witness :
  loader_svc_rpc (K := replying (mkReply NO_ERROR NO_ERROR 20 0 (-4) 90))
    50 LOADER_SVC_OP_LOAD_OBJECT (list_ascii_of_string "ld.so.1") 7 created
  = Some (ERR_BAD_STATE,
          mkState (st_lp created) (st_vdso_vmo created)
            (log (EvHandleClose 90)
               (log (EvChannelCall 50
                       (request_for 7 LOADER_SVC_OP_LOAD_OBJECT
                          (list_ascii_of_string "ld.so.1") 7))
                    (st_world created)))).
Proof.
  apply (loader_svc_rpc_protocol_violation
           (K := replying (mkReply NO_ERROR NO_ERROR 20 0 (-4) 90))
           50 LOADER_SVC_OP_LOAD_OBJECT (list_ascii_of_string "ld.so.1") 7
           created 7 (st_world created)
           (mkReply NO_ERROR NO_ERROR 20 0 (-4) 90)).
  - vm_compute. reflexivity.
  - vm_compute. split; discriminate.
  - reflexivity.
  - reflexivity.
  - reflexivity.
  - right. right. left. vm_compute. split; discriminate.
Defined.

(** The four violations, each on its own, and two replies that are
    accepted. *)
Lemma loader_svc_rpc_examples :
  let rpc reply :=
    option_map fst
      (loader_svc_rpc (K := replying reply) 50 LOADER_SVC_OP_LOAD_OBJECT
         (list_ascii_of_string "ld.so.1") 7 created) in
  rpc (mkReply NO_ERROR NO_ERROR 24 0 0 90) = Some ERR_BAD_STATE /\
  rpc (mkReply NO_ERROR NO_ERROR 20 2 0 90) = Some ERR_BAD_STATE /\
  rpc (mkReply NO_ERROR NO_ERROR 20 0 (-4) 90) = Some ERR_BAD_STATE /\
  rpc (mkReply NO_ERROR NO_ERROR 20 0 5 0) = Some ERR_BAD_STATE /\
  rpc (mkReply NO_ERROR NO_ERROR 20 0 0 90) = Some 90 /\
  rpc (mkReply NO_ERROR NO_ERROR 20 0 (-4) 0) = Some ERR_NO_MEMORY.
Proof. repeat split. Qed.

End LoaderServiceRuns.


(** ** Loading through an interpreter (C5) *)

Section Interpreter.
Context {Mg : Magenta} {world elf_load_info_t : Type}
        {K : Kernel world elf_load_info_t}.

Lemma load_Some l i (st : state world) r st' :
  load l i st = Some (r, st') ->
  st' = st /\ l !! Z.to_nat i = Some r /\ 0 <= i.
Proof.
  unfold load, ret, undefined. destruct (l !! Z.to_nat i) as [x|]; [|discriminate].
  destruct (0 <=? i) eqn:E; [|discriminate].
  intros [= <- <-]. apply Z.leb_le in E. auto.
Qed.

(** What a successful [handle_interp] has done. *)
Lemma handle_interp_success vmo path path_len (st st' : state world) :
  handle_interp vmo path path_len st = Some (NO_ERROR, st') ->
  exists sta stb interp_vmo elf_i vmar w3 w4,
    setup_loader_svc st = Some (NO_ERROR, sta) /\
    loader_svc_rpc (special_get (special_handles (st_lp sta)) HND_LOADER_SVC)
      LOADER_SVC_OP_LOAD_OBJECT (list_ascii_of_string path) path_len sta
      = Some (interp_vmo, stb) /\
    0 <= interp_vmo /\
    elf_load_start interp_vmo (st_world stb) = ((NO_ERROR, elf_i), w3) /\
    handles (st_lp stb) !! 1%nat = Some vmar /\
    elf_load_finish vmar elf_i interp_vmo (base (st_lp stb)) (entry (st_lp stb))
      w3 = ((NO_ERROR, base (st_lp st'), entry (st_lp st')), w4) /\
    st_lp st' =
      with_loader_message true
        (with_special_handles
           (special_set (special_handles (st_lp stb)) HND_EXEC_VMO vmo)
           (with_entry (entry (st_lp st'))
              (with_base (base (st_lp st')) (st_lp stb)))) /\
    st_world st' =
      (if special_get (special_handles (st_lp stb)) HND_EXEC_VMO
          =? MX_HANDLE_INVALID
       then fun w => w
       else mx_handle_close
              (special_get (special_handles (st_lp stb)) HND_EXEC_VMO))
        (mx_handle_close interp_vmo (elf_load_destroy elf_i w4)).
Proof.
  unfold handle_interp. intros Hrun.
  apply bind_inv in Hrun as (s & sta & Hsetup & Hrun).
  destruct (s =? NO_ERROR) eqn:Es; cbn [negb] in Hrun.
  2:{ inv_m; bool_hyps; congruence. }
  apply Z.eqb_eq in Es. subst s.
  apply bind_inv in Hrun as (lp & sta' & Hg & Hrun).
  apply get_lp_inv in Hg as (-> & ->).
  apply bind_inv in Hrun as (interp_vmo & stb & Hrpc & Hrun).
  destruct (interp_vmo <? 0) eqn:Eneg.
  { inv_m; bool_hyps; unfold NO_ERROR in *; lia. }
  apply Z.ltb_ge in Eneg.
  unfold elf_load_finish_lp, lp_vmar in Hrun.
  inv_m; bool_hyps; try contradiction.
  all: repeat match goal with
       | H : load _ _ _ = Some _ |- _ => apply load_Some in H as (? & ? & _)
       end; subst.
  all: simpl in *.
  all: eexists _, _, interp_vmo, _, _, _, _.
  all: repeat split; eauto.
  all: split_ifs; bool_hyps; congruence.
Qed.

Lemma loader_svc_rpc_lp svc opcode data n (st st' : state world) r :
  loader_svc_rpc svc opcode data n st = Some (r, st') ->
  st_lp st' = st_lp st.
Proof.
  unfold loader_svc_rpc, protocol_violation. intros Hrun.
  inv_m; reflexivity.
Qed.

Lemma handle_interp_error vmo path path_len (st st' : state world) s :
  handle_interp vmo path path_len st = Some (s, st') ->
  error (st_lp st') = error (st_lp st).
Proof.
  unfold handle_interp, setup_loader_svc, elf_load_finish_lp, lp_vmar.
  intros Hrun. inv_m.
  all: repeat match goal with
       | H : loader_svc_rpc _ _ _ _ _ = Some _ |- _ =>
           apply loader_svc_rpc_lp in H
       | H : load _ _ _ = Some _ |- _ => apply load_Some in H as (? & _)
       end; subst; simpl in *.
  all: try congruence.
  all: repeat match goal with
       | H : st_lp ?s = _ |- context [st_lp ?s] => rewrite H
       end; simpl; congruence.
Qed.

(** C5.  When the image names an interpreter and [launchpad_elf_load]
    succeeds: the loader-message flag is set; the image handle itself is the
    [HND_EXEC_VMO] special handle (a previous one has been closed, the image
    handle has not); and the recorded base and entry point are the ones
    [elf_load_finish] returned for the vmo the loader service sent back. *)
Theorem launchpad_elf_load_interpreter vmo (st st' : state world)
    elf w1 path path_len w2 :
  error (st_lp st) = NO_ERROR ->
  0 < vmo ->
  elf_load_start vmo (st_world st) = ((NO_ERROR, elf), w1) ->
  elf_load_get_interp elf vmo w1 = ((NO_ERROR, Some path, path_len), w2) ->
  launchpad_elf_load vmo st = Some (NO_ERROR, st') ->
  loader_message (st_lp st') = true /\
  special_get (special_handles (st_lp st')) HND_EXEC_VMO = vmo /\
  exists sta stb interp_vmo elf_i vmar w3 w4 w5 elf_stack_size,
    setup_loader_svc (mkState (st_lp st) (st_vdso_vmo st) w2)
      = Some (NO_ERROR, sta) /\
    loader_svc_rpc (special_get (special_handles (st_lp sta)) HND_LOADER_SVC)
      LOADER_SVC_OP_LOAD_OBJECT (list_ascii_of_string path) path_len sta
      = Some (interp_vmo, stb) /\
    0 <= interp_vmo /\
    elf_load_start interp_vmo (st_world stb) = ((NO_ERROR, elf_i), w3) /\
    handles (st_lp stb) !! 1%nat = Some vmar /\
    elf_load_finish vmar elf_i interp_vmo (base (st_lp stb)) (entry (st_lp stb))
      w3 = ((NO_ERROR, base (st_lp st'), entry (st_lp st')), w4) /\
    elf_load_get_stack_size elf
      (free
         ((if special_get (special_handles (st_lp stb)) HND_EXEC_VMO
              =? MX_HANDLE_INVALID
           then fun w => w
           else mx_handle_close
                  (special_get (special_handles (st_lp stb)) HND_EXEC_VMO))
            (mx_handle_close interp_vmo (elf_load_destroy elf_i w4))))
      = (elf_stack_size, w5) /\
    st_world st' = elf_load_destroy elf w5.
Proof.
  intros E0 Hvmo Hstart Hinterp Hrun.
  unfold launchpad_elf_load in Hrun.
  replace (vmo <? 0) with false in Hrun by (symmetry; apply Z.ltb_ge; lia).
  replace (vmo =? MX_HANDLE_INVALID) with false in Hrun
    by (symmetry; apply Z.eqb_neq; unfold MX_HANDLE_INVALID; lia).
  unfold bind at 1 in Hrun. unfold get_lp at 1 in Hrun.
  rewrite E0 in Hrun. cbn [negb Z.eqb NO_ERROR] in Hrun.
  unfold bind at 1 in Hrun. unfold bind at 1 in Hrun. unfold call at 1 in Hrun.
  rewrite Hstart in Hrun. cbn [negb Z.eqb NO_ERROR] in Hrun.
  unfold bind at 1 in Hrun. unfold call at 1 in Hrun.
  cbn [st_world st_lp st_vdso_vmo] in Hrun.
  rewrite Hinterp in Hrun. cbn [negb Z.eqb NO_ERROR] in Hrun.
  unfold bind at 1 in Hrun. unfold bind at 1 in Hrun. unfold bind at 1 in Hrun.
  destruct (handle_interp _ _ _ _) as [[s sti]|] eqn:Hhi; [|discriminate].
  pose proof (handle_interp_error _ _ _ _ _ _ Hhi) as Herr.
  cbn [st_lp] in Herr. rewrite E0 in Herr.
  unfold check_elf_stack_size, launchpad_set_stack_size in Hrun.
  destruct (s =? NO_ERROR) eqn:Es; cbn [negb] in Hrun.
  2:{ exfalso. inv_m; bool_hyps; simpl in *; try congruence.
      all: rewrite ?Herr in *; simpl in *; congruence. }
  apply Z.eqb_eq in Es. subst s.
  apply handle_interp_success in Hhi
    as (sta & stb & interp_vmo & elf_i & vmar & w3 & w4
        & Hsetup & Hrpc & Hpos & Hst & Hvmar & Hfin & Hlp & Hw).
  inv_m; bool_hyps; simpl in *; try congruence.
  all: rewrite Hlp; simpl.
  all: split; [reflexivity|]; split; [reflexivity|].
  all: eexists sta, stb, interp_vmo, elf_i, vmar, w3, w4, _, _.
  all: rewrite Hw in *.
  all: repeat split; eauto.
Qed.
End Interpreter.

Section InterpreterRuns.

#[local] Existing Instance magenta_x86_64.
#[local] Existing Instance with_interpreter.

(** The image in vmo 80 asks for "lib/ld.so.1"; the loader service sends
    vmo 90.  The entry point recorded is that of vmo 90, vmo 80 is kept as
    the special handle and is not closed, vmo 90 is. *)
Lemma launchpad_elf_load_interpreter_run :
  exists st',
    launchpad_elf_load 80 created = Some (NO_ERROR, st') /\
    loader_message (st_lp st') = true /\
    special_handles (st_lp st') = (50, 80) /\
    base (st_lp st') = 90 * 65536 /\
    entry (st_lp st') = 90 * 65536 + 4096 /\
    events (st_world st') =
      [EvElfDestroy; EvFree; EvHandleClose 90; EvElfDestroy; EvElfFinish 90;
       EvChannelCall 50
         (request_for 7 LOADER_SVC_OP_LOAD_OBJECT
            (list_ascii_of_string "lib/ld.so.1") 11)].
Proof.
  eexists. split; [vm_compute; reflexivity|]. repeat split.
Qed.

(** A special handle set before is closed when it is replaced. *)
Lemma launchpad_elf_load_interpreter_replaces :
  exists st',
    launchpad_elf_load 80
      (mkState (with_special_handles (50, 77) (st_lp created)) 0 fresh_trace)
      = Some (NO_ERROR, st') /\
    special_handles (st_lp st') = (50, 80) /\
    In (EvHandleClose 77) (events (st_world st')) /\
    ~ In (EvHandleClose 80) (events (st_world st')).
Proof.
  eexists. split; [vm_compute; reflexivity|]. split; [reflexivity|].
  split; [simpl; tauto|]. simpl. intuition discriminate.
Qed.

Lemma launchpad_elf_load_interpreter_witness :
  exists st',
    launchpad_elf_load 80 created = Some (NO_ERROR, st') /\
    loader_message (st_lp st') = true /\
    special_get (special_handles (st_lp st')) HND_EXEC_VMO = 80.
Proof.
  eexists. split; [vm_compute; reflexivity|].
  match goal with
  | |- loader_message (st_lp ?s) = true /\ _ =>
      destruct (launchpad_elf_load_interpreter 80 created s 80
                  (st_world created) "lib/ld.so.1"%string 11
                  (st_world created))
        as (Hflag & Hexec & _)
  end.
  - reflexivity.
  - reflexivity.
  - reflexivity.
  - reflexivity.
  - vm_compute. reflexivity.
  - split; [exact Hflag|exact Hexec].
Defined.

End InterpreterRuns.


(** ** The bootstrap message and the stack (C3) *)

Section StartMessage.
Context {Mg : Magenta} {world elf_load_info_t : Type}
        {K : Kernel world elf_load_info_t}.

Lemma lookup_inserts_replicate {A} (l : list A) (n i : nat) x :
  (i < n)%nat -> (n <= length l)%nat ->
  list_inserts 0 (replicate n x) l !! i = Some x.
Proof.
  intros Hi Hn.
  rewrite list_lookup_inserts by (rewrite ?length_replicate; lia).
  rewrite Nat.sub_0_r. apply lookup_replicate_2. exact Hi.
Qed.

(** C3.  When [prepare_start] reaches its last step (the earlier ones did
    not return) and the message is built: if the message is larger than
    half the stack size, [prepare_start] returns [ERR_BUFFER_TOO_SMALL],
    latches it, and the world has seen only the release of the buffer and
    of the thread handle, no channel write; if it is at most half the stack
    size the message is written with the handles of the table, and when
    that write succeeds the count is zero and every slot that was in use
    holds [MX_HANDLE_INVALID]. *)
Theorem prepare_start_message_fit name to_child
    (st st1 st2 st3 st4 : state world) sp thread msg :
  error (st_lp st) = NO_ERROR ->
  entry (st_lp st) <> 0 ->
  prepare_start_stack st = Some ((None, sp), st1) ->
  prepare_start_thread name st1 = Some ((None, thread), st2) ->
  prepare_start_loader thread to_child st2 = Some (None, st3) ->
  build_message st3 = Some (Some msg, st4) ->
  handle_count (st_lp st3) <= len (handles (st_lp st3)) ->
  pa_size msg = wrap64 (sizeof_mx_proc_args_t
                        + handle_count (st_lp st3) * sizeof_uint32
                        + args_len (st_lp st3) + env_len (st_lp st3)) /\
  (stack_size (st_lp st3) / 2 < pa_size msg ->
     prepare_start name to_child st =
       Some ((ERR_BUFFER_TOO_SMALL, Some thread, Some sp),
             mkState (with_error ERR_BUFFER_TOO_SMALL
                        "procargs message is too large" (st_lp st3))
                     (st_vdso_vmo st3)
                     (mx_handle_close thread (free (st_world st4)))))
  /\
  (pa_size msg <= stack_size (st_lp st3) / 2 ->
     forall w5,
       mx_channel_write to_child msg
         (take (Z.to_nat (handle_count (st_lp st3))) (handles (st_lp st3)))
         (st_world st4) = (NO_ERROR, w5) ->
       exists st',
         prepare_start name to_child st
           = Some ((NO_ERROR, Some thread, Some sp), st') /\
         handle_count (st_lp st') = 0 /\
         (forall i : nat, Z.of_nat i < handle_count (st_lp st3) ->
            handles (st_lp st') !! i = Some MX_HANDLE_INVALID) /\
         st_world st' = free w5).
Proof.
  intros E0 Hentry H1 H2 H3 H4 Htable.
  pose proof (prepare_start_stack_error _ _ _ _ E0 H1) as I1.
  pose proof (prepare_start_thread_error _ _ _ _ _ I1 H2) as I2.
  pose proof (prepare_start_loader_error _ _ _ _ _ I2 H3) as I3.
  simpl in I1, I2, I3.
  destruct (build_message_lp _ _ _ H4) as (Hlp & Hv & Hsize).
  specialize (Hsize msg eq_refl).
  assert (Hcount : 0 <= handle_count (st_lp st3) /\
                   handle_count (st_lp st3) * 4 <= SIZE_MAX).
  { revert H4. unfold build_message, load_n. intros H4. inv_m. bool_hyps.
    repeat match goal with
    | H : _ && _ = true |- _ => apply andb_true_iff in H as [? ?]
    end. bool_hyps. lia. }
  split; [exact Hsize|].
  assert (Hstart : prepare_start name to_child st =
                   (status <- prepare_start_procargs thread to_child ;;
                    ret (status, Some thread, Some sp)) st3).
  { unfold prepare_start. unfold bind at 1. unfold get_lp at 1.
    replace (entry (st_lp st) =? 0) with false
      by (symmetry; apply Z.eqb_neq; exact Hentry).
    unfold bind at 1. rewrite H1. unfold bind at 1. rewrite H2.
    unfold bind at 1. rewrite H3. reflexivity. }
  rewrite Hstart. split.
  - intros Hbig. apply Z.ltb_lt in Hbig.
    unfold bind at 1. unfold prepare_start_procargs.
    unfold bind at 1. rewrite H4. unfold bind at 1. unfold get_lp at 1.
    rewrite Hlp, Hbig.
    unfold bind, call_. rewrite lp_error_eq. simpl. rewrite Hlp, Hv, I3.
    simpl. reflexivity.
  - intros Hfit w5 Hwrite.
    unfold bind at 1. unfold prepare_start_procargs.
    unfold bind at 1. rewrite H4. unfold bind at 1. unfold get_lp at 1.
    rewrite Hlp.
    replace (stack_size (st_lp st3) / 2 <? pa_size msg) with false
      by (symmetry; apply Z.ltb_ge; exact Hfit).
    unfold bind at 1. unfold load_n.
    replace (0 <=? handle_count (st_lp st3)) with true
      by (symmetry; apply Z.leb_le; lia).
    replace (handle_count (st_lp st3) <=? len (handles (st_lp st3))) with true
      by (symmetry; apply Z.leb_le; lia).
    replace (handle_count (st_lp st3) * 4 <=? SIZE_MAX) with true
      by (symmetry; apply Z.leb_le; lia).
    cbn [andb]. unfold ret at 1. unfold bind at 1. unfold call at 1.
    rewrite Hwrite. unfold bind, call_, modify_lp, ret. simpl.
    eexists. split; [reflexivity|]. simpl. rewrite Hlp.
    split; [reflexivity|]. split; [|reflexivity].
    intros i Hi. apply lookup_inserts_replicate; unfold len in *; lia.
Qed.
End StartMessage.

Section StartMessageRuns.

#[local] Existing Instance magenta_x86_64.
#[local] Existing Instance plain_kernel.

(** With a stack of 4096 bytes: an argument of 2003 letters makes a message
    of 28 + 4 * 4 + 2004 = 2048 bytes, which is written and empties the
    table; one letter more makes 2049 bytes, which is refused before any
    write. *)
Lemma prepare_start_boundary :
  stack_size (st_lp (ready 2003)) = 4096 /\
  stack_size (st_lp (ready 2004)) = 4096 /\
  (exists st' sp,
     prepare_start "main" 20 (ready 2003)
       = Some ((NO_ERROR, Some 40, Some sp), st') /\
     handle_count (st_lp st') = 0 /\
     take 4 (handles (st_lp st')) = [0; 0; 0; 0] /\
     channel_writes (st_world st') = [(20, 2048, [10; 11; 30; 1040])]) /\
  (exists st' sp,
     prepare_start "main" 20 (ready 2004)
       = Some ((ERR_BUFFER_TOO_SMALL, Some 40, Some sp), st') /\
     error (st_lp st') = ERR_BUFFER_TOO_SMALL /\
     handle_count (st_lp st') = 4 /\
     channel_writes (st_world st') = []).
Proof.
  split; [reflexivity|]. split; [reflexivity|]. split.
  - do 2 eexists. split; [vm_compute; reflexivity|].
    split; [reflexivity|]. split; [reflexivity|]. vm_compute. reflexivity.
  - do 2 eexists. split; [vm_compute; reflexivity|].
    split; [reflexivity|]. split; [reflexivity|]. reflexivity.
Qed.

Lemma prepare_start_message_fit_witness :
  option_map fst (prepare_start "main" 20 (ready 2004))
    = Some (ERR_BUFFER_TOO_SMALL, Some 40, Some (1048576 + 4096 - 8)) /\
  option_map fst (prepare_start "main" 20 (ready 2003))
    = Some (NO_ERROR, Some 40, Some (1048576 + 4096 - 8)).
Proof.
  split.
  - edestruct (prepare_start_message_fit "main" 20 (ready 2004))
      as (Hsize & Hbig & _).
    + reflexivity.
    + vm_compute. discriminate.
    + vm_compute. reflexivity.
    + vm_compute. reflexivity.
    + vm_compute. reflexivity.
    + vm_compute. reflexivity.
    + vm_compute. discriminate.
    + rewrite Hbig; [reflexivity|]. vm_compute. reflexivity.
  - edestruct (prepare_start_message_fit "main" 20 (ready 2003))
      as (Hsize & _ & Hfit).
    + reflexivity.
    + vm_compute. discriminate.
    + vm_compute. reflexivity.
    + vm_compute. reflexivity.
    + vm_compute. reflexivity.
    + vm_compute. reflexivity.
    + vm_compute. discriminate.
    + edestruct Hfit as (st' & Hrun & _).
      * vm_compute. discriminate.
      * vm_compute. reflexivity.
      * rewrite Hrun. reflexivity.
Defined.

End StartMessageRuns.


(** ** The sticky error (C2) and the shared invalid context (C10) *)

Section Sticky.
Context {Mg : Magenta} {world elf_load_info_t : Type}
        {K : Kernel world elf_load_info_t}.

Lemma with_vdso_base_same lp : with_vdso_base (vdso_base lp) lp = lp.
Proof. destruct lp; reflexivity. Qed.

Ltac run_in_error E :=
  unfold bind, ret, get_lp, put_lp, modify_lp, call, call_, get_vdso_vmo,
    put_vdso_vmo; cbn [st_lp st_vdso_vmo st_world];
  rewrite ?E; cbn [negb fst snd].

Lemma more_handles_in_error n (st : state world) :
  (error (st_lp st) =? NO_ERROR) = false ->
  more_handles n st = Some (error (st_lp st), st).
Proof.
  intros E. unfold more_handles. run_in_error E. reflexivity.
Qed.

Lemma vdso_step_in_error (lp : launchpad) v (w : world) :
  (error lp =? NO_ERROR) = false ->
  (vdso_lock ;; vmo <- vdso_get_vmo ;; status <- elf_load_extra_vdso vmo ;;
   vdso_unlock ;; ret status) (mkState lp v w)
  = Some (error lp,
          mkState lp (fst (vdso_default_in_error (v, w)))
                     (snd (vdso_default_in_error (v, w)))).
Proof.
  intros E. unfold vdso_lock, vdso_unlock, vdso_get_vmo, elf_load_extra_vdso,
    launchpad_elf_load_extra, vdso_default_in_error.
  run_in_error E.
  destruct (v =? MX_HANDLE_INVALID); cbn [st_lp st_vdso_vmo st_world].
  - destruct (mxio_get_startup_handle _ _) as [h w']. 
    cbn [st_lp st_vdso_vmo st_world]. rewrite E. cbn [negb fst snd].
    rewrite with_vdso_base_same. reflexivity.
  - rewrite E. cbn [negb fst snd st_lp]. rewrite with_vdso_base_same. reflexivity.
Qed.

Lemma launchpad_elf_load_in_error vmo lp v (w : world) :
  (error lp =? NO_ERROR) = false ->
  launchpad_elf_load vmo (mkState lp v w) =
  Some (error lp, mkState lp v (close_world (given_vmo vmo) w)).
Proof.
  intros E. unfold launchpad_elf_load, given_vmo.
  destruct (vmo <? 0) eqn:E1.
  { rewrite lp_error_eq. run_in_error E.
    replace (0 <? vmo) with false
      by (symmetry; apply Z.ltb_ge; apply Z.ltb_lt in E1; lia).
    reflexivity. }
  destruct (vmo =? MX_HANDLE_INVALID) eqn:E2.
  { rewrite lp_error_eq. run_in_error E.
    apply Z.eqb_eq in E2. subst. reflexivity. }
  run_in_error E. unfold MX_HANDLE_INVALID in E2. rewrite E2. cbn [negb].
  replace (0 <? vmo) with true
    by (symmetry; apply Z.ltb_lt; apply Z.ltb_ge in E1; apply Z.eqb_neq in E2;
        lia).
  reflexivity.
Qed.

Lemma launchpad_elf_load_with_vdso_in_error vmo lp v (w : world) :
  (error lp =? NO_ERROR) = false ->
  launchpad_elf_load_with_vdso vmo (mkState lp v w) =
  Some (error lp,
        mkState lp
          (fst (vdso_default_in_error (v, close_world (given_vmo vmo) w)))
          (snd (vdso_default_in_error (v, close_world (given_vmo vmo) w)))).
Proof.
  intros E. unfold launchpad_elf_load_with_vdso.
  unfold bind at 1. rewrite (launchpad_elf_load_in_error vmo lp v w E).
  unfold bind at 1. unfold launchpad_load_vdso.
  change (MX_HANDLE_INVALID =? MX_HANDLE_INVALID) with true. cbn [negb].
  rewrite (vdso_step_in_error lp v _ E).
  unfold launchpad_add_vdso_vmo. run_in_error E. reflexivity.
Qed.

(** An operation on a context in error: the context is left as it is, the
    status returned is the latched error. *)
Lemma perform_in_error op (st : state world) :
  error (st_lp st) <> NO_ERROR ->
  well_formed op ->
  perform op st =
  Some (if returns_status op then Some (error (st_lp st)) else None,
        mkState (st_lp st)
          (fst (rest_in_error op (st_vdso_vmo st, st_world st)))
          (snd (rest_in_error op (st_vdso_vmo st, st_world st)))).
Proof.
  intros E Hwf. apply Z.eqb_neq in E. destruct st as [lp v w].
  cbn [st_lp st_vdso_vmo st_world] in *.
  destruct op; cbn [perform returns_status rest_in_error handles_given
                    fst snd close_world fold_left].
  - unfold launchpad_set_args. run_in_error E. reflexivity.
  - unfold launchpad_set_environ. run_in_error E. reflexivity.
  - unfold launchpad_add_handle, given_handle.
    destruct (h =? MX_HANDLE_INVALID).
    + unfold bind at 1. rewrite lp_error_eq. cbn [st_lp st_vdso_vmo st_world].
      rewrite E. reflexivity.
    + unfold bind at 1. unfold bind at 1.
      rewrite (more_handles_in_error 1 (mkState lp v w) E).
      cbn [st_lp]. rewrite E. run_in_error E. reflexivity.
  - destruct Hwf as (Hn & Hsz).
    unfold launchpad_add_handles. unfold bind at 1. unfold bind at 1.
    rewrite (more_handles_in_error n (mkState lp v w) E).
    cbn [st_lp]. rewrite E. unfold bind at 1. unfold load_n.
    replace (0 <=? n) with true by (symmetry; apply Z.leb_le; lia).
    replace (n <=? len h) with true by (symmetry; apply Z.leb_le; lia).
    replace (n * 4 <=? SIZE_MAX) with true by (symmetry; apply Z.leb_le; lia).
    cbn [andb]. unfold ret at 1. unfold bind at 1. rewrite close_all_eq.
    reflexivity.
  - unfold launchpad_add_pipe. run_in_error E. reflexivity.
  - unfold launchpad_elf_load_basic, given_vmo.
    destruct (vmo <? 0) eqn:E1.
    { unfold bind. rewrite lp_error_eq. run_in_error E.
      replace (0 <? vmo) with false
        by (symmetry; apply Z.ltb_ge; apply Z.ltb_lt in E1; lia).
      reflexivity. }
    destruct (vmo =? MX_HANDLE_INVALID) eqn:E2.
    { unfold bind. rewrite lp_error_eq. run_in_error E.
      apply Z.eqb_eq in E2. subst. reflexivity. }
    run_in_error E.
    replace (0 <? vmo) with true
      by (symmetry; apply Z.ltb_lt; apply Z.ltb_ge in E1; apply Z.eqb_neq in E2;
          unfold MX_HANDLE_INVALID in *; lia).
    reflexivity.
  - unfold launchpad_elf_load_extra. run_in_error E. reflexivity.
  - unfold bind. rewrite (launchpad_elf_load_in_error vmo lp v w E).
    reflexivity.
  - unfold launchpad_add_vdso_vmo. run_in_error E. reflexivity.
  - unfold launchpad_load_vdso.
    destruct (vmo =? MX_HANDLE_INVALID); cbn [negb].
    + unfold bind at 1. rewrite (vdso_step_in_error lp v w E). reflexivity.
    + unfold elf_load_extra_vdso, launchpad_elf_load_extra. run_in_error E.
      rewrite with_vdso_base_same. reflexivity.
  - unfold launchpad_use_loader_service. run_in_error E. reflexivity.
  - unfold launchpad_load_from_file. unfold bind at 1. unfold bind at 1.
    unfold call at 1. cbn [st_world st_lp st_vdso_vmo].
    destruct (launchpad_vmo_from_file path w) as [vmo w1].
    rewrite (launchpad_elf_load_with_vdso_in_error vmo lp v w1 E). reflexivity.
  - unfold launchpad_load_from_fd. unfold bind at 1. unfold bind at 1.
    unfold call at 1. cbn [st_world st_lp st_vdso_vmo].
    destruct (launchpad_vmo_from_fd fd w) as [vmo w1].
    rewrite (launchpad_elf_load_with_vdso_in_error vmo lp v w1 E). reflexivity.
  - unfold launchpad_load_from_vmo. unfold bind at 1.
    rewrite (launchpad_elf_load_with_vdso_in_error vmo lp v w E). reflexivity.
  - unfold launchpad_start. run_in_error E. reflexivity.
  - unfold launchpad_start_injected. run_in_error E. reflexivity.
  - unfold launchpad_abort. unfold bind. rewrite lp_error_eq. run_in_error E.
    reflexivity.
  - unfold launchpad_set_stack_size. run_in_error E. reflexivity.
  - unfold launchpad_send_loader_message. run_in_error E. reflexivity.
Qed.

(** The status returned is the sticky error of the context left behind. *)

Lemma copy_strings_status av total oom trickery (st st' : state world) r :
  copy_strings av total oom trickery st = Some (r, st') ->
  match r with
  | inl e => e = error (st_lp st')
  | inr _ => st_lp st' = st_lp st
  end.
Proof.
  unfold copy_strings. intros Hrun. inv_m; simpl; fin.
Qed.

Lemma launchpad_set_args_status n argv (st st' : state world) s :
  launchpad_set_args n argv st = Some (s, st') -> s = error (st_lp st').
Proof.
  unfold launchpad_set_args, read_argv. intros Hrun. inv_m.
  all: repeat match goal with
       | H : copy_strings _ _ _ _ _ = Some _ |- _ =>
           apply copy_strings_status in H
       end; simpl in *; bool_hyps; try congruence.
  all: fin.

Qed.

Lemma launchpad_set_environ_status envp (st st' : state world) s :
  launchpad_set_environ envp st = Some (s, st') -> s = error (st_lp st').
Proof.
  unfold launchpad_set_environ. intros Hrun. inv_m.
  all: repeat match goal with
       | H : copy_strings _ _ _ _ _ = Some _ |- _ =>
           apply copy_strings_status in H
       end; simpl in *; bool_hyps; try congruence.
  all: fin.
Qed.

Lemma launchpad_add_handles_status n h id (st st' : state world) s :
  launchpad_add_handles n h id st = Some (s, st') -> s = error (st_lp st').
Proof.
  intros Hrun.
  destruct (launchpad_add_handles_cases _ _ _ _ _ _ Hrun)
    as (s1 & st1 & Hm & Hcase).
  destruct (more_handles_cases _ _ _ _ Hm) as (Hs & _).
  destruct (s1 =? NO_ERROR) eqn:Es.
  - destruct Hcase as (_ & _ & _ & -> & ->). apply Z.eqb_eq in Es.
    destruct (existsb _ _); simpl; congruence.
  - destruct Hcase as (-> & ->). exact Hs.
Qed.

Lemma launchpad_add_handle_failure h id (st st' : state world) r :
  launchpad_add_handle h id st = Some (r, st') ->
  error (st_lp st) = NO_ERROR ->
  r = NO_ERROR \/ r = ERR_BAD_HANDLE \/ r = ERR_NO_MEMORY.
Proof.
  unfold launchpad_add_handle. intros Hrun E0.
  destruct (h =? MX_HANDLE_INVALID).
  - inv_m. rewrite E0. simpl. auto.
  - apply bind_inv in Hrun as (s & st1 & Hm & Hrun).
    destruct (more_handles_cases _ _ _ _ Hm) as (_ & _ & _ & _ & Hnm).
    destruct (Z.eq_dec s NO_ERROR) as [->|Hne].
    + inv_m; auto.
    + specialize (Hnm E0 Hne). subst s.
      apply Z.eqb_neq in Hne. rewrite Hne in Hrun. inv_m. auto.
Qed.

Lemma launchpad_add_pipe_status fd (st st' : state world) r :
  ERR_NO_MEMORY < 0 -> ERR_BAD_HANDLE < 0 ->
  error (st_lp st) = NO_ERROR ->
  launchpad_add_pipe fd st = Some (r, st') -> fst r = error (st_lp st').
Proof.
  unfold launchpad_add_pipe. intros Hnm Hbh E0 Hrun. inv_m.
  all: simpl; bool_hyps; try congruence.
  all: repeat match goal with
       | H : launchpad_add_handle _ _ ?s = Some _ |- _ =>
           let Hs := fresh "Hs" in let Hf := fresh "Hf" in
           pose proof (launchpad_add_handle_status _ _ _ _ _ H) as (Hs & _);
           pose proof (launchpad_add_handle_failure _ _ _ _ _ H E0) as Hf;
           clear H
       end; simpl in *.
  all: fin.
  all: repeat match goal with
       | H : _ \/ _ |- _ => destruct H
       end; subst; fin.
Qed.

Lemma launchpad_elf_load_basic_status vmo (st st' : state world) s :
  launchpad_elf_load_basic vmo st = Some (s, st') -> s = error (st_lp st').
Proof.
  unfold launchpad_elf_load_basic. intros Hrun.
  destruct (vmo <? 0); [inv_m; fin|].
  destruct (vmo =? MX_HANDLE_INVALID); [inv_m; fin|].
  apply bind_inv in Hrun as (lp & s0 & _ & Hrun).
  apply bind_inv in Hrun as (u & s1 & _ & Hrun).
  inv_m. reflexivity.
Qed.

Lemma launchpad_elf_load_extra_status vmo b e (st st' : state world) r :
  launchpad_elf_load_extra vmo b e st = Some (r, st') ->
  fst (fst r) = error (st_lp st').
Proof.
  unfold launchpad_elf_load_extra, lp_vmar. intros Hrun.
  inv_m; simpl; fin.
Qed.

Lemma launchpad_elf_load_status vmo (st st' : state world) s :
  launchpad_elf_load vmo st = Some (s, st') -> s = error (st_lp st').
Proof.
  unfold launchpad_elf_load. intros Hrun.
  destruct (vmo <? 0); [inv_m; fin|].
  destruct (vmo =? MX_HANDLE_INVALID); [inv_m; fin|].
  apply bind_inv in Hrun as (lp & s0 & _ & Hrun).
  apply bind_inv in Hrun as (u & s1 & _ & Hrun).
  inv_m; reflexivity.
Qed.

Lemma launchpad_add_vdso_vmo_status (st st' : state world) s :
  launchpad_add_vdso_vmo st = Some (s, st') -> s = error (st_lp st').
Proof.
  unfold launchpad_add_vdso_vmo. intros Hrun.
  apply bind_inv in Hrun as (lp & s0 & Hg & Hrun).
  apply get_lp_inv in Hg as (-> & ->).
  destruct (error (st_lp st) =? NO_ERROR) eqn:E; cbn [negb] in Hrun;
    [|inv_m; reflexivity].
  apply bind_inv in Hrun as (vdso & s1 & _ & Hrun).
  destruct (vdso <? 0); [inv_m; fin|].
  apply bind_inv in Hrun as (status & s2 & Ha & Hrun).
  apply launchpad_add_handle_status in Ha as (Hs & _).
  inv_m; simpl; congruence.
Qed.

Lemma elf_load_extra_vdso_status vmo (st st' : state world) s :
  elf_load_extra_vdso vmo st = Some (s, st') -> s = error (st_lp st').
Proof.
  unfold elf_load_extra_vdso. intros Hrun. inv_m.
  match goal with
  | H : launchpad_elf_load_extra _ _ _ _ = Some _ |- _ =>
      apply launchpad_elf_load_extra_status in H
  end. simpl. congruence.
Qed.

Lemma launchpad_load_vdso_status vmo (st st' : state world) s :
  launchpad_load_vdso vmo st = Some (s, st') -> s = error (st_lp st').
Proof.
  unfold launchpad_load_vdso, vdso_lock, vdso_unlock. intros Hrun.
  destruct (vmo =? MX_HANDLE_INVALID); cbn [negb] in Hrun.
  - apply bind_inv in Hrun as (u & s0 & _ & Hrun).
    apply bind_inv in Hrun as (v & s1 & _ & Hrun).
    apply bind_inv in Hrun as (status & s2 & He & Hrun).
    apply elf_load_extra_vdso_status in He. inv_m. simpl. congruence.
  - apply elf_load_extra_vdso_status in Hrun. exact Hrun.
Qed.

Lemma launchpad_elf_load_with_vdso_status vmo (st st' : state world) s :
  launchpad_elf_load_with_vdso vmo st = Some (s, st') -> s = error (st_lp st').
Proof.
  unfold launchpad_elf_load_with_vdso. intros Hrun.
  apply bind_inv in Hrun as (u & s0 & _ & Hrun).
  apply bind_inv in Hrun as (v & s1 & _ & Hrun).
  apply launchpad_add_vdso_vmo_status in Hrun. exact Hrun.
Qed.

Lemma launchpad_start_injected_status name ch b (st st' : state world) s :
  error (st_lp st) = NO_ERROR ->
  launchpad_start_injected name ch b st = Some (s, st') ->
  s = error (st_lp st').
Proof.
  unfold launchpad_start_injected. intros E0 Hrun.
  apply bind_inv in Hrun as (lp & s0 & Hg & Hrun).
  apply get_lp_inv in Hg as (-> & ->).
  rewrite E0 in Hrun. cbn [negb Z.eqb NO_ERROR] in Hrun.
  apply bind_inv in Hrun as ([[status thread] sp] & s1 & Hp & Hrun).
  pose proof (fun E => prepare_start_error _ _ _ _ _ _ _ E Hp) as Hps.
  specialize (Hps E0).
  inv_m; bool_hyps; simpl in *; fin.
  all: destruct Hps; fin.
Qed.

(** [launchpad_start] either fails, and then the status it returns is the
    error it has latched, or returns the duplicate it made of the process
    handle and leaves the context without error. *)
Lemma launchpad_start_value (st st' : state world) s :
  error (st_lp st) = NO_ERROR ->
  launchpad_start st = Some (s, st') ->
  s = error (st_lp st') \/
  (error (st_lp st') = NO_ERROR /\ hands_out OpStart st s).
Proof.
  unfold launchpad_start, lp_proc, hands_out. intros E0 Hrun.
  apply bind_inv in Hrun as (lp & s0 & Hg & Hrun).
  apply get_lp_inv in Hg as (-> & ->).
  rewrite E0 in Hrun. cbn [negb Z.eqb NO_ERROR] in Hrun.
  apply bind_inv in Hrun as (p & s1 & Hl & Hrun).
  apply bind_inv in Hl as (lp & s0 & Hg & Hl).
  apply get_lp_inv in Hg as (-> & ->).
  apply load_Some in Hl as (-> & Hp & _).
  apply bind_inv in Hrun as ([status proc] & s2 & Hd & Hrun).
  apply call_inv in Hd as (w1 & Hd & ->).
  destruct (status <? 0) eqn:Es; [inv_m; left; fin|].
  apply Z.ltb_ge in Es.
  apply bind_inv in Hrun as ([[cs to_child] child] & s3 & Hc & Hrun).
  apply call_inv in Hc as (w2 & _ & ->).
  cbn [st_lp st_vdso_vmo st_world] in *.
  destruct (cs =? NO_ERROR); cbn [negb] in Hrun; [|inv_m; left; fin].
  apply bind_inv in Hrun as ([[ps thread] sp] & s4 & Hprep & Hrun).
  assert (E3 : error (st_lp (mkState (st_lp st) (st_vdso_vmo st) w2))
               = NO_ERROR) by exact E0.
  pose proof (prepare_start_error _ _ _ _ _ _ _ E3 Hprep) as Hps.
  clear Hprep.
  apply bind_inv in Hrun as (u & s5 & Hcl & Hrun).
  apply call__inv in Hcl. subst s5.
  apply bind_inv in Hrun as (r & s6 & Hmid & Hrun).
  destruct (ps =? NO_ERROR) eqn:Eps; cbn [negb] in Hmid.
  - apply Z.eqb_eq in Eps. subst ps.
    assert (E4 : error (st_lp s4) = NO_ERROR) by (destruct Hps; congruence).
    destruct thread as [thread|]; [|discriminate Hmid].
    destruct sp as [sp|]; [|discriminate Hmid].
    apply bind_inv in Hmid as (lp & s7 & Hg & Hmid).
    apply get_lp_inv in Hg as (-> & ->).
    apply bind_inv in Hmid as (s' & s8 & Hcall & Hmid).
    apply call_inv in Hcall as (w5 & _ & ->).
    cbn [st_lp st_vdso_vmo st_world] in *.
    destruct (s' =? NO_ERROR) eqn:Es'; cbn [negb] in Hmid.
    + apply Z.eqb_eq in Es'. subst s'.
      inv_m. cbn [st_lp st_vdso_vmo st_world] in *.
      right. split; [exact E4|]. exists p, status, w1. auto.
    + left. apply bind_inv in Hmid as (u' & s9 & Hle & Hmid).
      apply bind_inv in Hle as (e & s10 & Hle & Hret).
      rewrite lp_error_eq in Hle. cbn [st_lp] in Hle.
      rewrite E4 in Hle. cbn [Z.eqb NO_ERROR] in Hle.
      inv_m. reflexivity.
  - left. apply bind_inv in Hmid as (e & s7 & Hle & Hret).
    rewrite lp_error_eq in Hle. cbn [st_lp] in Hle.
    apply ret_inv in Hret as (<- & <-).
    injection Hle as <- <-.
    rewrite Eps in Hrun.
    apply bind_inv in Hrun as (u' & s8 & Hcl & Hrun).
    apply call__inv in Hcl. subst s8.
    apply ret_inv in Hrun as (-> & ->). cbn [st_lp].
    destruct (error (st_lp s4) =? NO_ERROR) eqn:E4.
    + reflexivity.
    + apply Z.eqb_neq in E4. destruct Hps; congruence.
Qed.

(** C2.  The error of a context is sticky.  From a context that is not in
    error, the status an operation returns is the error the context holds
    afterwards, so that a failing operation has latched its status; the
    only other outcome is the success of [launchpad_start] or
    [launchpad_use_loader_service], which leaves the context without error
    and returns the handle [hands_out] names (the duplicate of the process
    handle, the service handle held before).  From a context in error,
    every operation leaves the context as it is (buffers, handle table,
    stack size, special handles, loader-message flag) and, when it returns
    a status, returns the latched error; what it still does is close the
    handles it was given. *)
Theorem sticky_first_error :
  (forall op (st st' : state world) s,
      ERR_NO_MEMORY < 0 -> ERR_BAD_HANDLE < 0 ->
      error (st_lp st) = NO_ERROR ->
      perform op st = Some (Some s, st') ->
      s = error (st_lp st') \/
      (error (st_lp st') = NO_ERROR /\ hands_out op st s))
  /\
  (forall op (st : state world),
      error (st_lp st) <> NO_ERROR ->
      well_formed op ->
      perform op st =
      Some (if returns_status op then Some (error (st_lp st)) else None,
            mkState (st_lp st)
              (fst (rest_in_error op (st_vdso_vmo st, st_world st)))
              (snd (rest_in_error op (st_vdso_vmo st, st_world st))))).
Proof.
  split; [|exact perform_in_error].
  intros op st st' s Hnm Hbh E0 Hrun.
  destruct op; cbn [perform hands_out] in *;
    apply bind_inv in Hrun as (r & st1 & Hop & Hret);
    apply ret_inv in Hret as (Hs & ->); try discriminate Hs;
    injection Hs as Hs; subst s.
  - left. eapply launchpad_set_args_status; eauto.
  - left. eapply launchpad_set_environ_status; eauto.
  - left. apply launchpad_add_handle_status in Hop as (Hs & _). exact Hs.
  - left. eapply launchpad_add_handles_status; eauto.
  - left. eapply launchpad_add_pipe_status; eauto.
  - left. eapply launchpad_elf_load_basic_status; eauto.
  - left. eapply launchpad_elf_load_extra_status; eauto.
  - left. eapply launchpad_elf_load_status; eauto.
  - left. eapply launchpad_add_vdso_vmo_status; eauto.
  - left. eapply launchpad_load_vdso_status; eauto.
  - right.
    revert Hop. unfold launchpad_use_loader_service. intros Hop.
    apply bind_inv in Hop as (lp & s0 & Hg & Hop).
    apply get_lp_inv in Hg as (-> & ->).
    rewrite E0 in Hop. cbn [negb Z.eqb NO_ERROR] in Hop.
    inv_m. cbn [st_lp]. split; [|reflexivity].
    destruct (st_lp st); exact E0.
  - left. revert Hop. unfold launchpad_load_from_file. intros Hop.
    apply bind_inv in Hop as (vmo & s0 & _ & Hop).
    eapply launchpad_elf_load_with_vdso_status; eauto.
  - left. revert Hop. unfold launchpad_load_from_fd. intros Hop.
    apply bind_inv in Hop as (vmo & s0 & _ & Hop).
    eapply launchpad_elf_load_with_vdso_status; eauto.
  - left. eapply launchpad_elf_load_with_vdso_status; eauto.
  - exact (launchpad_start_value _ _ _ E0 Hop).
  - left. eapply launchpad_start_injected_status; eauto.
Qed.

Lemma launchpad_add_handle_in_error h id (st : state world) :
  error (st_lp st) <> NO_ERROR ->
  launchpad_add_handle h id st =
  Some (error (st_lp st),
        mkState (st_lp st) (st_vdso_vmo st)
                (close_world (given_handle h) (st_world st))).
Proof.
  intros E.
  pose proof (perform_in_error (OpAddHandle h id) st E I) as Hp.
  cbn [perform returns_status rest_in_error handles_given fst snd] in Hp.
  unfold bind in Hp.
  destruct (launchpad_add_handle h id st) as [[s st1]|]; [|discriminate].
  unfold ret in Hp. injection Hp as -> ->. reflexivity.
Qed.

Lemma launchpad_create_with_process_no_memory proc vmar (st : state world) w1 :
  ERR_NO_MEMORY <> NO_ERROR ->
  calloc (st_world st) = (false, w1) ->
  launchpad_create_with_process proc vmar st =
  Some ((ERR_NO_MEMORY, LpInvalidStatic),
        mkState invalid_launchpad (st_vdso_vmo st)
          (close_world (given_handle proc ++ given_handle vmar) w1)).
Proof.
  intros Hne Hc. unfold launchpad_create_with_process.
  unfold bind at 1. unfold call at 1. rewrite Hc.
  unfold bind at 1. unfold put_lp, modify_lp. cbn [st_lp st_vdso_vmo st_world].
  unfold bind at 1.
  rewrite launchpad_add_handle_in_error by exact Hne.
  cbn [st_lp st_vdso_vmo st_world]. unfold bind at 1.
  rewrite launchpad_add_handle_in_error by exact Hne.
  cbn [st_lp st_vdso_vmo st_world]. unfold bind, get_lp, ret.
  cbn [st_lp]. unfold close_world. rewrite fold_left_app. reflexivity.
Qed.

Lemma launchpad_create_with_jobs_no_memory creation_job transfered_job name
    (st : state world) status proc vmar w0 w1 :
  ERR_NO_MEMORY <> NO_ERROR ->
  mx_process_create creation_job name (st_world st)
    = ((status, proc, vmar), w0) ->
  calloc w0 = (false, w1) ->
  launchpad_create_with_jobs creation_job transfered_job name st =
  Some ((ERR_NO_MEMORY, LpInvalidStatic),
        mkState invalid_launchpad (st_vdso_vmo st)
          (close_world (given_handle proc ++ given_handle vmar
                        ++ given_handle transfered_job) w1)).
Proof.
  intros Hne Hp Hc. unfold launchpad_create_with_jobs.
  unfold bind at 1. unfold call at 1. rewrite Hp.
  unfold bind at 1.
  rewrite (launchpad_create_with_process_no_memory proc vmar
             (mkState (st_lp st) (st_vdso_vmo st) w0) w1 Hne Hc).
  cbn [st_lp st_vdso_vmo st_world snd].
  unfold bind at 1.
  assert (Hskip : forall (s0 : state world),
            st_lp s0 = invalid_launchpad ->
            (if status <? 0
             then lp_error status "create: mx_process_create() failed" ;;
                  ret tt
             else ret tt) s0 = Some (tt, s0)).
  { intros s0 Hs0. destruct (status <? 0); [|reflexivity].
    unfold bind. rewrite lp_error_eq, Hs0.
    replace (error invalid_launchpad =? NO_ERROR) with false
      by (symmetry; apply Z.eqb_neq; exact Hne).
    unfold ret. rewrite <- Hs0, state_eta. reflexivity. }
  rewrite Hskip by reflexivity.
  unfold bind at 1.
  destruct (transfered_job =? MX_HANDLE_INVALID) eqn:Et; cbn [negb].
  - replace (given_handle transfered_job) with (@nil Z)
      by (unfold given_handle; rewrite Et; reflexivity).
    unfold ret at 1. unfold bind, get_lp, ret. cbn [st_lp].
    rewrite !app_nil_r. reflexivity.
  - replace (given_handle transfered_job) with [transfered_job]
      by (unfold given_handle; rewrite Et; reflexivity).
    unfold bind at 1.
    rewrite launchpad_add_handle_in_error by exact Hne.
    unfold ret at 1. unfold bind, get_lp, ret.
    cbn [st_lp st_vdso_vmo st_world].
    replace (given_handle transfered_job) with [transfered_job]
      by (unfold given_handle; rewrite Et; reflexivity).
    unfold close_world. rewrite !fold_left_app. reflexivity.
Qed.

Lemma launchpad_create_no_memory job name (st : state world) :
  ERR_NO_MEMORY <> NO_ERROR ->
  (forall w, fst (calloc w) = false) ->
  exists w',
    launchpad_create job name st =
    Some ((ERR_NO_MEMORY, LpInvalidStatic),
          mkState invalid_launchpad (st_vdso_vmo st) w').
Proof.
  intros Hne Hfail. unfold launchpad_create.
  assert (Hgo : forall job' (s0 : state world),
            st_vdso_vmo s0 = st_vdso_vmo st ->
            exists w',
              (d <- call (mx_handle_duplicate job') ;;
               launchpad_create_with_jobs job' (snd d) name) s0
              = Some ((ERR_NO_MEMORY, LpInvalidStatic),
                      mkState invalid_launchpad (st_vdso_vmo st) w')).
  { intros job' s0 Hv. unfold bind, call.
    destruct (mx_handle_duplicate job' (st_world s0)) as [d wd].
    destruct (mx_process_create job' name wd) as [[[status proc] vmar] w0]
      eqn:Hp.
    destruct (calloc w0) as [ok w1] eqn:Hc.
    pose proof (Hfail w0) as Hf. rewrite Hc in Hf. simpl in Hf. subst ok.
    eexists.
    rewrite (launchpad_create_with_jobs_no_memory job' (snd d) name
               (mkState (st_lp s0) (st_vdso_vmo s0) wd)
               status proc vmar w0 w1 Hne Hp Hc).
    cbn [st_vdso_vmo]. rewrite Hv. reflexivity. }
  unfold bind at 1.
  destruct (job =? MX_HANDLE_INVALID).
  - unfold call at 1. destruct (mx_job_default (st_world st)) as [j wj].
    apply Hgo. reflexivity.
  - unfold ret at 1. apply Hgo. reflexivity.
Qed.

(** The two handle getters do not test the error.  On the static context,
    whose handle array is [NULL], [lp_proc] and [lp_vmar] read through the
    null pointer: the calls are undefined. *)
Lemma launchpad_get_handle_invalid_undefined v (w : world) :
  launchpad_get_process_handle (mkState invalid_launchpad v w) = None /\
  launchpad_get_root_vmar_handle (mkState invalid_launchpad v w) = None.
Proof. split; reflexivity. Qed.

(** C10.  When [calloc] fails the creation functions return the address of
    the static [invalid_launchpad], whose error is [ERR_NO_MEMORY], after
    closing the handles they were to install.  Every setup operation on
    that context (the operations of [operation]) leaves it as it is, closes
    the handles it is given and, when it returns a status, returns
    [ERR_NO_MEMORY]; so does [launchpad_go].  Of the calls that only read
    the context, [launchpad_get_status] returns [ERR_NO_MEMORY] and
    [launchpad_error_message] the message of the static context, while
    [launchpad_get_entry_address] and [launchpad_get_base_address] report
    [ERR_BAD_STATE], since no image is loaded.  Destroying the context does
    nothing. *)
Theorem invalid_launchpad_is_inert :
  ERR_NO_MEMORY < 0 ->
  (forall proc vmar (st : state world) w1,
      calloc (st_world st) = (false, w1) ->
      launchpad_create_with_process proc vmar st =
      Some ((ERR_NO_MEMORY, LpInvalidStatic),
            mkState invalid_launchpad (st_vdso_vmo st)
              (close_world (given_handle proc ++ given_handle vmar) w1)))
  /\
  (forall creation_job transfered_job name (st : state world)
          status proc vmar w0 w1,
      mx_process_create creation_job name (st_world st)
        = ((status, proc, vmar), w0) ->
      calloc w0 = (false, w1) ->
      launchpad_create_with_jobs creation_job transfered_job name st =
      Some ((ERR_NO_MEMORY, LpInvalidStatic),
            mkState invalid_launchpad (st_vdso_vmo st)
              (close_world (given_handle proc ++ given_handle vmar
                            ++ given_handle transfered_job) w1)))
  /\
  (forall job name (st : state world),
      (forall w, fst (calloc w) = false) ->
      exists w',
        launchpad_create job name st =
        Some ((ERR_NO_MEMORY, LpInvalidStatic),
              mkState invalid_launchpad (st_vdso_vmo st) w'))
  /\
  (forall op v (w : world),
      well_formed op ->
      perform op (mkState invalid_launchpad v w) =
      Some (if returns_status op then Some ERR_NO_MEMORY else None,
            mkState invalid_launchpad
              (fst (rest_in_error op (v, w)))
              (snd (rest_in_error op (v, w)))))
  /\
  (forall want_proc want_errmsg v (w : world),
      launchpad_go LpInvalidStatic want_proc want_errmsg
        (mkState invalid_launchpad v w) =
      Some ((ERR_NO_MEMORY, None,
             if want_errmsg : bool
             then Some (errmsg invalid_launchpad) else None),
            mkState invalid_launchpad v w))
  /\
  (forall v (w : world),
      launchpad_get_status (mkState invalid_launchpad v w)
        = Some (ERR_NO_MEMORY, mkState invalid_launchpad v w) /\
      launchpad_error_message (mkState invalid_launchpad v w)
        = Some ("create: could not allocate launchpad_t"%string,
                mkState invalid_launchpad v w) /\
      launchpad_get_entry_address (mkState invalid_launchpad v w)
        = Some ((ERR_BAD_STATE, None), mkState invalid_launchpad v w) /\
      launchpad_get_base_address (mkState invalid_launchpad v w)
        = Some ((ERR_BAD_STATE, None), mkState invalid_launchpad v w))
  /\
  (forall st : state world,
      launchpad_destroy LpInvalidStatic st = Some (tt, st)).
Proof.
  intros Hneg.
  assert (Hne : ERR_NO_MEMORY <> NO_ERROR) by (unfold NO_ERROR; lia).
  split; [|split; [|split; [|split; [|split; [|split]]]]].
  - intros. apply launchpad_create_with_process_no_memory; assumption.
  - intros. eapply launchpad_create_with_jobs_no_memory; eassumption.
  - intros. apply launchpad_create_no_memory; assumption.
  - intros op v w Hwf.
    exact (perform_in_error op (mkState invalid_launchpad v w) Hne Hwf).
  - intros want_proc want_errmsg v w.
    pose proof (perform_in_error OpStart (mkState invalid_launchpad v w) Hne I)
      as Hstart.
    cbn [perform returns_status rest_in_error handles_given fst snd
         close_world fold_left st_lp st_vdso_vmo st_world] in Hstart.
    unfold bind in Hstart.
    destruct (launchpad_start (mkState invalid_launchpad v w))
      as [[h st1]|] eqn:Hs; [|discriminate].
    unfold ret in Hstart. injection Hstart as -> ->.
    unfold launchpad_go. unfold bind at 1. rewrite Hs.
    unfold bind at 1. unfold get_lp at 1. cbn [st_lp].
    replace (0 <? ERR_NO_MEMORY) with false
      by (symmetry; apply Z.ltb_ge; lia).
    reflexivity.
  - intros v w. repeat split.
  - intros st. reflexivity.
Qed.

End Sticky.


Section StickyRuns.

#[local] Existing Instance magenta_x86_64.

Lemma failed_eq :
  failed =
  mkState
    (mkLaunchpad 0 0 None 0 None 0
       [10; 11; 5; 0; 57005; 57005; 57005; 57005]
       [1; 4; 1; 2; 57005; 57005; 57005; 57005]
       4 8 "added invalid handle" ERR_BAD_HANDLE 0 0 0 262144 (0, 0) false)
    0 (mkTrace [] 3).
Proof. reflexivity. Qed.

Lemma sticky_first_error_witness :
  (exists st',
     perform (K := plain_kernel) OpStart created
       = Some (Some ERR_BAD_STATE, st') /\
     (ERR_BAD_STATE = error (st_lp st') \/
      (error (st_lp st') = NO_ERROR /\
       hands_out (K := plain_kernel) OpStart created ERR_BAD_STATE)))
  /\
  perform (K := plain_kernel) (OpElfLoad 80) failed =
  Some (Some ERR_BAD_HANDLE,
        mkState (st_lp failed) 0 (mkTrace [EvHandleClose 80] 3)).
Proof.
  split.
  - destruct (perform (K := plain_kernel) OpStart created)
      as [[[s|] st']|] eqn:Hrun;
      [|vm_compute in Hrun; discriminate Hrun
       |vm_compute in Hrun; discriminate Hrun].
    assert (Hs : s = ERR_BAD_STATE)
      by (vm_compute in Hrun; injection Hrun as <- _; reflexivity).
    subst s. exists st'. split; [reflexivity|].
    apply (proj1 (sticky_first_error (K := plain_kernel))
             OpStart created st' ERR_BAD_STATE).
    + reflexivity.
    + reflexivity.
    + reflexivity.
    + exact Hrun.
  - apply (proj2 (sticky_first_error (K := plain_kernel)) (OpElfLoad 80) failed).
    + vm_compute. discriminate.
    + exact I.
Defined.

(** Every kind of operation on the context in error: the status, when
    there is one, is the error latched first, and the context is the
    same. *)
Lemma sticky_error_examples :
  let after op :=
    option_map (fun r => (fst r, st_lp (snd r)))
               (perform (K := plain_kernel) op failed) in
  after (OpSetArgs 1 [stable "x"]) = Some (Some ERR_BAD_HANDLE, st_lp failed) /\
  after (OpSetEnviron None) = Some (Some ERR_BAD_HANDLE, st_lp failed) /\
  after (OpAddHandle 7 1) = Some (Some ERR_BAD_HANDLE, st_lp failed) /\
  after (OpAddHandles 2 [7; 8] [1; 1])
    = Some (Some ERR_BAD_HANDLE, st_lp failed) /\
  after (OpUseLoaderService 9) = Some (Some ERR_BAD_HANDLE, st_lp failed) /\
  after OpStart = Some (Some ERR_BAD_HANDLE, st_lp failed) /\
  after (OpSetStackSize 8192) = Some (None, st_lp failed) /\
  after (OpSendLoaderMessage true) = Some (None, st_lp failed) /\
  after (OpAbort (-1) "stop") = Some (None, st_lp failed).
Proof. repeat split. Qed.

(** C10 as stated fails: after a creation that found no memory, the
    context returned is the static one, whose error is [ERR_NO_MEMORY], and
    [launchpad_get_entry_address] on it returns [ERR_BAD_STATE], not that
    error. *)
Lemma invalid_launchpad_entry_address_bad_state :
  exists st1,
    launchpad_create_with_process (K := exhausted) 10 11
      (start_state zeroed_launchpad)
      = Some ((ERR_NO_MEMORY, LpInvalidStatic), st1) /\
    st_lp st1 = invalid_launchpad /\
    error (st_lp st1) = ERR_NO_MEMORY /\
    launchpad_get_entry_address st1 = Some ((ERR_BAD_STATE, None), st1) /\
    ERR_BAD_STATE <> ERR_NO_MEMORY.
Proof.
  eexists. split; [vm_compute; reflexivity|].
  split; [reflexivity|]. split; [reflexivity|]. split; [reflexivity|].
  vm_compute. discriminate.
Qed.

Lemma invalid_launchpad_is_inert_witness :
  launchpad_create_with_process (K := exhausted) 10 11
    (start_state zeroed_launchpad)
  = Some ((ERR_NO_MEMORY, LpInvalidStatic),
          mkState invalid_launchpad 0
                  (mkTrace [EvHandleClose 11; EvHandleClose 10] 1)) /\
  perform (K := exhausted) (OpAddHandles 2 [5; 6] [1; 2])
    (mkState invalid_launchpad 0 fresh_trace)
  = Some (Some ERR_NO_MEMORY,
          mkState invalid_launchpad 0
                  (mkTrace [EvHandleClose 6; EvHandleClose 5] 0)) /\
  launchpad_get_entry_address (mkState invalid_launchpad 0 fresh_trace)
  = Some ((ERR_BAD_STATE, None), mkState invalid_launchpad 0 fresh_trace) /\
  launchpad_destroy (K := exhausted) LpInvalidStatic
    (mkState invalid_launchpad 0 fresh_trace)
  = Some (tt, mkState invalid_launchpad 0 fresh_trace).
Proof.
  assert (Hneg : ERR_NO_MEMORY < 0) by reflexivity.
  destruct (invalid_launchpad_is_inert (K := exhausted) Hneg)
    as (Hcreate & _ & _ & Hop & _ & Hget & Hdestroy).
  split; [|split; [|split]].
  - apply (Hcreate 10 11 (start_state zeroed_launchpad) (mkTrace [] 1)).
    reflexivity.
  - apply (Hop (OpAddHandles 2 [5; 6] [1; 2]) 0 fresh_trace).
    vm_compute. split; [split|]; discriminate.
  - destruct (Hget 0 fresh_trace) as (_ & _ & He & _). exact He.
  - apply Hdestroy.
Defined.

End StickyRuns.

(** * Further properties of the code *)

(** ** The handle table: what it holds *)

Section TableContents.
Context {Mg : Magenta} {world elf_load_info_t : Type}
        {K : Kernel world elf_load_info_t}.

Lemma more_handles_total n (st : state world) :
  exists r st', more_handles n st = Some (r, st').
Proof.
  unfold more_handles, bind, get_lp, modify_lp, call, ret.
  destruct (error (st_lp st) =? NO_ERROR); simpl; [|eauto].
  destruct (_ <? n); [|eauto].
  destruct (realloc _ _) as [[f|] w1]; simpl; [|rewrite lp_error_eq; eauto].
  destruct (realloc _ w1) as [[f'|] w2]; simpl; [eauto|].
  rewrite lp_error_eq; eauto.
Qed.

Lemma more_handles_room n (st : state world) :
  error (st_lp st) = NO_ERROR ->
  table_ok (st_lp st) ->
  n <= handle_alloc (st_lp st) - handle_count (st_lp st) ->
  more_handles n st = Some (NO_ERROR, st).
Proof.
  intros E (Hc & _ & _ & Hb) Hroom.
  unfold more_handles, bind, get_lp, ret. rewrite E. simpl.
  rewrite wrap64_small by lia.
  replace (_ <? n) with false by (symmetry; apply Z.ltb_ge; lia).
  reflexivity.
Qed.

Lemma store_ok l i x (st : state world) :
  0 <= i < len l -> store l i x st = Some (<[Z.to_nat i := x]> l, st).
Proof.
  intros Hi. unfold store.
  replace (0 <=? i) with true by (symmetry; apply Z.leb_le; lia).
  replace (i <? len l) with true by (symmetry; apply Z.ltb_lt; lia).
  reflexivity.
Qed.

(** One more handle, from a context that is not in error: everything the
    call does. *)
Lemma launchpad_add_handle_run h id (st : state world) :
  ERR_NO_MEMORY <> NO_ERROR ->
  error (st_lp st) = NO_ERROR ->
  table_ok (st_lp st) ->
  h <> MX_HANDLE_INVALID ->
  exists r st1 st',
    more_handles 1 st = Some (r, st1) /\
    launchpad_add_handle h id st = Some (r, st') /\
    handle_count (st_lp st1) = handle_count (st_lp st) /\
    (handle_alloc (st_lp st1) = handle_alloc (st_lp st) \/
     handle_alloc (st_lp st1) = grown (handle_alloc (st_lp st))) /\
    (forall i : nat, Z.of_nat i < handle_count (st_lp st) ->
       handles (st_lp st1) !! i = handles (st_lp st) !! i /\
       handles_info (st_lp st1) !! i = handles_info (st_lp st) !! i) /\
    (r = NO_ERROR ->
       handle_count (st_lp st) < handle_alloc (st_lp st1) /\
       handle_alloc (st_lp st1) <= len (handles (st_lp st1)) /\
       handle_alloc (st_lp st1) <= len (handles_info (st_lp st1)) /\
       error (st_lp st1) = NO_ERROR /\
       st' = mkState
               (with_handle_count (handle_count (st_lp st) + 1)
                  (with_handles_info
                     (<[Z.to_nat (handle_count (st_lp st)) := id]>
                        (handles_info (st_lp st1)))
                     (with_handles
                        (<[Z.to_nat (handle_count (st_lp st)) := h]>
                           (handles (st_lp st1)))
                        (st_lp st1))))
               (st_vdso_vmo st1) (st_world st1)) /\
    (r <> NO_ERROR ->
       r = ERR_NO_MEMORY /\ error (st_lp st1) = ERR_NO_MEMORY /\
       handle_alloc (st_lp st1) = handle_alloc (st_lp st) /\
       st' = mkState (st_lp st1) (st_vdso_vmo st1)
                     (mx_handle_close h (st_world st1))).
Proof.
  intros Hnm E Hok Hh.
  destruct (more_handles_total 1 st) as (r & st1 & Hm).
  destruct (more_handles_cases _ _ _ _ Hm) as (Hs & Hc & _ & _ & Hfail).
  assert (He1 : error (st_lp st1) = r) by congruence. clear Hs.
  assert (Hkeep : (handle_alloc (st_lp st1) = handle_alloc (st_lp st) \/
                   handle_alloc (st_lp st1) = grown (handle_alloc (st_lp st))) /\
                  (forall i : nat, Z.of_nat i < handle_count (st_lp st) ->
                     handles (st_lp st1) !! i = handles (st_lp st) !! i /\
                     handles_info (st_lp st1) !! i
                       = handles_info (st_lp st) !! i) /\
                  (r <> NO_ERROR ->
                     handle_alloc (st_lp st1) = handle_alloc (st_lp st))).
  { destruct (Z_lt_dec (handle_alloc (st_lp st) - handle_count (st_lp st)) 1)
      as [Hroom|Hroom].
    - destruct (more_handles_grow _ _ _ _ E Hok Hroom Hm)
        as ([(Hr & Ha & _)|(Hr & He & Ha)] & _ & Hsame).
      + split; [right; exact Ha|]. split; [exact Hsame|]. congruence.
      + split; [left; exact Ha|]. split; [exact Hsame|]. intros _. exact Ha.
    - rewrite (more_handles_room 1 st E Hok) in Hm by lia.
      injection Hm as <- <-. split; [left; reflexivity|].
      split; [intros; split; reflexivity|]. reflexivity. }
  destruct Hkeep as (Halloc & Hsame & Hfa).
  assert (Hrun : launchpad_add_handle h id st =
                 (if r =? NO_ERROR then
                    lp <- get_lp ;;
                    hs <- store (handles lp) (handle_count lp) h ;;
                    ids <- store (handles_info lp) (handle_count lp) id ;;
                    put_lp (with_handle_count (wrap64 (handle_count lp + 1))
                              (with_handles_info ids (with_handles hs lp))) ;;
                    ret r
                  else call_ (mx_handle_close h) ;; ret r) st1).
  { unfold launchpad_add_handle.
    replace (h =? MX_HANDLE_INVALID) with false
      by (symmetry; apply Z.eqb_neq; exact Hh).
    unfold bind at 1. rewrite Hm. reflexivity. }
  destruct (r =? NO_ERROR) eqn:Er.
  - apply Z.eqb_eq in Er. rewrite Er in Hm, Hrun, He1.
    destruct (more_handles_one_fits _ _ Hnm Hok Hm) as (Hfit & Hlh & Hli).
    destruct Hok as (Hc0 & _ & _ & Hb).
    exists r, st1. eexists. rewrite Er. split; [exact Hm|].
    split.
    { rewrite Hrun. unfold bind at 1. unfold get_lp at 1.
      unfold bind at 1. rewrite store_ok by lia.
      unfold bind at 1. rewrite store_ok by lia.
      unfold bind, put_lp, modify_lp, ret. cbn [st_lp st_vdso_vmo st_world].
      rewrite Hc. rewrite wrap64_small.
      - reflexivity.
      - destruct Halloc as [Ha|Ha]; rewrite Hc, Ha in Hfit.
        + lia.
        + unfold grown in Hfit. pose proof (wrap64_range (handle_alloc (st_lp st) * 2)).
          destruct (handle_alloc (st_lp st) =? 0); lia. }
    split; [exact Hc|]. split; [exact Halloc|]. split; [exact Hsame|].
    split; [|intros Hne; contradiction].
    intros _. rewrite <- Hc. repeat split; auto; lia.
  - apply Z.eqb_neq in Er.
    exists r, st1. eexists. split; [exact Hm|].
    split; [rewrite Hrun; unfold bind, call_, ret; reflexivity|].
    split; [exact Hc|]. split; [exact Halloc|]. split; [exact Hsame|].
    split; [intros; contradiction|]. intros _.
    assert (r = ERR_NO_MEMORY) by (apply Hfail; assumption).
    repeat split; auto; congruence.
Qed.

(** X1.  [launchpad_add_handle] with a valid handle on a context that is not in
    error never touches memory outside the table: it either stores the
    handle and its tag in the first free slot, leaving every slot in use as
    it was, or (when the table cannot grow) closes the handle and reports
    [ERR_NO_MEMORY] with the slots in use and their count untouched. *)
Theorem launchpad_add_handle_appends h id (st : state world) :
  ERR_NO_MEMORY <> NO_ERROR ->
  error (st_lp st) = NO_ERROR ->
  table_ok (st_lp st) ->
  h <> MX_HANDLE_INVALID ->
  exists r st1 st',
    more_handles 1 st = Some (r, st1) /\
    launchpad_add_handle h id st = Some (r, st') /\
    (forall i : nat, Z.of_nat i < handle_count (st_lp st) ->
       handles (st_lp st') !! i = handles (st_lp st) !! i /\
       handles_info (st_lp st') !! i = handles_info (st_lp st) !! i) /\
    (r = NO_ERROR ->
       error (st_lp st') = NO_ERROR /\
       handle_count (st_lp st') = handle_count (st_lp st) + 1 /\
       handle_count (st_lp st') <= handle_alloc (st_lp st') /\
       handle_alloc (st_lp st') <= len (handles (st_lp st')) /\
       handle_alloc (st_lp st') <= len (handles_info (st_lp st')) /\
       handles (st_lp st') !! Z.to_nat (handle_count (st_lp st)) = Some h /\
       handles_info (st_lp st') !! Z.to_nat (handle_count (st_lp st))
         = Some id /\
       st_world st' = st_world st1) /\
    (r <> NO_ERROR ->
       r = ERR_NO_MEMORY /\
       error (st_lp st') = ERR_NO_MEMORY /\
       handle_count (st_lp st') = handle_count (st_lp st) /\
       st_world st' = mx_handle_close h (st_world st1)).
Proof.
  intros Hnm E Hok Hh.
  destruct (launchpad_add_handle_run h id st Hnm E Hok Hh)
    as (r & st1 & st' & Hm & Hrun & Hc & Halloc & Hsame & Hgood & Hbad).
  destruct Hok as (Hc0 & _).
  exists r, st1, st'. split; [exact Hm|]. split; [exact Hrun|].
  destruct (Z.eq_dec r NO_ERROR) as [Er|Er].
  - destruct (Hgood Er) as (Hfit & Hlh & Hli & He & ->).
    cbn [st_lp st_world with_handle_count with_handles_info with_handles
         handles handles_info handle_count handle_alloc error].
    split.
    { intros i Hi. destruct (Hsame i Hi) as (H1 & H2).
      rewrite !list_lookup_insert_ne by lia. split; assumption. }
    split; [|intros; contradiction].
    intros _. unfold len in *. rewrite !length_insert.
    repeat split; auto; try lia.
    + apply list_lookup_insert_eq. lia.
    + apply list_lookup_insert_eq. lia.
  - destruct (Hbad Er) as (Hr & He & _ & ->).
    cbn [st_lp st_world]. split; [exact Hsame|].
    split; [intros; contradiction|]. intros _. repeat split; auto.
Qed.

Lemma load_n_ok l n (st : state world) :
  0 <= n <= len l -> n * 4 <= SIZE_MAX ->
  load_n l n st = Some (take (Z.to_nat n) l, st).
Proof.
  intros Hn Hsz. unfold load_n.
  replace (0 <=? n) with true by (symmetry; apply Z.leb_le; lia).
  replace (n <=? len l) with true by (symmetry; apply Z.leb_le; lia).
  replace (n * 4 <=? SIZE_MAX) with true by (symmetry; apply Z.leb_le; lia).
  reflexivity.
Qed.

Lemma memcpy_ok dst off src (st : state world) :
  0 <= off -> off + len src <= len dst ->
  memcpy dst off src st = Some (list_inserts (Z.to_nat off) src dst, st).
Proof.
  intros Hoff Hfit. unfold memcpy.
  replace (0 <=? off) with true by (symmetry; apply Z.leb_le; lia).
  replace (off + len src <=? len dst) with true
    by (symmetry; apply Z.leb_le; lia).
  reflexivity.
Qed.

Lemma len_take {A} (l : list A) n :
  0 <= n <= len l -> len (take (Z.to_nat n) l) = n.
Proof. unfold len. intros Hn. rewrite length_take. lia. Qed.

Lemma grown_bounds alloc :
  0 <= alloc < 2 ^ 61 -> alloc <= grown alloc /\ 0 < grown alloc < 2 ^ 62.
Proof.
  intros Ha. unfold grown. destruct (alloc =? 0) eqn:E.
  - apply Z.eqb_eq in E. lia.
  - apply Z.eqb_neq in E. rewrite wrap64_small by lia. lia.
Qed.

(** X2.  A batch that fits into the table after at most one doubling is handled
    inside the table: the call is defined, and when it answers [NO_ERROR]
    no handle of the batch is invalid, the handles and their tags lie in
    the table in the order given, right after the slots that were in use,
    and those slots are as they were. *)
Theorem launchpad_add_handles_stores n h id (st : state world) :
  ERR_BAD_HANDLE <> NO_ERROR ->
  ERR_NO_MEMORY <> NO_ERROR ->
  error (st_lp st) = NO_ERROR ->
  table_ok (st_lp st) ->
  0 <= n <= len h -> n <= len id ->
  handle_count (st_lp st) + n <= grown (handle_alloc (st_lp st)) ->
  exists r st',
    launchpad_add_handles n h id st = Some (r, st') /\
    (r = NO_ERROR ->
       (MX_HANDLE_INVALID ∉ take (Z.to_nat n) h) /\
       error (st_lp st') = NO_ERROR /\
       handle_count (st_lp st') = handle_count (st_lp st) + n /\
       handle_count (st_lp st') <= handle_alloc (st_lp st') /\
       handle_alloc (st_lp st') <= len (handles (st_lp st')) /\
       handle_alloc (st_lp st') <= len (handles_info (st_lp st')) /\
       take (Z.to_nat n)
            (drop (Z.to_nat (handle_count (st_lp st))) (handles (st_lp st')))
         = take (Z.to_nat n) h /\
       take (Z.to_nat n)
            (drop (Z.to_nat (handle_count (st_lp st)))
                  (handles_info (st_lp st')))
         = take (Z.to_nat n) id /\
       (forall i : nat, Z.of_nat i < handle_count (st_lp st) ->
          handles (st_lp st') !! i = handles (st_lp st) !! i /\
          handles_info (st_lp st') !! i = handles_info (st_lp st) !! i)).
Proof.
  intros Hbh Hnm E Hok Hn Hid Hfit.
  destruct (more_handles_total n st) as (s & st1 & Hm).
  destruct (more_handles_cases _ _ _ _ Hm) as (Hs & Hc & _ & _ & _).
  assert (He1 : error (st_lp st1) = s) by congruence. clear Hs.
  pose proof Hok as (Hc0 & Hlh & Hli & Hb).
  destruct (grown_bounds (handle_alloc (st_lp st))) as (Hg1 & Hg2); [lia|].
  assert (Hst1 : s = NO_ERROR ->
            handle_count (st_lp st) + n <= handle_alloc (st_lp st1) /\
            handle_alloc (st_lp st1) <= len (handles (st_lp st1)) /\
            handle_alloc (st_lp st1) <= len (handles_info (st_lp st1)) /\
            (forall i : nat, Z.of_nat i < handle_count (st_lp st) ->
               handles (st_lp st1) !! i = handles (st_lp st) !! i /\
               handles_info (st_lp st1) !! i = handles_info (st_lp st) !! i)).
  { intros Es.
    destruct (Z_lt_dec (handle_alloc (st_lp st) - handle_count (st_lp st)) n)
      as [Hroom|Hroom].
    - destruct (more_handles_grow _ _ _ _ E Hok Hroom Hm)
        as ([(_ & Ha & Hh & Hi)|(Hr & Hen & _)] & _ & Hsame).
      + rewrite Ha, Hh, Hi.
        split; [lia|]. split; [lia|]. split; [lia|]. exact Hsame.
      + congruence.
    - rewrite (more_handles_room n st E Hok) in Hm by lia.
      injection Hm as _ <-.
      split; [lia|]. split; [lia|]. split; [lia|]. intros; split; reflexivity. }
  assert (Hrun : launchpad_add_handles n h id st =
                 (if s =? NO_ERROR then
                    lp <- get_lp ;;
                    src <- load_n h n ;;
                    src_id <- load_n id n ;;
                    hs <- memcpy (handles lp) (handle_count lp) src ;;
                    ids <- memcpy (handles_info lp) (handle_count lp) src_id ;;
                    put_lp (with_handle_count (wrap64 (handle_count lp + n))
                              (with_handles_info ids (with_handles hs lp))) ;;
                    (if existsb (fun x => x =? MX_HANDLE_INVALID) src
                     then lp_error ERR_BAD_HANDLE "added invalid handle"
                     else ret s)
                  else (src <- load_n h n ;; close_all src ;; ret s)) st1).
  { unfold launchpad_add_handles. unfold bind at 1. rewrite Hm. reflexivity. }
  assert (Hsz : n * 4 <= SIZE_MAX) by (unfold SIZE_MAX; lia).
  destruct (s =? NO_ERROR) eqn:Es.
  - apply Z.eqb_eq in Es. destruct (Hst1 Es) as (Hroom & Hlh1 & Hli1 & Hsame).
    rewrite Hrun. unfold bind at 1. unfold get_lp at 1.
    unfold bind at 1. rewrite load_n_ok by lia.
    unfold bind at 1. rewrite load_n_ok by lia.
    unfold bind at 1. rewrite memcpy_ok by (rewrite ?len_take; lia).
    unfold bind at 1. rewrite memcpy_ok by (rewrite ?len_take; lia).
    unfold bind at 1. unfold put_lp, modify_lp.
    cbn [st_lp st_vdso_vmo st_world].
    rewrite Hc. rewrite (wrap64_small (handle_count (st_lp st) + n)) by lia.
    destruct (existsb _ _) eqn:Eex.
    + rewrite lp_error_eq. cbn [st_lp st_vdso_vmo st_world error
        with_handle_count with_handles_info with_handles].
      rewrite He1, Es. cbn [Z.eqb NO_ERROR]. eexists _, _.
      split; [reflexivity|]. intros Hr. contradiction.
    + unfold ret. eexists _, _. split; [reflexivity|]. intros _.
      cbn [st_lp handles handles_info handle_count handle_alloc error
           with_handle_count with_handles_info with_handles].
      split.
      { intros Hin. apply existsb_invalid in Hin. congruence. }
      unfold len in *. rewrite !length_inserts.
      split; [congruence|]. split; [reflexivity|].
      split; [lia|]. split; [exact Hlh1|]. split; [exact Hli1|].
      split.
      { rewrite <- (length_take_le h (Z.to_nat n)) at 1 by lia.
        apply take_drop_inserts. rewrite length_take. lia. }
      split.
      { rewrite <- (length_take_le id (Z.to_nat n)) at 1 by lia.
        apply take_drop_inserts. rewrite length_take. lia. }
      intros i Hi. destruct (Hsame i Hi) as (H1 & H2).
      rewrite !list_lookup_inserts_lt by lia. split; assumption.
  - apply Z.eqb_neq in Es. rewrite Hrun.
    unfold bind at 1. rewrite load_n_ok by lia.
    unfold bind. rewrite close_all_eq. unfold ret.
    eexists _, _. split; [reflexivity|]. intros Hr. contradiction.
Qed.

Lemma close_each_eq hs (st : state world) :
  close_each hs st =
  Some (tt, mkState (st_lp st) (st_vdso_vmo st)
                    (close_world (valid_handles hs) (st_world st))).
Proof.
  revert st. induction hs as [|h hs IH]; intros st; simpl.
  - unfold ret. rewrite state_eta. reflexivity.
  - unfold bind at 1. destruct (h =? MX_HANDLE_INVALID); simpl.
    + apply IH.
    + rewrite IH. reflexivity.
Qed.

(** X3.  [launchpad_destroy] of a context from [calloc] closes the special
    handles and then the handles of the slots in use, each once and in
    order, skips every slot that holds [MX_HANDLE_INVALID], closes nothing
    beyond [handle_count], and releases the five blocks. *)
Theorem launchpad_destroy_closes_in_use (st : state world) :
  0 <= handle_count (st_lp st) <= len (handles (st_lp st)) ->
  launchpad_destroy LpHeap st =
  Some (tt,
        mkState (st_lp st) (st_vdso_vmo st)
          (free (free (free (free (free
             (close_world (valid_handles (in_use (st_lp st)))
                (close_world
                   (valid_handles
                      [special_get (special_handles (st_lp st)) HND_LOADER_SVC;
                       special_get (special_handles (st_lp st)) HND_EXEC_VMO])
                   (st_world st))))))))).
Proof.
  intros Hc. unfold launchpad_destroy, close_handles, in_use.
  unfold bind at 1. unfold get_lp at 1.
  change (HND_SPECIAL_COUNT <=? len [_; _]) with true. cbn iota.
  change (take (Z.to_nat HND_SPECIAL_COUNT) ?l) with l.
  unfold bind at 1. rewrite close_each_eq. cbn [st_lp st_vdso_vmo st_world].
  replace (handle_count (st_lp st) <=? len (handles (st_lp st))) with true
    by (symmetry; apply Z.leb_le; lia).
  unfold bind at 1. rewrite close_each_eq.
  unfold bind, call_. reflexivity.
Qed.

(** X4.  [more_handles] keeps the table in shape whatever the allocator does.
    From a table whose slots in use lie inside both arrays, the call leaves
    a table of which the same is true; the capacity is the old one or the
    doubled one (8 for an empty table), never anything else; the count and
    every slot in use, handle and tag, are as they were; and a failure is
    [ERR_NO_MEMORY], latched, with the capacity unchanged. *)
Theorem more_handles_keeps_table n (st st' : state world) r :
  error (st_lp st) = NO_ERROR ->
  table_ok (st_lp st) ->
  more_handles n st = Some (r, st') ->
  r = error (st_lp st') /\
  0 <= handle_count (st_lp st') <= handle_alloc (st_lp st') /\
  handle_alloc (st_lp st') <= len (handles (st_lp st')) /\
  handle_alloc (st_lp st') <= len (handles_info (st_lp st')) /\
  (handle_alloc (st_lp st') = handle_alloc (st_lp st) \/
   handle_alloc (st_lp st') = grown (handle_alloc (st_lp st)) /\
   handle_alloc (st_lp st) - handle_count (st_lp st) < n /\ r = NO_ERROR) /\
  handle_count (st_lp st') = handle_count (st_lp st) /\
  (forall i : nat, Z.of_nat i < handle_count (st_lp st) ->
     handles (st_lp st') !! i = handles (st_lp st) !! i /\
     handles_info (st_lp st') !! i = handles_info (st_lp st) !! i) /\
  (r <> NO_ERROR ->
     r = ERR_NO_MEMORY /\ handle_alloc (st_lp st') = handle_alloc (st_lp st)).
Proof.
  intros E Hok Hm.
  destruct (more_handles_cases _ _ _ _ Hm) as (Hs & Hc & _ & _ & Hfail).
  pose proof Hok as (Hc0 & Hlh & Hli & Hb).
  destruct (grown_bounds (handle_alloc (st_lp st))) as (Hg1 & Hg2); [lia|].
  split; [exact Hs|].
  destruct (Z_lt_dec (handle_alloc (st_lp st) - handle_count (st_lp st)) n)
    as [Hroom|Hroom].
  - destruct (more_handles_grow _ _ _ _ E Hok Hroom Hm)
      as ([(Hr & Ha & Hh & Hi)|(Hr & He & Ha)] & _ & Hsame).
    + rewrite Ha, Hh, Hi, Hc.
      split; [lia|]. split; [lia|]. split; [lia|].
      split; [right; auto|]. split; [reflexivity|].
      split; [exact Hsame|]. intros Hne. contradiction.
    + assert (Hlens : handle_alloc (st_lp st) <= len (handles (st_lp st')) /\
                      handle_alloc (st_lp st) <= len (handles_info (st_lp st'))).
      { revert Hm. unfold more_handles, bind, get_lp, modify_lp, call, ret.
        rewrite E. cbn [Z.eqb NO_ERROR negb].
        rewrite (wrap64_small
                   (handle_alloc (st_lp st) - handle_count (st_lp st)))
          by lia.
        replace (_ <? n) with true by (symmetry; apply Z.ltb_lt; exact Hroom).
        fold (grown (handle_alloc (st_lp st))).
        unfold sizeof_handle, sizeof_uint32.
        assert (Hsz : wrap64 (grown (handle_alloc (st_lp st)) * 4) / 4
                      = grown (handle_alloc (st_lp st))).
        { rewrite wrap64_small by lia. apply Z.div_mul. lia. }
        rewrite Hsz.
        destruct (realloc _ _) as [[f|] w1]; cbn [st_lp st_vdso_vmo st_world].
        - destruct (realloc _ w1) as [[f'|] w2];
            cbn [st_lp st_vdso_vmo st_world].
          + intros [= _ <-].
            cbn [st_lp handles handles_info with_handle_alloc
                 with_handles_info with_handles].
            unfold len. rewrite !length_resize_block. unfold len in *. lia.
          + rewrite lp_error_eq. cbn [st_lp st_vdso_vmo st_world].
            intros [= _ <-]. cbn [st_lp].
            destruct (error _ =? NO_ERROR);
              cbn [handles handles_info with_error with_handles];
              unfold len; rewrite length_resize_block; unfold len in *; lia.
        - rewrite lp_error_eq. cbn [st_lp st_vdso_vmo st_world].
          intros [= _ <-]. cbn [st_lp].
          destruct (error _ =? NO_ERROR);
            cbn [handles handles_info with_error]; lia. }
      rewrite Ha, Hc.
      split; [lia|]. split; [lia|]. split; [lia|].
      split; [left; reflexivity|]. split; [reflexivity|].
      split; [exact Hsame|]. intros _. split; [exact Hr|reflexivity].
  - rewrite (more_handles_room n st E Hok) in Hm by lia.
    injection Hm as <- <-.
    split; [lia|]. split; [lia|]. split; [lia|].
    split; [left; reflexivity|]. split; [reflexivity|].
    split; [intros; split; reflexivity|]. intros Hne. contradiction.
Qed.

End TableContents.

(** ** Creating a context *)

Section Creation.
Context {Mg : Magenta} {world elf_load_info_t : Type}
        {K : Kernel world elf_load_info_t}.

Lemma take_two {A} (l : list A) a b :
  l !! 0%nat = Some a -> l !! 1%nat = Some b -> take 2 l = [a; b].
Proof.
  destruct l as [|x [|y l]]; simpl; try discriminate.
  intros [= ->] [= ->]. reflexivity.
Qed.

Lemma load_ok l i x (st : state world) :
  0 <= i -> l !! Z.to_nat i = Some x -> load l i st = Some (x, st).
Proof.
  intros Hi Hl. unfold load. rewrite Hl.
  replace (0 <=? i) with true by (symmetry; apply Z.leb_le; lia).
  reflexivity.
Qed.

Lemma more_handles_frame n (st st' : state world) :
  ERR_NO_MEMORY <> NO_ERROR ->
  more_handles n st = Some (NO_ERROR, st') ->
  stack_size (st_lp st') = stack_size (st_lp st) /\
  errmsg (st_lp st') = errmsg (st_lp st).
Proof.
  intros Hnm. unfold more_handles, bind, get_lp, modify_lp, call, ret.
  destruct (error (st_lp st) =? NO_ERROR) eqn:E; simpl.
  2:{ intros [= _ <-]. auto. }
  destruct (_ <? n); [|intros [= <-]; auto].
  destruct (realloc _ _) as [[f|] w2]; simpl.
  - destruct (realloc _ w2) as [[f'|] w3]; simpl.
    + intros [= <-]. simpl. auto.
    + rewrite lp_error_eq. simpl. rewrite E. simpl. intros [= Hr _].
      contradiction.
  - rewrite lp_error_eq. simpl. rewrite E. intros [= Hr _]. contradiction.
Qed.

(** X5.  [launchpad_create_with_process] always returns a context and the sticky
    error of that context.  When the status is [NO_ERROR] the context is a
    fresh one from [calloc] (not the shared static one), both handles given
    were valid, and the context holds exactly them: the process in slot 0
    and the root VMAR in slot 1, where [launchpad_get_process_handle] and
    [launchpad_get_root_vmar_handle] find them, tagged
    [MX_HND_TYPE_PROC_SELF] and [MX_HND_TYPE_VMAR_ROOT]; the stack size is
    the default. *)
Theorem launchpad_create_with_process_holds proc vmar (st : state world) :
  ERR_NO_MEMORY <> NO_ERROR ->
  ERR_BAD_HANDLE <> NO_ERROR ->
  exists r p st',
    launchpad_create_with_process proc vmar st = Some ((r, p), st') /\
    r = error (st_lp st') /\
    (r = NO_ERROR ->
       p = LpHeap /\
       proc <> MX_HANDLE_INVALID /\ vmar <> MX_HANDLE_INVALID /\
       launchpad_get_process_handle st' = Some (proc, st') /\
       launchpad_get_root_vmar_handle st' = Some (vmar, st') /\
       handle_count (st_lp st') = 2 /\
       in_use (st_lp st') = [proc; vmar] /\
       in_use_info (st_lp st') = [MX_HND_TYPE_PROC_SELF; MX_HND_TYPE_VMAR_ROOT] /\
       stack_size (st_lp st') = MAGENTA_DEFAULT_STACK_SIZE /\
       errmsg (st_lp st') = "no error"%string).
Proof.
  intros Hnm Hbh. unfold launchpad_create_with_process.
  unfold bind at 1. unfold call at 1.
  destruct (calloc (st_world st)) as [ok w1].
  unfold bind at 1. destruct ok.
  2:{ (* the shared static context *)
    unfold put_lp, modify_lp. cbn [st_lp st_vdso_vmo st_world].
    unfold bind at 1.
    rewrite launchpad_add_handle_in_error by (simpl; exact Hnm).
    cbn [st_lp st_vdso_vmo st_world].
    unfold bind at 1.
    rewrite launchpad_add_handle_in_error by (simpl; exact Hnm).
    unfold bind, get_lp, ret. cbn [st_lp st_vdso_vmo st_world].
    eexists _, _, _. split; [reflexivity|]. split; [reflexivity|].
    simpl. intros Hr. contradiction. }
  unfold put_lp, modify_lp. cbn [st_lp st_vdso_vmo st_world].
  set (lp0 := with_stack_size MAGENTA_DEFAULT_STACK_SIZE
                (with_error (error zeroed_launchpad) "no error"
                   zeroed_launchpad)).
  set (st0 := mkState lp0 (st_vdso_vmo st) w1).
  assert (E0 : error (st_lp st0) = NO_ERROR) by reflexivity.
  assert (Hok0 : table_ok (st_lp st0)).
  { unfold table_ok. simpl. unfold len. simpl. lia. }
  assert (Hfail : forall (sa : state world),
            error (st_lp sa) <> NO_ERROR ->
            exists r p st',
              (launchpad_add_handle vmar MX_HND_TYPE_VMAR_ROOT ;;
               lp <- get_lp ;; ret (error lp, LpHeap)) sa
                = Some ((r, p), st') /\
              r = error (st_lp st') /\ r <> NO_ERROR).
  { intros sa Ea. unfold bind at 1.
    rewrite launchpad_add_handle_in_error by exact Ea.
    unfold bind, get_lp, ret. cbn [st_lp st_vdso_vmo st_world].
    eexists _, _, _. split; [reflexivity|]. split; [reflexivity|]. exact Ea. }
  assert (Hdone : forall (sa : state world),
            error (st_lp sa) <> NO_ERROR ->
            exists r p st',
              (launchpad_add_handle vmar MX_HND_TYPE_VMAR_ROOT ;;
               lp <- get_lp ;; ret (error lp, LpHeap)) sa
                = Some ((r, p), st') /\
              r = error (st_lp st') /\
              (r = NO_ERROR ->
               p = LpHeap /\
               proc <> MX_HANDLE_INVALID /\ vmar <> MX_HANDLE_INVALID /\
               launchpad_get_process_handle st' = Some (proc, st') /\
               launchpad_get_root_vmar_handle st' = Some (vmar, st') /\
               handle_count (st_lp st') = 2 /\
               in_use (st_lp st') = [proc; vmar] /\
               in_use_info (st_lp st')
                 = [MX_HND_TYPE_PROC_SELF; MX_HND_TYPE_VMAR_ROOT] /\
               stack_size (st_lp st') = MAGENTA_DEFAULT_STACK_SIZE /\
               errmsg (st_lp st') = "no error"%string)).
  { intros sa Ea. destruct (Hfail sa Ea) as (r & p & st' & H1 & H2 & H3).
    exists r, p, st'. split; [exact H1|]. split; [exact H2|].
    intros; contradiction. }
  destruct (Z.eq_dec proc MX_HANDLE_INVALID) as [Hp|Hp].
  { (* the process handle is invalid *)
    unfold launchpad_add_handle at 1.
    replace (proc =? MX_HANDLE_INVALID) with true
      by (symmetry; apply Z.eqb_eq; exact Hp).
    unfold bind at 1. rewrite lp_error_eq. fold st0. rewrite E0.
    cbn [Z.eqb NO_ERROR]. apply Hdone. simpl. exact Hbh. }
  destruct (launchpad_add_handle_run proc MX_HND_TYPE_PROC_SELF st0
              Hnm E0 Hok0 Hp)
    as (r1 & st1 & st1' & Hm1 & Hrun1 & Hc1 & Ha1 & _ & Hgood1 & Hbad1).
  unfold bind at 1. fold st0. rewrite Hrun1.
  destruct (Z.eq_dec r1 NO_ERROR) as [Er1|Er1].
  2:{ destruct (Hbad1 Er1) as (_ & He & _ & ->).
      apply Hdone. simpl. congruence. }
  destruct (Hgood1 Er1) as (Hfit1 & Hlh1 & Hli1 & He1 & Hst1').
  clear Hgood1 Hbad1.
  pose proof Hm1 as Hm1'. rewrite Er1 in Hm1'.
  destruct (more_handles_frame _ _ _ Hnm Hm1') as (Hss1 & Hmsg1).
  change (handle_count (st_lp st0)) with 0 in *.
  change (handle_alloc (st_lp st0)) with 0 in *.
  change (grown 0) with 8 in Ha1.
  assert (E1 : error (st_lp st1') = NO_ERROR) by (rewrite Hst1'; exact He1).
  assert (Hok1 : table_ok (st_lp st1')).
  { rewrite Hst1'. unfold table_ok, len in *. simpl.
    rewrite !length_insert. lia. }
  destruct (Z.eq_dec vmar MX_HANDLE_INVALID) as [Hv|Hv].
  { (* the VMAR handle is invalid *)
    unfold launchpad_add_handle at 1.
    replace (vmar =? MX_HANDLE_INVALID) with true
      by (symmetry; apply Z.eqb_eq; exact Hv).
    unfold bind at 1. rewrite lp_error_eq. rewrite E1.
    cbn [Z.eqb NO_ERROR]. unfold bind, get_lp, ret.
    cbn [st_lp st_vdso_vmo st_world].
    eexists _, _, _. split; [reflexivity|]. split; [reflexivity|].
    simpl. intros; contradiction. }
  destruct (launchpad_add_handle_run vmar MX_HND_TYPE_VMAR_ROOT st1'
              Hnm E1 Hok1 Hv)
    as (r2 & st2 & st2' & Hm2 & Hrun2 & Hc2 & Ha2 & Hsame2 & Hgood2 & Hbad2).
  unfold bind at 1. rewrite Hrun2.
  unfold bind, get_lp, ret.
  destruct (Z.eq_dec r2 NO_ERROR) as [Er2|Er2].
  2:{ destruct (Hbad2 Er2) as (_ & He & _ & ->).
      eexists _, _, _. split; [reflexivity|]. split; [reflexivity|].
      simpl. intros; congruence. }
  destruct (Hgood2 Er2) as (Hfit2 & Hlh2 & Hli2 & He2 & ->).
  eexists _, _, _. split; [reflexivity|].
  cbn [st_lp st_vdso_vmo st_world error with_handle_count with_handles_info
       with_handles]. split; [congruence|]. intros _.
  assert (Hcount1 : handle_count (st_lp st1') = 1) by (rewrite Hst1'; reflexivity).
  rewrite Hcount1 in *.
  assert (H0 : handles (st_lp st2) !! 0%nat = Some proc /\
               handles_info (st_lp st2) !! 0%nat = Some MX_HND_TYPE_PROC_SELF).
  { destruct (Hsame2 0%nat) as (Hh & Hi); [lia|].
    rewrite Hh, Hi, Hst1'. simpl. unfold len in *.
    split; apply list_lookup_insert_eq; lia. }
  destruct H0 as (Hh0 & Hi0).
  pose proof Hm2 as Hm2'. rewrite Er2 in Hm2'.
  destruct (more_handles_frame _ _ _ Hnm Hm2') as (Hss2 & Hmsg2).
  rewrite Hst1' in Hss2, Hmsg2. simpl in Hss2, Hmsg2.
  rewrite Hss1 in Hss2. rewrite Hmsg1 in Hmsg2.
  change (stack_size (st_lp st0)) with MAGENTA_DEFAULT_STACK_SIZE in Hss2.
  change (errmsg (st_lp st0)) with "no error"%string in Hmsg2.
  unfold launchpad_get_process_handle, launchpad_get_root_vmar_handle,
    lp_proc, lp_vmar, in_use, in_use_info, bind, get_lp.
  cbn [st_lp st_vdso_vmo st_world handles handles_info handle_count
       stack_size errmsg with_handle_count with_handles_info with_handles].
  unfold len in *.
  assert (Hp0 : <[Z.to_nat 1 := vmar]> (handles (st_lp st2)) !! 0%nat
                = Some proc).
  { rewrite list_lookup_insert_ne by lia. exact Hh0. }
  assert (Hp1 : <[Z.to_nat 1 := vmar]> (handles (st_lp st2)) !! 1%nat
                = Some vmar).
  { apply list_lookup_insert_eq. lia. }
  assert (Hi0' : <[Z.to_nat 1 := MX_HND_TYPE_VMAR_ROOT]>
                   (handles_info (st_lp st2)) !! 0%nat
                 = Some MX_HND_TYPE_PROC_SELF).
  { rewrite list_lookup_insert_ne by lia. exact Hi0. }
  assert (Hi1' : <[Z.to_nat 1 := MX_HND_TYPE_VMAR_ROOT]>
                   (handles_info (st_lp st2)) !! 1%nat
                 = Some MX_HND_TYPE_VMAR_ROOT).
  { apply list_lookup_insert_eq. lia. }
  split; [reflexivity|]. split; [exact Hp|]. split; [exact Hv|].
  split; [apply load_ok; [lia|exact Hp0]|].
  split; [apply load_ok; [lia|exact Hp1]|].
  split; [reflexivity|].
  split; [apply take_two; assumption|].
  split; [apply take_two; assumption|].
  split; assumption.
Qed.

(** X6.  When [mx_process_create] fails, [launchpad_create_with_jobs] still
    returns a context, and that context is in error: the status returned is
    its sticky error and is not [NO_ERROR].  The job handle to transfer is
    not stored in it but closed. *)
Theorem launchpad_create_with_jobs_reports_failure creation_job transfered_job
    name (st st' : state world) r p status proc vmar w1 :
  mx_process_create creation_job name (st_world st)
    = ((status, proc, vmar), w1) ->
  status < 0 ->
  launchpad_create_with_jobs creation_job transfered_job name st
    = Some ((r, p), st') ->
  r <> NO_ERROR /\
  r = error (st_lp st') /\
  exists c st1,
    launchpad_create_with_process proc vmar
      (mkState (st_lp st) (st_vdso_vmo st) w1) = Some (c, st1) /\
    p = snd c /\
    (error (st_lp st1) <> NO_ERROR -> st_lp st' = st_lp st1) /\
    (error (st_lp st1) = NO_ERROR ->
       st_lp st' = with_error status "create: mx_process_create() failed"
                     (st_lp st1)) /\
    st_world st' = close_world (given_handle transfered_job) (st_world st1).
Proof.
  intros Hpc Hneg. unfold launchpad_create_with_jobs.
  unfold bind at 1. unfold call at 1. rewrite Hpc.
  unfold bind at 1.
  destruct (launchpad_create_with_process proc vmar _) as [[c st1]|] eqn:Hc;
    [|discriminate].
  replace (status <? 0) with true by (symmetry; apply Z.ltb_lt; exact Hneg).
  unfold bind at 1. unfold bind at 1. rewrite lp_error_eq.
  unfold ret at 1.
  set (st2 := mkState
                (if error (st_lp st1) =? NO_ERROR
                 then with_error status "create: mx_process_create() failed"
                        (st_lp st1)
                 else st_lp st1) (st_vdso_vmo st1) (st_world st1)).
  assert (E2 : error (st_lp st2) <> NO_ERROR).
  { unfold st2. simpl. destruct (error (st_lp st1) =? NO_ERROR) eqn:E; simpl.
    - unfold NO_ERROR. lia.
    - apply Z.eqb_neq in E. exact E. }
  assert (Hlast : forall (k : M world unit),
            (k = (launchpad_add_handle transfered_job
                    (MX_HND_INFO MX_HND_TYPE_JOB 0) ;; ret tt)
             /\ transfered_job <> MX_HANDLE_INVALID)
            \/ (k = ret tt /\ transfered_job = MX_HANDLE_INVALID) ->
            k st2 = Some (tt, mkState (st_lp st2) (st_vdso_vmo st2)
                            (close_world (given_handle transfered_job)
                               (st_world st2)))).
  { intros k [(-> & Ht)|(-> & Ht)].
    - unfold bind. rewrite launchpad_add_handle_in_error by exact E2.
      reflexivity.
    - unfold ret, given_handle. rewrite Ht. reflexivity. }
  unfold bind at 1. rewrite Hlast.
  2:{ destruct (transfered_job =? MX_HANDLE_INVALID) eqn:Et; simpl.
      - right. split; [reflexivity|]. apply Z.eqb_eq. exact Et.
      - left. split; [reflexivity|]. apply Z.eqb_neq. exact Et. }
  unfold bind, get_lp, ret. cbn [st_lp st_vdso_vmo st_world].
  intros [= <- <- <-]. cbn [st_lp st_world].
  split; [exact E2|]. split; [reflexivity|].
  exists c, st1. split; [reflexivity|]. split; [reflexivity|].
  unfold st2. cbn [st_lp st_world].
  split.
  { intros E. apply Z.eqb_neq in E. rewrite E. reflexivity. }
  split; [|reflexivity].
  intros E. rewrite E. reflexivity.
Qed.

(** X7.  [launchpad_abort] always leaves the context in error.  On a context
    that is not in error a negative code is latched as it is and any other
    code (zero or positive) as [ERR_INTERNAL], with the message given; on a
    context already in error nothing changes. *)
Theorem launchpad_abort_latches err msg (st : state world) :
  ERR_INTERNAL < 0 ->
  exists st',
    launchpad_abort err msg st = Some (tt, st') /\
    error (st_lp st') <> NO_ERROR /\
    launchpad_get_status st' = Some (error (st_lp st'), st') /\
    (error (st_lp st) = NO_ERROR ->
       st' = mkState (with_error (if err <? 0 then err else ERR_INTERNAL) msg
                        (st_lp st))
                     (st_vdso_vmo st) (st_world st)) /\
    (error (st_lp st) <> NO_ERROR -> st' = st).
Proof.
  intros Hint. unfold launchpad_abort, bind. rewrite lp_error_eq.
  unfold ret. eexists. split; [reflexivity|].
  cbn [st_lp st_vdso_vmo st_world].
  destruct (error (st_lp st) =? NO_ERROR) eqn:E.
  - apply Z.eqb_eq in E. split.
    { simpl. destruct (err <? 0) eqn:En; [apply Z.ltb_lt in En|];
        unfold NO_ERROR; lia. }
    split; [reflexivity|]. split; [reflexivity|]. intros; contradiction.
  - apply Z.eqb_neq in E. split; [exact E|]. split; [reflexivity|].
    split; [intros; contradiction|]. intros _. apply state_eta.
Qed.

End Creation.

(** ** The argument and environment blobs: more *)

Section BlobsMore.
Context {Mg : Magenta} {world elf_load_info_t : Type}
        {K : Kernel world elf_load_info_t}.

Lemma with_error_same lp : with_error (error lp) (errmsg lp) lp = lp.
Proof. destruct lp; reflexivity. Qed.

Lemma envc_count (ev : list observed) : forall c,
  fold_left (fun c _ => wrap32 (c + 1)) ev (wrap32 c) = wrap32 (c + len ev).
Proof.
  unfold len. induction ev as [|o ev IH]; intros c; simpl.
  - f_equal. lia.
  - replace (wrap32 (wrap32 c + 1)) with (wrap32 (c + 1))
      by (unfold wrap32; rewrite Zplus_mod_idemp_l; reflexivity).
    rewrite IH. f_equal. lia.
Qed.

(** The two setters on strings that do not change under them: the state
    they leave. *)
Lemma launchpad_set_args_stable (argv : list string) (st : state world) :
  error (st_lp st) = NO_ERROR ->
  serialized_length argv < 2 ^ 64 ->
  fst (malloc (serialized_length argv) (st_world st)) = true ->
  exists buf w',
    launchpad_set_args (len argv) (map stable argv) st =
      Some (NO_ERROR,
            mkState (with_args (len argv) buf (serialized_length argv)
                       (st_lp st)) (st_vdso_vmo st) w') /\
    buf_bytes buf = stpcpy_all (map stable argv).
Proof.
  intros E Hsmall Hmalloc.
  pose proof (serialized_length_nonneg argv) as Hnn.
  unfold launchpad_set_args. unfold bind at 1. unfold get_lp at 1.
  rewrite E. cbn [Z.eqb NO_ERROR negb].
  replace (len argv <? 0) with false
    by (symmetry; apply Z.ltb_ge; unfold len; lia).
  unfold bind at 1. rewrite read_argv_stable.
  rewrite strlen_total_eq, measured_stable, (wrap64_small _ (conj Hnn Hsmall)).
  unfold copy_strings.
  destruct (0 <? serialized_length argv) eqn:Epos.
  - unfold bind, call. destruct (malloc _ _) as [ok w1]. simpl in Hmalloc.
    subst ok. simpl. rewrite len_stpcpy_all_stable.
    rewrite Z.ltb_irrefl, Z.eqb_refl. simpl.
    unfold ret, call_, modify_lp. simpl. eexists _, _.
    split; reflexivity.
  - unfold ret, bind, call_, modify_lp. simpl. eexists _, _.
    split; [reflexivity|]. simpl.
    apply Z.ltb_ge in Epos.
    destruct argv as [|s argv]; [reflexivity|].
    simpl in Epos. pose proof (serialized_length_nonneg argv).
    unfold strlen in Epos. lia.
Qed.

Lemma launchpad_set_environ_stable (envp : list string) (st : state world) :
  error (st_lp st) = NO_ERROR ->
  serialized_length envp < 2 ^ 64 ->
  len envp < 2 ^ 32 ->
  fst (malloc (serialized_length envp) (st_world st)) = true ->
  exists buf w',
    launchpad_set_environ (Some (map stable envp)) st =
      Some (NO_ERROR,
            mkState (with_env (len envp) buf (serialized_length envp)
                       (st_lp st)) (st_vdso_vmo st) w') /\
    buf_bytes buf = stpcpy_all (map stable envp).
Proof.
  intros E Hsmall Hcount Hmalloc.
  pose proof (serialized_length_nonneg envp) as Hnn.
  assert (Hc : fold_left (fun c _ => wrap32 (c + 1)) (map stable envp) 0
               = len envp).
  { change 0 with (wrap32 0) at 1. rewrite envc_count.
    unfold len. rewrite length_map. unfold wrap32.
    apply Z.mod_small. unfold len in Hcount. lia. }
  unfold launchpad_set_environ. unfold bind at 1. unfold get_lp at 1.
  rewrite E. cbn [Z.eqb NO_ERROR negb]. rewrite Hc.
  rewrite strlen_total_eq, measured_stable, (wrap64_small _ (conj Hnn Hsmall)).
  unfold copy_strings.
  destruct (0 <? serialized_length envp) eqn:Epos.
  - unfold bind, call. destruct (malloc _ _) as [ok w1]. simpl in Hmalloc.
    subst ok. simpl. rewrite len_stpcpy_all_stable.
    rewrite Z.ltb_irrefl, Z.eqb_refl. simpl.
    unfold ret, call_, modify_lp. simpl. eexists _, _.
    split; reflexivity.
  - unfold ret, bind, call_, modify_lp. simpl. eexists _, _.
    split; [reflexivity|]. simpl.
    apply Z.ltb_ge in Epos.
    destruct envp as [|s envp]; [reflexivity|].
    simpl in Epos. pose proof (serialized_length_nonneg envp).
    unfold strlen in Epos. lia.
Qed.

(** X8.  [launchpad_set_environ] stores the environment as [launchpad_set_args]
    stores the arguments: the strings back to back, each with its
    terminator, so that cutting the buffer at its zero bytes gives the list
    back; the count is the number of strings, the length the sum of their
    lengths plus one each.  A [NULL] [envp] is the empty environment.  The
    rest of the context is not touched. *)
Theorem launchpad_set_environ_round_trip (envp : list string)
    (st : state world) :
  error (st_lp st) = NO_ERROR ->
  Forall nul_free envp ->
  serialized_length envp < 2 ^ 64 ->
  len envp < 2 ^ 32 ->
  fst (malloc (serialized_length envp) (st_world st)) = true ->
  exists st',
    launchpad_set_environ (Some (map stable envp)) st = Some (NO_ERROR, st') /\
    envc (st_lp st') = len envp /\
    env_len (st_lp st') = serialized_length envp /\
    len (buf_bytes (env (st_lp st'))) = serialized_length envp /\
    split_nul (buf_bytes (env (st_lp st'))) = envp /\
    st_lp st' = with_env (envc (st_lp st')) (env (st_lp st'))
                  (env_len (st_lp st')) (st_lp st) /\
    (envp = [] -> launchpad_set_environ None st = Some (NO_ERROR, st')).
Proof.
  intros E Hfree Hsmall Hcount Hmalloc.
  destruct (launchpad_set_environ_stable envp st E Hsmall Hcount Hmalloc)
    as (buf & w' & Hrun & Hbuf).
  eexists. split; [exact Hrun|]. cbn [st_lp envc env env_len with_env].
  rewrite Hbuf.
  split; [reflexivity|]. split; [reflexivity|].
  split; [apply len_stpcpy_all_stable|].
  split; [apply split_nul_stpcpy_all; exact Hfree|].
  split; [reflexivity|].
  intros ->. exact Hrun.
Qed.

(** X9.  A call of [launchpad_set_args] changes nothing of the context but
    the stored arguments and the sticky error, and a call of
    [launchpad_set_environ] nothing but the stored environment and the
    sticky error.  A call that does not return [NO_ERROR] does not change
    the stored strings either: their buffer, count and length stay as they
    were, whatever made the call fail. *)
Theorem launchpad_set_args_failure_keeps :
  (forall n argv (st st' : state world) r,
      launchpad_set_args n argv st = Some (r, st') ->
      r = error (st_lp st') /\
      st_lp st = with_args (argc (st_lp st)) (args (st_lp st))
                   (args_len (st_lp st))
                   (with_error (error (st_lp st)) (errmsg (st_lp st))
                      (st_lp st')) /\
      (r <> NO_ERROR ->
         argc (st_lp st') = argc (st_lp st) /\
         args (st_lp st') = args (st_lp st) /\
         args_len (st_lp st') = args_len (st_lp st)))
  /\
  (forall envp (st st' : state world) r,
      launchpad_set_environ envp st = Some (r, st') ->
      r = error (st_lp st') /\
      st_lp st = with_env (envc (st_lp st)) (env (st_lp st))
                   (env_len (st_lp st))
                   (with_error (error (st_lp st)) (errmsg (st_lp st))
                      (st_lp st')) /\
      (r <> NO_ERROR ->
         envc (st_lp st') = envc (st_lp st) /\
         env (st_lp st') = env (st_lp st) /\
         env_len (st_lp st') = env_len (st_lp st))).
Proof.
  split.
  - intros n argv st st' r Hrun.
    unfold launchpad_set_args, copy_strings, read_argv in Hrun.
    inv_m; bool_hyps; cbn [st_lp].
    all: repeat match goal with
         | |- context [error ?l =? NO_ERROR] =>
             destruct (error l =? NO_ERROR) eqn:?
         end.
    all: bool_hyps.
    all: repeat match goal with
         | s : state world |- _ => destruct s as [[] ? ?]
         end; simpl in *.
    all: split; [congruence|]; split; [reflexivity|].
    all: intros; try contradiction; try congruence; auto.
  - intros envp st st' r Hrun.
    unfold launchpad_set_environ, copy_strings in Hrun.
    inv_m; bool_hyps; cbn [st_lp].
    all: repeat match goal with
         | |- context [error ?l =? NO_ERROR] =>
             destruct (error l =? NO_ERROR) eqn:?
         end.
    all: bool_hyps.
    all: repeat match goal with
         | s : state world |- _ => destruct s as [[] ? ?]
         end; simpl in *.
    all: split; [congruence|]; split; [reflexivity|].
    all: intros; try contradiction; try congruence; auto.
Qed.

Lemma stpcpy_all_app a b : stpcpy_all (a ++ b) = stpcpy_all a ++ stpcpy_all b.
Proof. unfold stpcpy_all. apply flat_map_app. Qed.

Lemma message_strings_stable (argv envp : list string) lp :
  argc lp = len argv -> envc lp = len envp ->
  args_len lp = serialized_length argv ->
  env_len lp = serialized_length envp ->
  buf_bytes (args lp) = stpcpy_all (map stable argv) ->
  buf_bytes (env lp) = stpcpy_all (map stable envp) ->
  message_strings lp = stpcpy_all (map stable (argv ++ envp)).
Proof.
  intros Hac Hec Hal Hel Ha He. unfold message_strings.
  rewrite Hac, Hec, Hal, Hel, Ha, He, map_app, stpcpy_all_app.
  f_equal.
  - destruct argv as [|s argv]; [reflexivity|].
    replace (0 <? len (s :: argv)) with true
      by (symmetry; apply Z.ltb_lt; unfold len; simpl; lia).
    apply take_ge. pose proof (len_stpcpy_all_stable (s :: argv)) as Hl.
    unfold len in Hl. lia.
  - destruct envp as [|s envp]; [reflexivity|].
    replace (0 <? len (s :: envp)) with true
      by (symmetry; apply Z.ltb_lt; unfold len; simpl; lia).
    apply take_ge. pose proof (len_stpcpy_all_stable (s :: envp)) as Hl.
    unfold len in Hl. lia.
Qed.

(** X10.  The bootstrap message carries what was set.  After
    [launchpad_set_args] and [launchpad_set_environ], [build_message]
    assembles a message whose string area, cut at its zero bytes, is the
    argument list followed by the environment; whose counts are the two
    list lengths; whose handle-info words are the tags of the slots in use;
    and whose three areas follow the header back to back and end at the
    size of the message. *)
Theorem build_message_carries_strings (argv envp : list string)
    (st : state world) :
  error (st_lp st) = NO_ERROR ->
  (forall n w, fst (malloc n w) = true) ->
  Forall nul_free argv -> Forall nul_free envp ->
  len envp < 2 ^ 32 ->
  0 <= sizeof_mx_proc_args_t ->
  0 <= handle_count (st_lp st) <= len (handles_info (st_lp st)) ->
  sizeof_mx_proc_args_t + handle_count (st_lp st) * sizeof_uint32
    + serialized_length argv + serialized_length envp < 2 ^ 32 ->
  exists msg st',
    (launchpad_set_args (len argv) (map stable argv) ;;
     launchpad_set_environ (Some (map stable envp)) ;;
     build_message) st = Some (Some msg, st') /\
    pa_args_num msg = len argv /\
    pa_environ_num msg = len envp /\
    split_nul (pa_strings msg) = argv ++ envp /\
    pa_handle_info msg = in_use_info (st_lp st) /\
    pa_handle_info_off msg = sizeof_mx_proc_args_t /\
    (argv <> [] ->
       pa_args_off msg
         = pa_handle_info_off msg + len (pa_handle_info msg) * sizeof_uint32) /\
    (envp <> [] ->
       pa_environ_off msg
         = pa_handle_info_off msg + len (pa_handle_info msg) * sizeof_uint32
           + serialized_length argv) /\
    pa_size msg
      = pa_handle_info_off msg + len (pa_handle_info msg) * sizeof_uint32
        + len (pa_strings msg).
Proof.
  intros E Hmalloc Hfa Hfe Hcount Hhdr Hc Hsmall.
  pose proof (serialized_length_nonneg argv) as Hna.
  pose proof (serialized_length_nonneg envp) as Hne.
  unfold sizeof_uint32 in *.
  destruct (launchpad_set_args_stable argv st E) as (bufa & wa & Hra & Hba);
    [lia|apply Hmalloc|].
  unfold bind at 1. rewrite Hra.
  match goal with
  | |- context [bind _ _ ?s] => set (st1 := s)
  end.
  destruct (launchpad_set_environ_stable envp st1) as (bufe & we & Hre & Hbe);
    [exact E|lia|exact Hcount|apply Hmalloc|].
  unfold bind at 1. rewrite Hre.
  match goal with
  | |- context [build_message ?s] => set (st2 := s)
  end.
  assert (Hstr : message_strings (st_lp st2)
                 = stpcpy_all (map stable (argv ++ envp))).
  { apply message_strings_stable; try reflexivity; assumption. }
  unfold build_message. unfold bind at 1. unfold get_lp at 1.
  unfold bind at 1. unfold call at 1.
  specialize (Hmalloc
    (wrap64 (sizeof_mx_proc_args_t + handle_count (st_lp st2) * sizeof_uint32
             + args_len (st_lp st2) + env_len (st_lp st2))) (st_world st2)).
  destruct (malloc _ (st_world st2)) as [ok w3]. simpl in Hmalloc. subst ok.
  cbn [negb]. unfold bind at 1.
  rewrite load_n_ok by (simpl; unfold SIZE_MAX; lia).
  unfold ret. eexists _, _. split; [reflexivity|].
  cbn [pa_args_num pa_environ_num pa_strings pa_handle_info
       pa_handle_info_off pa_args_off pa_environ_off pa_size].
  rewrite Hstr.
  change (argc (st_lp st2)) with (len argv).
  change (envc (st_lp st2)) with (len envp).
  change (args_len (st_lp st2)) with (serialized_length argv).
  change (env_len (st_lp st2)) with (serialized_length envp).
  change (handle_count (st_lp st2)) with (handle_count (st_lp st)).
  change (handles_info (st_lp st2)) with (handles_info (st_lp st)).
  assert (Hli : len (take (Z.to_nat (handle_count (st_lp st)))
                       (handles_info (st_lp st)))
                = handle_count (st_lp st)) by (apply len_take; lia).
  rewrite Hli.
  assert (Hls : len (stpcpy_all (map stable (argv ++ envp)))
                = serialized_length argv + serialized_length envp).
  { rewrite map_app, stpcpy_all_app. unfold len. rewrite length_app.
    pose proof (len_stpcpy_all_stable argv) as H1.
    pose proof (len_stpcpy_all_stable envp) as H2.
    unfold len in H1, H2. lia. }
  rewrite Hls.
  split.
  { destruct (0 <? len argv) eqn:E0; [reflexivity|].
    apply Z.ltb_ge in E0. unfold len in *. lia. }
  split.
  { destruct (0 <? len envp) eqn:E0; [reflexivity|].
    apply Z.ltb_ge in E0. unfold len in *. lia. }
  split.
  { apply split_nul_stpcpy_all. apply Forall_app. split; assumption. }
  split; [reflexivity|]. split; [reflexivity|].
  split.
  { intros Hnil.
    replace (0 <? len argv) with true.
    - unfold wrap32. apply Z.mod_small. unfold sizeof_uint32. lia.
    - symmetry. apply Z.ltb_lt. destruct argv; [contradiction|].
      unfold len. simpl. lia. }
  split.
  { intros Hnil.
    replace (0 <? len envp) with true.
    - destruct (0 <? len argv) eqn:E0.
      + unfold wrap32. apply Z.mod_small. unfold sizeof_uint32. lia.
      + apply Z.ltb_ge in E0. destruct argv as [|a argv].
        * simpl. unfold wrap32. rewrite Z.mod_small; unfold sizeof_uint32; lia.
        * unfold len in E0. simpl in E0. lia.
    - symmetry. apply Z.ltb_lt. destruct envp; [contradiction|].
      unfold len. simpl. lia. }
  unfold sizeof_uint32. rewrite wrap64_small by lia. lia.
Qed.

End BlobsMore.

(** ** The stack size: rounding settles *)

Section StackMore.
Context {Mg : Magenta} {world elf_load_info_t : Type}
        {K : Kernel world elf_load_info_t}.

Lemma launchpad_set_stack_size_eq new_size (st : state world) :
  launchpad_set_stack_size new_size st =
  Some (stack_size (st_lp st),
        if error (st_lp st) =? NO_ERROR
        then mkState (with_stack_size (page_rounded new_size) (st_lp st))
                     (st_vdso_vmo st) (st_world st)
        else st).
Proof.
  unfold launchpad_set_stack_size, page_rounded, bind, get_lp, modify_lp, ret.
  destruct (error (st_lp st) =? NO_ERROR); reflexivity.
Qed.

Lemma page_rounded_cases n :
  0 <= PAGE_SIZE_SHIFT < 64 -> 0 <= n <= SIZE_MAX ->
  page_rounded n = PAGE_SIZE * ((n + PAGE_SIZE - 1) / PAGE_SIZE) /\
  n < 2 ^ 64 - PAGE_SIZE
  \/ page_rounded n = 2 ^ 64 - PAGE_SIZE /\ 2 ^ 64 - PAGE_SIZE <= n.
Proof.
  intros Hk Hn. pose proof (page_size_bounds Hk) as Hp.
  unfold page_rounded. rewrite (size_max_mask Hk). unfold SIZE_MAX in Hn.
  destruct (2 ^ 64 - PAGE_SIZE <=? n) eqn:Ebig.
  - apply Z.leb_le in Ebig. right. split; [reflexivity|exact Ebig].
  - apply Z.leb_gt in Ebig. left. split; [|exact Ebig].
    destruct (0 <? n) eqn:Epos.
    + apply Z.ltb_lt in Epos. unfold page_mask, PAGE_SIZE in *.
      rewrite (wrap64_small (n + 2 ^ PAGE_SIZE_SHIFT - 1)) by lia.
      apply land_neg_pow2; [exact Hk|lia].
    + apply Z.ltb_ge in Epos. assert (n = 0) by lia. subst n.
      rewrite Z.add_0_l, Z.div_small by lia. lia.
Qed.

Lemma page_rounded_aligned n :
  0 <= PAGE_SIZE_SHIFT < 64 -> 0 <= n <= SIZE_MAX ->
  exists k, page_rounded n = PAGE_SIZE * k /\
            0 <= k /\ PAGE_SIZE * k <= 2 ^ 64 - PAGE_SIZE.
Proof.
  intros Hk Hn. pose proof (page_size_bounds Hk) as Hp.
  unfold SIZE_MAX in Hn.
  destruct (page_rounded_cases n Hk) as [(Hr & Hlt)|(Hr & Hge)];
    [unfold SIZE_MAX; lia| |].
  - exists ((n + PAGE_SIZE - 1) / PAGE_SIZE). split; [exact Hr|].
    split; [apply Z.div_pos; lia|].
    assert (Hq : 2 ^ 64 - PAGE_SIZE
                 = PAGE_SIZE * (2 ^ (64 - PAGE_SIZE_SHIFT) - 1)).
    { unfold PAGE_SIZE.
      replace (2 ^ 64)
        with (2 ^ PAGE_SIZE_SHIFT * 2 ^ (64 - PAGE_SIZE_SHIFT))
        by (rewrite <- Z.pow_add_r by lia; f_equal; lia).
      lia. }
    rewrite Hq. apply Z.mul_le_mono_nonneg_l; [lia|].
    assert (Hlt' : (n + PAGE_SIZE - 1) / PAGE_SIZE
                   < 2 ^ (64 - PAGE_SIZE_SHIFT)).
    { apply Z.div_lt_upper_bound; [lia|].
      replace (PAGE_SIZE * 2 ^ (64 - PAGE_SIZE_SHIFT)) with (2 ^ 64)
        by (unfold PAGE_SIZE; rewrite <- Z.pow_add_r by lia; f_equal; lia).
      lia. }
    lia.
  - exists (2 ^ (64 - PAGE_SIZE_SHIFT) - 1). rewrite Hr.
    assert (Hq : 2 ^ 64 = PAGE_SIZE * 2 ^ (64 - PAGE_SIZE_SHIFT)).
    { unfold PAGE_SIZE. rewrite <- Z.pow_add_r by lia. f_equal. lia. }
    assert (0 < 2 ^ (64 - PAGE_SIZE_SHIFT)) by (apply Z.pow_pos_nonneg; lia).
    split; [lia|]. split; lia.
Qed.

Lemma page_rounded_fixed k :
  0 <= PAGE_SIZE_SHIFT < 64 ->
  0 <= k -> PAGE_SIZE * k <= 2 ^ 64 - PAGE_SIZE ->
  page_rounded (PAGE_SIZE * k) = PAGE_SIZE * k.
Proof.
  intros Hk Hk0 Hle. pose proof (page_size_bounds Hk) as Hp.
  destruct (page_rounded_cases (PAGE_SIZE * k) Hk) as [(Hr & Hlt)|(Hr & Hge)];
    [unfold SIZE_MAX; nia| |].
  - rewrite Hr. f_equal.
    replace (PAGE_SIZE * k + PAGE_SIZE - 1)
      with (k * PAGE_SIZE + (PAGE_SIZE - 1)) by lia.
    rewrite Z.div_add_l by lia. rewrite Z.div_small by lia. lia.
  - rewrite Hr. lia.
Qed.

(** X11.  The rounding of [launchpad_set_stack_size] settles and keeps the
    order.  Asking for the size a first call stored stores that size again
    (the call returns it as the previous size and the context is as it
    was), and a larger request never yields a smaller stack. *)
Theorem launchpad_set_stack_size_settles new_size (st : state world) :
  0 <= PAGE_SIZE_SHIFT < 64 ->
  error (st_lp st) = NO_ERROR ->
  0 <= new_size <= SIZE_MAX ->
  exists st1,
    launchpad_set_stack_size new_size st = Some (stack_size (st_lp st), st1) /\
    launchpad_set_stack_size (stack_size (st_lp st1)) st1
      = Some (stack_size (st_lp st1), st1) /\
    (forall larger st2 old,
        new_size <= larger <= SIZE_MAX ->
        launchpad_set_stack_size larger st = Some (old, st2) ->
        stack_size (st_lp st1) <= stack_size (st_lp st2)).
Proof.
  intros Hk E Hn. pose proof (page_size_bounds Hk) as Hp.
  rewrite launchpad_set_stack_size_eq, E. cbn [Z.eqb NO_ERROR].
  eexists. split; [reflexivity|]. cbn [st_lp stack_size with_stack_size].
  split.
  - rewrite launchpad_set_stack_size_eq.
    cbn [st_lp st_vdso_vmo st_world error stack_size with_stack_size].
    rewrite E. cbn [Z.eqb NO_ERROR]. f_equal. f_equal. f_equal.
    destruct (page_rounded_aligned new_size Hk Hn) as (k & Hr & Hk0 & Hle).
    rewrite Hr, (page_rounded_fixed k Hk Hk0 Hle).
    destruct (st_lp st); reflexivity.
  - intros larger st2 old Hl. rewrite launchpad_set_stack_size_eq, E.
    cbn [Z.eqb NO_ERROR]. intros [= _ <-].
    cbn [st_lp stack_size with_stack_size].
    assert (Hl' : 0 <= larger <= SIZE_MAX) by lia. unfold SIZE_MAX in *.
    destruct (page_rounded_cases new_size Hk) as [(Hr & Hlt)|(Hr & Hge)];
      [unfold SIZE_MAX; lia| |];
    destruct (page_rounded_cases larger Hk) as [(Hr' & Hlt')|(Hr' & Hge')];
      try (unfold SIZE_MAX; lia); rewrite Hr, Hr'.
    + apply Z.mul_le_mono_nonneg_l; [lia|].
      apply Z.div_le_mono; lia.
    + destruct (page_rounded_aligned new_size Hk) as (k & Hrk & _ & Hle);
        [unfold SIZE_MAX; lia|]. rewrite <- Hr, Hrk. exact Hle.
Qed.

End StackMore.

(** ** Loading an image *)

Section ImageLoading.
Context {Mg : Magenta} {world elf_load_info_t : Type}
        {K : Kernel world elf_load_info_t}.

(** X12.  Loading an image that names no interpreter.  When every step
    succeeds, [launchpad_elf_load] records the base and the entry point
    [elf_load_finish] reports for the image itself, clears the
    loader-message flag, takes the stack size from the image if it names
    one (page-rounded) and otherwise keeps the current one, destroys the
    ELF state and closes the image handle; nothing else of the context
    changes.  The entry point is then what [launchpad_get_entry_address]
    returns. *)
Theorem launchpad_elf_load_static vmo (st : state world)
    elf w1 n w2 vmar b e w3 ss w4 :
  error (st_lp st) = NO_ERROR ->
  0 < vmo ->
  elf_load_start vmo (st_world st) = ((NO_ERROR, elf), w1) ->
  elf_load_get_interp elf vmo w1 = ((NO_ERROR, None, n), w2) ->
  handles (st_lp st) !! 1%nat = Some vmar ->
  elf_load_finish vmar elf vmo (base (st_lp st)) (entry (st_lp st)) w2
    = ((NO_ERROR, b, e), w3) ->
  elf_load_get_stack_size elf w3 = (ss, w4) ->
  exists st',
    launchpad_elf_load vmo st = Some (NO_ERROR, st') /\
    st_lp st' =
      with_stack_size
        (if 0 <? ss then page_rounded ss else stack_size (st_lp st))
        (with_loader_message false
           (with_entry e (with_base b (st_lp st)))) /\
    st_vdso_vmo st' = st_vdso_vmo st /\
    st_world st' = mx_handle_close vmo (elf_load_destroy elf w4) /\
    (e <> 0 ->
       launchpad_get_entry_address st' = Some ((NO_ERROR, Some e), st')) /\
    (b <> 0 ->
       launchpad_get_base_address st' = Some ((NO_ERROR, Some b), st')).
Proof.
  intros E Hvmo Hs Hi Hv Hf Hss.
  assert (Hrun : launchpad_elf_load vmo st =
    Some (NO_ERROR,
          mkState
            (with_stack_size
               (if 0 <? ss then page_rounded ss else stack_size (st_lp st))
               (with_loader_message false
                  (with_entry e (with_base b (st_lp st)))))
            (st_vdso_vmo st) (mx_handle_close vmo (elf_load_destroy elf w4)))).
  { unfold launchpad_elf_load.
    replace (vmo <? 0) with false by (symmetry; apply Z.ltb_ge; lia).
    replace (vmo =? MX_HANDLE_INVALID) with false
      by (symmetry; apply Z.eqb_neq; unfold MX_HANDLE_INVALID; lia).
    unfold bind at 1. unfold get_lp at 1. rewrite E. cbn [Z.eqb NO_ERROR negb].
    unfold bind at 1. unfold bind at 1. unfold call at 1. rewrite Hs.
    cbn [Z.eqb NO_ERROR negb].
    unfold bind at 1. unfold bind at 1. unfold call at 1.
    cbn [st_lp st_vdso_vmo st_world]. rewrite Hi.
    cbn [Z.eqb NO_ERROR negb].
    unfold bind at 1. unfold bind at 1. unfold bind at 1.
    unfold elf_load_finish_lp, lp_vmar.
    unfold bind at 1. unfold bind at 1. unfold get_lp at 1.
    cbn [st_lp st_vdso_vmo st_world].
    rewrite (load_ok _ 1 vmar) by (try lia; exact Hv).
    unfold bind at 1. unfold get_lp at 1.
    unfold bind at 1. unfold call at 1.
    cbn [st_lp st_vdso_vmo st_world]. rewrite Hf.
    unfold bind at 1. unfold modify_lp at 1. unfold ret at 1.
    cbn [st_lp st_vdso_vmo st_world Z.eqb NO_ERROR negb].
    unfold bind at 1. unfold modify_lp at 1. unfold ret at 1.
    cbn [fst snd Z.eqb NO_ERROR].
    unfold bind at 1. unfold check_elf_stack_size.
    unfold bind at 1. unfold call at 1.
    cbn [st_lp st_vdso_vmo st_world]. rewrite Hss.
    destruct (0 <? ss) eqn:Epos.
    - unfold bind at 1. rewrite launchpad_set_stack_size_eq.
      cbn [st_lp st_vdso_vmo st_world error with_loader_message with_entry
           with_base]. rewrite E. cbn [Z.eqb NO_ERROR].
      unfold ret at 1. unfold ret at 1.
      unfold bind at 1. unfold call_ at 1. unfold ret at 1.
      replace (vmo =? 0) with false by (symmetry; apply Z.eqb_neq; lia).
      cbn [negb]. unfold bind, call_, get_lp, ret.
      cbn [st_lp st_vdso_vmo st_world error with_stack_size
           with_loader_message with_entry with_base].
      rewrite E. reflexivity.
    - unfold ret at 1. unfold ret at 1.
      unfold bind at 1. unfold call_ at 1. unfold ret at 1.
      replace (vmo =? 0) with false by (symmetry; apply Z.eqb_neq; lia).
      cbn [negb]. unfold bind, call_, get_lp, ret.
      cbn [st_lp st_vdso_vmo st_world error with_stack_size
           with_loader_message with_entry with_base].
      rewrite E. reflexivity. }
  eexists. split; [exact Hrun|]. cbn [st_lp st_vdso_vmo st_world].
  split; [reflexivity|]. split; [reflexivity|]. split; [reflexivity|].
  unfold launchpad_get_entry_address, launchpad_get_base_address, bind,
    get_lp, ret.
  cbn [st_lp entry base with_stack_size with_loader_message with_entry
       with_base].
  split; intros Hne.
  - replace (e =? 0) with false by (symmetry; apply Z.eqb_neq; exact Hne).
    reflexivity.
  - replace (b =? 0) with false by (symmetry; apply Z.eqb_neq; exact Hne).
    reflexivity.
Qed.

Lemma launchpad_elf_load_with_vdso_negative vmo (st : state world) :
  error (st_lp st) = NO_ERROR ->
  vmo < 0 ->
  launchpad_elf_load_with_vdso vmo st =
  Some (vmo,
        mkState (with_error vmo "elf_load: negative vmo" (st_lp st))
          (fst (vdso_default_in_error (st_vdso_vmo st, st_world st)))
          (snd (vdso_default_in_error (st_vdso_vmo st, st_world st)))).
Proof.
  intros E Hneg. unfold launchpad_elf_load_with_vdso.
  unfold bind at 1. unfold launchpad_elf_load.
  replace (vmo <? 0) with true by (symmetry; apply Z.ltb_lt; exact Hneg).
  rewrite lp_error_eq, E. cbn [Z.eqb NO_ERROR].
  assert (E' : (error (with_error vmo "elf_load: negative vmo" (st_lp st))
                =? NO_ERROR) = false).
  { simpl. apply Z.eqb_neq. unfold NO_ERROR. lia. }
  unfold bind at 1. unfold launchpad_load_vdso.
  change (MX_HANDLE_INVALID =? MX_HANDLE_INVALID) with true. cbn [negb].
  rewrite (vdso_step_in_error _ _ _ E').
  unfold launchpad_add_vdso_vmo, bind, get_lp, ret.
  cbn [st_lp]. rewrite E'. reflexivity.
Qed.

(** X13.  When the image cannot be opened, [launchpad_load_from_file] and
    [launchpad_load_from_fd] pass the failure on: the negative value
    [launchpad_vmo_from_file] (or [launchpad_vmo_from_fd]) returned is the
    status of the call and the sticky error of the context from then on,
    and nothing else of the context changes. *)
Theorem launchpad_load_from_file_open_failed :
  (forall path (st : state world) e w1,
      error (st_lp st) = NO_ERROR ->
      launchpad_vmo_from_file path (st_world st) = (e, w1) ->
      e < 0 ->
      exists st',
        launchpad_load_from_file path st = Some (e, st') /\
        st_lp st' = with_error e "elf_load: negative vmo" (st_lp st))
  /\
  (forall fd (st : state world) e w1,
      error (st_lp st) = NO_ERROR ->
      launchpad_vmo_from_fd fd (st_world st) = (e, w1) ->
      e < 0 ->
      exists st',
        launchpad_load_from_fd fd st = Some (e, st') /\
        st_lp st' = with_error e "elf_load: negative vmo" (st_lp st))
  /\
  (forall vmo (st : state world),
      error (st_lp st) = NO_ERROR ->
      vmo < 0 ->
      exists st',
        launchpad_load_from_vmo vmo st = Some (vmo, st') /\
        st_lp st' = with_error vmo "elf_load: negative vmo" (st_lp st)).
Proof.
  split; [|split].
  - intros path st e w1 E Hopen Hneg. unfold launchpad_load_from_file.
    unfold bind at 1. unfold call at 1. rewrite Hopen.
    rewrite launchpad_elf_load_with_vdso_negative by assumption.
    eexists. split; reflexivity.
  - intros fd st e w1 E Hopen Hneg. unfold launchpad_load_from_fd.
    unfold bind at 1. unfold call at 1. rewrite Hopen.
    rewrite launchpad_elf_load_with_vdso_negative by assumption.
    eexists. split; reflexivity.
  - intros vmo st E Hneg. unfold launchpad_load_from_vmo.
    rewrite launchpad_elf_load_with_vdso_negative by assumption.
    eexists. split; reflexivity.
Qed.

(** X14.  Loading an extra image never replaces the main one:
    [launchpad_elf_load_extra] changes nothing of the context but its
    sticky error, and [launchpad_load_vdso] nothing but the vDSO base and
    the sticky error.  Entry point, base, stack size, loader-message flag,
    handle table and special handles are as before. *)
Theorem launchpad_elf_load_extra_keeps_main :
  (forall vmo base0 entry0 (st st' : state world) r,
      launchpad_elf_load_extra vmo base0 entry0 st = Some (r, st') ->
      fst (fst r) = error (st_lp st') /\
      st_lp st = with_error (error (st_lp st)) (errmsg (st_lp st))
                   (st_lp st'))
  /\
  (forall vmo (st st' : state world) r,
      launchpad_load_vdso vmo st = Some (r, st') ->
      r = error (st_lp st') /\
      st_lp st = with_vdso_base (vdso_base (st_lp st))
                   (with_error (error (st_lp st)) (errmsg (st_lp st))
                      (st_lp st'))).
Proof.
  assert (Hextra : forall vmo base0 entry0 (st st' : state world) r,
      launchpad_elf_load_extra vmo base0 entry0 st = Some (r, st') ->
      fst (fst r) = error (st_lp st') /\
      st_lp st = with_error (error (st_lp st)) (errmsg (st_lp st))
                   (st_lp st')).
  { intros vmo base0 entry0 st st' r Hrun.
    unfold launchpad_elf_load_extra, lp_vmar in Hrun.
    inv_m.
    all: repeat match goal with
         | H : load _ _ _ = Some _ |- _ => apply load_Some in H as (? & _)
         end; subst.
    all: cbn [st_lp fst snd].
    all: repeat match goal with
         | |- context [error ?l =? NO_ERROR] =>
             destruct (error l =? NO_ERROR) eqn:?
         end.
    all: simpl; split; try reflexivity.
    all: try (symmetry; apply with_error_same).
    all: repeat match goal with
         | s : state world |- _ => destruct s as [[] ? ?]
         end; simpl in *; try reflexivity; try congruence. }
  split; [exact Hextra|].
  intros vmo st st' r Hrun.
  unfold launchpad_load_vdso, elf_load_extra_vdso, vdso_lock, vdso_unlock,
    vdso_get_vmo in Hrun.
  inv_m.
  all: repeat match goal with
       | H : launchpad_elf_load_extra _ _ _ _ = Some _ |- _ =>
           apply Hextra in H as (? & ?)
       end.
  all: cbn [st_lp st_vdso_vmo st_world fst snd put_vdso_vmo get_vdso_vmo]
         in *.
  all: repeat match goal with
       | H : get_vdso_vmo _ = Some _ |- _ =>
           unfold get_vdso_vmo in H; injection H as ? ?; subst
       | H : put_vdso_vmo _ _ = Some _ |- _ =>
           unfold put_vdso_vmo in H; injection H as ? ?; subst
       end.
  all: cbn [st_lp st_vdso_vmo st_world fst snd] in *.
  all: split; [assumption|].
  all: match goal with
       | H : st_lp ?a = with_error _ _ (st_lp ?b) |- _ =>
           revert H; generalize (st_lp a), (st_lp b);
           intros [] []; simpl; intros [= ]; subst; reflexivity
       end.
Qed.

Lemma handle_interp_failed vmo path path_len (st st' : state world) s :
  handle_interp vmo path path_len st = Some (s, st') ->
  s <> NO_ERROR ->
  special_get (special_handles (st_lp st')) HND_EXEC_VMO
    = special_get (special_handles (st_lp st)) HND_EXEC_VMO /\
  loader_message (st_lp st') = loader_message (st_lp st).
Proof.
  unfold handle_interp, setup_loader_svc, elf_load_finish_lp, lp_vmar.
  intros Hrun Hs. inv_m.
  all: repeat match goal with
       | H : loader_svc_rpc _ _ _ _ _ = Some _ |- _ =>
           apply loader_svc_rpc_lp in H
       | H : load _ _ _ = Some _ |- _ => apply load_Some in H as (? & _)
       end; subst; cbn [st_lp] in *.
  all: bool_hyps; try congruence.
  all: repeat match goal with
       | H : st_lp ?s = _ |- context [st_lp ?s] => rewrite H
       end; cbn [st_lp]; simpl; auto.
Qed.

(** X15.  An interpreter that cannot be loaded.  When the image names an
    interpreter and [handle_interp] fails (no loader service, a failed
    request, an interpreter image that does not load), [launchpad_elf_load]
    latches and returns that failure and keeps the ownership of the image
    handle: it releases the interpreter string, destroys the ELF state and
    closes the handle.  The alternate-executable slot and the
    loader-message flag are as they were. *)
Theorem launchpad_elf_load_interpreter_failed vmo (st sth : state world)
    elf w1 path path_len w2 s :
  error (st_lp st) = NO_ERROR ->
  0 < vmo ->
  elf_load_start vmo (st_world st) = ((NO_ERROR, elf), w1) ->
  elf_load_get_interp elf vmo w1 = ((NO_ERROR, Some path, path_len), w2) ->
  handle_interp vmo path path_len (mkState (st_lp st) (st_vdso_vmo st) w2)
    = Some (s, sth) ->
  s <> NO_ERROR ->
  launchpad_elf_load vmo st =
  Some (s,
        mkState (with_error s "elf_load: handle_interp failed" (st_lp sth))
          (st_vdso_vmo sth)
          (mx_handle_close vmo (elf_load_destroy elf (free (st_world sth)))))
  /\
  special_get (special_handles (st_lp sth)) HND_EXEC_VMO
    = special_get (special_handles (st_lp st)) HND_EXEC_VMO /\
  loader_message (st_lp sth) = loader_message (st_lp st).
Proof.
  intros E Hvmo Hs Hi Hh Hne.
  pose proof (handle_interp_error _ _ _ _ _ _ Hh) as He.
  cbn [st_lp] in He.
  split; [|exact (handle_interp_failed _ _ _ _ _ _ Hh Hne)].
  unfold launchpad_elf_load.
  replace (vmo <? 0) with false by (symmetry; apply Z.ltb_ge; lia).
  replace (vmo =? MX_HANDLE_INVALID) with false
    by (symmetry; apply Z.eqb_neq; unfold MX_HANDLE_INVALID; lia).
  unfold bind at 1. unfold get_lp at 1. rewrite E. cbn [Z.eqb NO_ERROR negb].
  unfold bind at 1. unfold bind at 1. unfold call at 1. rewrite Hs.
  cbn [Z.eqb NO_ERROR negb].
  unfold bind at 1. unfold bind at 1. unfold call at 1.
  cbn [st_lp st_vdso_vmo st_world]. rewrite Hi.
  cbn [Z.eqb NO_ERROR negb].
  unfold bind at 1. unfold bind at 1. unfold bind at 1. rewrite Hh.
  replace (s =? NO_ERROR) with false by (symmetry; apply Z.eqb_neq; exact Hne).
  cbn [negb]. unfold bind at 1. unfold bind at 1. rewrite lp_error_eq.
  rewrite He, E. cbn [Z.eqb NO_ERROR]. unfold ret at 1.
  unfold bind at 1. unfold call_ at 1. unfold ret at 1.
  cbn [fst snd st_lp st_vdso_vmo st_world].
  replace (s =? NO_ERROR) with false by (symmetry; apply Z.eqb_neq; exact Hne).
  unfold ret at 1. unfold bind at 1. unfold call_ at 1. unfold ret at 1.
  unfold bind, call_, get_lp, ret.
  replace (vmo =? 0) with false by (symmetry; apply Z.eqb_neq; lia).
  cbn [negb st_lp st_vdso_vmo st_world error with_error].
  reflexivity.
Qed.

End ImageLoading.

(** ** The loader service, the vDSO and the loader message *)

Section Services.
Context {Mg : Magenta} {world elf_load_info_t : Type}
        {K : Kernel world elf_load_info_t}.

(** X16.  [loader_svc_rpc] and its buffer.  A payload that does not leave room
    for its terminator in the message buffer is refused with
    [ERR_BUFFER_TOO_SMALL] before anything is sent (not even a transaction
    id is taken).  Otherwise exactly one request goes out, of at most
    [LOADER_SVC_MSG_MAX] bytes, carrying the payload and one zero byte.  A
    failed channel call is reported by its status, or by the read status
    when the status is [ERR_CALL_FAILED]; a reply that keeps to the
    protocol is passed on: the handle when the reply's status is zero,
    the (negative) status otherwise; in both cases nothing is closed. *)
Theorem loader_svc_rpc_passes_reply :
  (forall loader_svc opcode data n (st : state world),
      loader_svc_data_size <= n ->
      loader_svc_rpc loader_svc opcode data n st
        = Some (ERR_BUFFER_TOO_SMALL, st))
  /\
  (forall loader_svc opcode data n (st : state world) txid w1 reply w2,
      n < loader_svc_data_size ->
      0 <= n <= Z.of_nat (length data) ->
      atomic_fetch_add (st_world st) = (txid, w1) ->
      mx_channel_call loader_svc (request_for txid opcode data n) w1
        = (reply, w2) ->
      rq_num_bytes (request_for txid opcode data n) <= LOADER_SVC_MSG_MAX /\
      len (rq_data (request_for txid opcode data n)) = n + 1 /\
      (rp_status reply <> NO_ERROR ->
         loader_svc_rpc loader_svc opcode data n st =
         Some (if rp_status reply =? ERR_CALL_FAILED
               then rp_read_status reply else rp_status reply,
               mkState (st_lp st) (st_vdso_vmo st) w2)) /\
      (rp_status reply = NO_ERROR -> ~ protocol_violating reply ->
         loader_svc_rpc loader_svc opcode data n st =
         Some (if rp_arg reply =? NO_ERROR
               then rp_handle reply else rp_arg reply,
               mkState (st_lp st) (st_vdso_vmo st) w2) /\
         (rp_arg reply <> NO_ERROR ->
            rp_arg reply < 0 /\ rp_handle reply = MX_HANDLE_INVALID))).
Proof.
  split.
  - intros loader_svc opcode data n st Hbig. unfold loader_svc_rpc.
    replace (loader_svc_data_size <=? n) with true
      by (symmetry; apply Z.leb_le; exact Hbig).
    reflexivity.
  - intros loader_svc opcode data n st txid w1 reply w2 Hlen Hdata Htx Hcall.
    split.
    { unfold request_for, loader_svc_data_size in *. simpl. lia. }
    split.
    { unfold request_for, len. simpl. rewrite length_app, length_take.
      simpl. lia. }
    split.
    + intros Hstatus. unfold loader_svc_rpc.
      replace (loader_svc_data_size <=? n) with false
        by (symmetry; apply Z.leb_gt; exact Hlen).
      unfold bind at 1. unfold call at 1. rewrite Htx.
      replace ((0 <=? n) && (n <=? Z.of_nat (length data))) with true
        by (symmetry; apply andb_true_iff; split; apply Z.leb_le; lia).
      cbn [negb]. unfold bind at 1. unfold call at 1.
      cbn [st_world st_lp st_vdso_vmo].
      fold (request_for txid opcode data n). rewrite Hcall.
      replace (rp_status reply =? NO_ERROR) with false
        by (symmetry; apply Z.eqb_neq; exact Hstatus).
      reflexivity.
    + intros Hstatus Hok.
      rewrite (loader_svc_rpc_replied _ _ _ _ _ _ _ _ _
                 Hlen Hdata Htx Hcall Hstatus).
      unfold protocol_violating in Hok.
      destruct (rp_reply_size reply =? sizeof_mx_loader_svc_msg_t) eqn:E1.
      2:{ apply Z.eqb_neq in E1. tauto. }
      destruct (rp_opcode reply =? LOADER_SVC_OP_STATUS) eqn:E2.
      2:{ apply Z.eqb_neq in E2. tauto. }
      destruct (rp_arg reply =? NO_ERROR) eqn:E3; cbn [negb].
      { apply Z.eqb_eq in E3. split; [reflexivity|]. intros; contradiction. }
      destruct (rp_handle reply =? MX_HANDLE_INVALID) eqn:E4.
      2:{ apply Z.eqb_neq in E3, E4. tauto. }
      destruct (0 <? rp_arg reply) eqn:E5.
      { apply Z.ltb_lt in E5. tauto. }
      cbn [negb]. split; [reflexivity|]. intros _.
      apply Z.eqb_neq in E3. apply Z.eqb_eq in E4. apply Z.ltb_ge in E5.
      unfold NO_ERROR in E3. split; [lia|exact E4].
Qed.

(** X17.  The loader service is set up once.  A service handle installed with
    [launchpad_use_loader_service] replaces the one held, which is returned
    to the caller and not closed; from then on [setup_loader_svc] finds it
    and asks [mxio_loader_service] for nothing.  Without one,
    [setup_loader_svc] asks [mxio_loader_service]: a negative answer is
    returned and the slot stays empty, any other answer is stored. *)
Theorem setup_loader_svc_once (st : state world) :
  error (st_lp st) = NO_ERROR ->
  (forall svc,
      svc <> MX_HANDLE_INVALID ->
      exists st1,
        launchpad_use_loader_service svc st
          = Some (special_get (special_handles (st_lp st)) HND_LOADER_SVC,
                  st1) /\
        st_lp st1 = with_special_handles
                      (special_set (special_handles (st_lp st))
                         HND_LOADER_SVC svc) (st_lp st) /\
        st_world st1 = st_world st /\
        setup_loader_svc st1 = Some (NO_ERROR, st1) /\
        forall svc2, exists st2,
          launchpad_use_loader_service svc2 st1 = Some (svc, st2) /\
          st_world st2 = st_world st)
  /\
  (special_get (special_handles (st_lp st)) HND_LOADER_SVC
     = MX_HANDLE_INVALID ->
   forall h w1,
     mxio_loader_service (st_world st) = (h, w1) ->
     setup_loader_svc st =
     Some (if h <? 0 then h else NO_ERROR,
           mkState
             (if h <? 0 then st_lp st
              else with_special_handles
                     (special_set (special_handles (st_lp st))
                        HND_LOADER_SVC h) (st_lp st))
             (st_vdso_vmo st) w1)).
Proof.
  intros E. split.
  - intros svc Hsvc.
    unfold launchpad_use_loader_service, bind, get_lp, modify_lp, ret.
    rewrite E. cbn [Z.eqb NO_ERROR negb]. eexists.
    split; [reflexivity|]. cbn [st_lp st_world].
    split; [reflexivity|]. split; [reflexivity|]. split.
    + unfold setup_loader_svc, bind, get_lp, ret. cbn [st_lp].
      cbn [special_handles with_special_handles special_get special_set fst].
      replace (svc =? MX_HANDLE_INVALID) with false
        by (symmetry; apply Z.eqb_neq; exact Hsvc).
      reflexivity.
    + intros svc2. cbn [st_lp error with_special_handles]. rewrite E.
      cbn [Z.eqb NO_ERROR negb]. eexists. split; reflexivity.
  - intros Hnone h w1 Hsvc.
    unfold setup_loader_svc, bind, get_lp, call, modify_lp, ret.
    rewrite Hnone. cbn [Z.eqb MX_HANDLE_INVALID negb]. rewrite Hsvc.
    destruct (h <? 0); reflexivity.
Qed.

(** X18.  The process-wide vDSO handle.  [launchpad_set_vdso_vmo] installs a
    handle and returns the one held before, without closing either and
    without touching any context.  While a valid handle is installed,
    [vdso_get_vmo] returns it and does not ask for the startup handle
    again, and [launchpad_get_vdso_vmo] hands out a duplicate of it, or the
    negative status of the duplication. *)
Theorem launchpad_set_vdso_vmo_installs h (st : state world) :
  exists st1,
    launchpad_set_vdso_vmo h st = Some (st_vdso_vmo st, st1) /\
    st_vdso_vmo st1 = h /\
    st_lp st1 = st_lp st /\
    st_world st1 = mtx_unlock (mtx_lock (st_world st)) /\
    (h <> MX_HANDLE_INVALID ->
       vdso_get_vmo st1 = Some (h, st1) /\
       forall status d w2,
         mx_handle_duplicate h (mtx_lock (st_world st1)) = ((status, d), w2) ->
         launchpad_get_vdso_vmo st1 =
         Some (if status <? 0 then status else d,
               mkState (st_lp st) h (mtx_unlock w2))).
Proof.
  unfold launchpad_set_vdso_vmo, vdso_lock, vdso_unlock, bind, call_,
    get_vdso_vmo, put_vdso_vmo, ret.
  cbn [st_lp st_vdso_vmo st_world]. eexists. split; [reflexivity|].
  cbn [st_lp st_vdso_vmo st_world].
  split; [reflexivity|]. split; [reflexivity|]. split; [reflexivity|].
  intros Hh.
  assert (Eh : (h =? MX_HANDLE_INVALID) = false)
    by (apply Z.eqb_neq; exact Hh).
  split.
  - unfold vdso_get_vmo, bind, get_vdso_vmo, ret.
    cbn [st_lp st_vdso_vmo st_world]. rewrite Eh. reflexivity.
  - intros status d w2 Hdup.
    unfold launchpad_get_vdso_vmo, vdso_get_vmo, vdso_lock, vdso_unlock,
      bind, call_, call, get_vdso_vmo, ret.
    cbn [st_lp st_vdso_vmo st_world]. rewrite Eh.
    cbn [st_lp st_vdso_vmo st_world]. rewrite Hdup.
    cbn [fst snd]. destruct (status <? 0); reflexivity.
Qed.

(** X19.  [launchpad_add_vdso_vmo] gives the new process its own handle to the
    vDSO.  With a valid process-wide vDSO handle installed, the call
    duplicates it under the lock; a failed duplication is latched with its
    negative status and nothing is added; otherwise the duplicate (never
    the process-wide handle itself) is stored in the first free slot of the
    table under the tag [MX_HND_INFO(MX_HND_TYPE_VDSO_VMO, 0)]. *)
Theorem launchpad_add_vdso_vmo_adds_duplicate (st : state world)
    status d w2 :
  ERR_NO_MEMORY < 0 ->
  error (st_lp st) = NO_ERROR ->
  table_ok (st_lp st) ->
  st_vdso_vmo st <> MX_HANDLE_INVALID ->
  mx_handle_duplicate (st_vdso_vmo st) (mtx_lock (st_world st))
    = ((status, d), w2) ->
  (status < 0 ->
     launchpad_add_vdso_vmo st =
     Some (status,
           mkState (with_error status "add_vdso_vmo: get_vdso_vmo failed"
                      (st_lp st)) (st_vdso_vmo st) (mtx_unlock w2))) /\
  (0 <= status -> 0 < d ->
     exists r st',
       launchpad_add_vdso_vmo st = Some (r, st') /\
       st_vdso_vmo st' = st_vdso_vmo st /\
       (r = NO_ERROR ->
          error (st_lp st') = NO_ERROR /\
          handle_count (st_lp st') = handle_count (st_lp st) + 1 /\
          handles (st_lp st') !! Z.to_nat (handle_count (st_lp st))
            = Some d /\
          handles_info (st_lp st') !! Z.to_nat (handle_count (st_lp st))
            = Some (MX_HND_INFO MX_HND_TYPE_VDSO_VMO 0)) /\
       (r <> NO_ERROR ->
          r = ERR_NO_MEMORY /\ error (st_lp st') = ERR_NO_MEMORY /\
          handle_count (st_lp st') = handle_count (st_lp st))).
Proof.
  intros Hnm E Hok Hv Hdup.
  assert (Ev : (st_vdso_vmo st =? MX_HANDLE_INVALID) = false)
    by (apply Z.eqb_neq; exact Hv).
  assert (Hget : launchpad_get_vdso_vmo st =
                 Some (if status <? 0 then status else d,
                       mkState (st_lp st) (st_vdso_vmo st) (mtx_unlock w2))).
  { unfold launchpad_get_vdso_vmo, vdso_get_vmo, vdso_lock, vdso_unlock,
      bind, call_, call, get_vdso_vmo, ret.
    cbn [st_lp st_vdso_vmo st_world]. rewrite Ev.
    cbn [st_lp st_vdso_vmo st_world]. rewrite Hdup.
    cbn [fst snd]. destruct (status <? 0); reflexivity. }
  assert (Hstart : launchpad_add_vdso_vmo st =
            (let vdso := if status <? 0 then status else d in
             if vdso <? 0
             then lp_error vdso "add_vdso_vmo: get_vdso_vmo failed"
             else
               s <- launchpad_add_handle vdso
                      (MX_HND_INFO MX_HND_TYPE_VDSO_VMO 0) ;;
               (if negb (s =? NO_ERROR) then call_ (mx_handle_close vdso)
                else ret tt) ;;
               ret s)
              (mkState (st_lp st) (st_vdso_vmo st) (mtx_unlock w2))).
  { unfold launchpad_add_vdso_vmo. unfold bind at 1. unfold get_lp at 1.
    rewrite E. cbn [Z.eqb NO_ERROR negb].
    unfold bind at 1. rewrite Hget. reflexivity. }
  rewrite Hstart. cbv zeta. split.
  - intros Hneg.
    replace (status <? 0) with true by (symmetry; apply Z.ltb_lt; exact Hneg).
    replace (status <? 0) with true by (symmetry; apply Z.ltb_lt; exact Hneg).
    rewrite lp_error_eq. cbn [st_lp st_vdso_vmo st_world]. rewrite E.
    reflexivity.
  - intros Hpos Hd.
    replace (status <? 0) with false by (symmetry; apply Z.ltb_ge; exact Hpos).
    replace (d <? 0) with false by (symmetry; apply Z.ltb_ge; lia).
    set (st0 := mkState (st_lp st) (st_vdso_vmo st) (mtx_unlock w2)).
    destruct (launchpad_add_handle_run d
                (MX_HND_INFO MX_HND_TYPE_VDSO_VMO 0) st0)
      as (s & st1 & st1' & Hm & Hrun & Hc & _ & _ & Hgood & Hbad);
      [unfold NO_ERROR; lia|exact E|exact Hok
      |unfold MX_HANDLE_INVALID; lia|].
    assert (Hv1 : st_vdso_vmo st1 = st_vdso_vmo st).
    { revert Hm. unfold more_handles. intros Hm. clear Hrun Hgood Hbad.
      inv_m; reflexivity. }
    unfold bind at 1. rewrite Hrun.
    destruct (Z.eq_dec s NO_ERROR) as [Es|Es].
    + destruct (Hgood Es) as (Hfit & Hlh & Hli & He & ->).
      rewrite Es. cbn [Z.eqb NO_ERROR negb]. unfold bind, ret.
      eexists _, _. split; [reflexivity|].
      cbn [st_lp st_vdso_vmo error handle_count handles handles_info
           with_handle_count with_handles_info with_handles].
      split; [exact Hv1|].
      split; [|intros; contradiction]. intros _.
      destruct Hok as (Hc0 & _). unfold len in *.
      split; [exact He|]. split; [reflexivity|].
      split; apply list_lookup_insert_eq; simpl in *; lia.
    + destruct (Hbad Es) as (Hr & He & _ & ->).
      replace (s =? NO_ERROR) with false
        by (symmetry; apply Z.eqb_neq; exact Es).
      cbn [negb]. unfold bind, call_, ret. eexists _, _.
      split; [reflexivity|]. cbn [st_lp st_vdso_vmo].
      split; [exact Hv1|].
      split; [intros; contradiction|]. intros _. repeat split; auto.
Qed.

(** X20.  [send_loader_message] is all or nothing on the context.  When it does
    not return [NO_ERROR] the context is as it was: the special handles
    remain live in it and the flag stays set.  When it returns [NO_ERROR]
    both special-handle slots are empty (the handles went with the
    message) and the loader-message flag is cleared.  The handle table and
    the sticky error are never touched. *)
Theorem send_loader_message_all_or_nothing thread ch (st st' : state world) r :
  ERR_NO_MEMORY <> NO_ERROR ->
  send_loader_message thread ch st = Some (r, st') ->
  (r <> NO_ERROR -> st_lp st' = st_lp st) /\
  (r = NO_ERROR ->
     st_lp st' = with_loader_message false
                   (with_special_handles
                      (MX_HANDLE_INVALID, MX_HANDLE_INVALID) (st_lp st))).
Proof.
  intros Hnm Hrun.
  unfold send_loader_message, lp_proc, lp_vmar in Hrun.
  inv_m.
  all: repeat match goal with
       | H : load _ _ _ = Some _ |- _ => apply load_Some in H as (? & _)
       end; subst.
  all: bool_hyps; cbn [st_lp].
  all: split; intros; try contradiction; try congruence; try reflexivity.
Qed.

End Services.

(** ** Pipes and the start sequence *)

Section StartMore.
Context {Mg : Magenta} {world elf_load_info_t : Type}
        {K : Kernel world elf_load_info_t}.

(** X21.  [launchpad_add_pipe] checks the target descriptor before it creates
    anything: a descriptor outside [0, MAX_MXIO_FD) latches
    [ERR_INVALID_ARGS] and no pipe is made.  A failure of
    [mxio_pipe_half] is latched as it is.  Otherwise the pipe's handle is
    added to the table under the tag built from the type [mxio_pipe_half]
    reported and the target descriptor, and the local descriptor is handed
    back only when that succeeded. *)
Theorem launchpad_add_pipe_checks_fd target_fd (st : state world) :
  ERR_NO_MEMORY < 0 ->
  error (st_lp st) = NO_ERROR ->
  table_ok (st_lp st) ->
  (target_fd < 0 \/ MAX_MXIO_FD <= target_fd ->
     launchpad_add_pipe target_fd st =
     Some ((ERR_INVALID_ARGS, None),
           mkState (with_error ERR_INVALID_ARGS "add_pipe: invalid target fd"
                      (st_lp st)) (st_vdso_vmo st) (st_world st)))
  /\
  (0 <= target_fd < MAX_MXIO_FD ->
   forall status h id w1,
     mxio_pipe_half (st_world st) = ((status, h, id), w1) ->
     (status < 0 ->
        launchpad_add_pipe target_fd st =
        Some ((status, None),
              mkState (with_error status "add_pipe: failed to create pipe"
                         (st_lp st)) (st_vdso_vmo st) w1)) /\
     (0 <= status -> h <> MX_HANDLE_INVALID ->
        exists r out st',
          launchpad_add_pipe target_fd st = Some ((r, out), st') /\
          (r = NO_ERROR ->
             out = Some status /\
             error (st_lp st') = NO_ERROR /\
             handle_count (st_lp st') = handle_count (st_lp st) + 1 /\
             handles (st_lp st') !! Z.to_nat (handle_count (st_lp st))
               = Some h /\
             handles_info (st_lp st') !! Z.to_nat (handle_count (st_lp st))
               = Some (MX_HND_INFO (MX_HND_INFO_TYPE id) target_fd)) /\
          (r <> NO_ERROR ->
             out = None /\ r = ERR_NO_MEMORY /\
             error (st_lp st') = ERR_NO_MEMORY /\
             handle_count (st_lp st') = handle_count (st_lp st)))).
Proof.
  intros Hnm E Hok. split.
  - intros Hfd. unfold launchpad_add_pipe.
    unfold bind at 1. unfold get_lp at 1. rewrite E.
    cbn [Z.eqb NO_ERROR negb].
    replace ((target_fd <? 0) || (MAX_MXIO_FD <=? target_fd)) with true.
    2:{ symmetry. apply orb_true_iff. destruct Hfd as [H|H].
        - left. apply Z.ltb_lt. exact H.
        - right. apply Z.leb_le. exact H. }
    unfold bind. rewrite lp_error_eq, E. reflexivity.
  - intros Hfd status h id w1 Hpipe.
    assert (Hstart : launchpad_add_pipe target_fd st =
              (if status <? 0 then
                 e <- lp_error status "add_pipe: failed to create pipe" ;;
                 ret (e, None)
               else
                 s <- launchpad_add_handle h
                        (MX_HND_INFO (MX_HND_INFO_TYPE id) target_fd) ;;
                 if s <? 0 then
                   call_ (close status) ;;
                   call_ (mx_handle_close h) ;;
                   ret (s, None)
                 else ret (NO_ERROR, Some status))
                (mkState (st_lp st) (st_vdso_vmo st) w1)).
    { unfold launchpad_add_pipe.
      unfold bind at 1. unfold get_lp at 1. rewrite E.
      cbn [Z.eqb NO_ERROR negb].
      replace ((target_fd <? 0) || (MAX_MXIO_FD <=? target_fd)) with false.
      2:{ symmetry. apply orb_false_iff. split.
          - apply Z.ltb_ge. lia.
          - apply Z.leb_gt. lia. }
      unfold bind at 1. unfold call at 1. rewrite Hpipe. reflexivity. }
    rewrite Hstart. split.
    + intros Hneg.
      replace (status <? 0) with true by (symmetry; apply Z.ltb_lt; exact Hneg).
      unfold bind. rewrite lp_error_eq. cbn [st_lp st_vdso_vmo st_world].
      rewrite E. reflexivity.
    + intros Hpos Hh.
      replace (status <? 0) with false by (symmetry; apply Z.ltb_ge; exact Hpos).
      set (st0 := mkState (st_lp st) (st_vdso_vmo st) w1).
      destruct (launchpad_add_handle_run h
                  (MX_HND_INFO (MX_HND_INFO_TYPE id) target_fd) st0)
        as (s & st1 & st1' & Hm & Hrun & Hc & _ & _ & Hgood & Hbad);
        [unfold NO_ERROR; lia|exact E|exact Hok|exact Hh|].
      unfold bind at 1. rewrite Hrun.
      destruct (Z.eq_dec s NO_ERROR) as [Es|Es].
      * destruct (Hgood Es) as (Hfit & Hlh & Hli & He & ->).
        rewrite Es. cbn [Z.ltb NO_ERROR Z.compare]. unfold ret.
        eexists _, _, _. split; [reflexivity|].
        split; [|intros; contradiction]. intros _.
        cbn [st_lp error handle_count handles handles_info
             with_handle_count with_handles_info with_handles].
        destruct Hok as (Hc0 & _). unfold len in *.
        split; [reflexivity|]. split; [exact He|]. split; [reflexivity|].
        split; apply list_lookup_insert_eq; simpl in *; lia.
      * destruct (Hbad Es) as (Hr & He & _ & ->).
        replace (s <? 0) with true by (symmetry; apply Z.ltb_lt; lia).
        unfold bind, call_, ret. eexists _, _, _. split; [reflexivity|].
        split; [intros; contradiction|]. intros _.
        cbn [st_lp]. repeat split; auto.
Qed.

(** X22.  Starting a context into which no image was loaded.  With the entry
    point still zero [prepare_start] refuses with [ERR_BAD_STATE] before it
    creates a stack or a thread or writes a message; [launchpad_start]
    latches that status, closes both ends of the channel it had created and
    returns it.  The duplicate of the process handle it made is not
    closed. *)
Theorem launchpad_start_not_loaded (st : state world)
    proc status pdup w1 to_child child_bootstrap w2 :
  ERR_BAD_STATE <> NO_ERROR ->
  error (st_lp st) = NO_ERROR ->
  entry (st_lp st) = 0 ->
  handles (st_lp st) !! 0%nat = Some proc ->
  mx_handle_duplicate proc (st_world st) = ((status, pdup), w1) ->
  0 <= status ->
  mx_channel_create w1 = ((NO_ERROR, to_child, child_bootstrap), w2) ->
  prepare_start "main" to_child (mkState (st_lp st) (st_vdso_vmo st) w2)
    = Some ((ERR_BAD_STATE, None, None),
            mkState (st_lp st) (st_vdso_vmo st) w2) /\
  launchpad_start st =
  Some (ERR_BAD_STATE,
        mkState (with_error ERR_BAD_STATE "start: prepare_start() failed"
                   (st_lp st))
                (st_vdso_vmo st)
                (mx_handle_close child_bootstrap
                   (mx_handle_close to_child w2))).
Proof.
  intros Hbs E Hentry Hproc Hdup Hstatus Hchan.
  assert (Hprep : forall name ch w,
            prepare_start name ch (mkState (st_lp st) (st_vdso_vmo st) w)
            = Some ((ERR_BAD_STATE, None, None),
                    mkState (st_lp st) (st_vdso_vmo st) w)).
  { intros name ch w. unfold prepare_start, bind, get_lp, ret.
    cbn [st_lp]. rewrite Hentry. reflexivity. }
  split; [apply Hprep|].
  unfold launchpad_start. unfold bind at 1. unfold get_lp at 1.
  rewrite E. cbn [Z.eqb NO_ERROR negb].
  unfold bind at 1. unfold lp_proc. unfold bind at 1. unfold get_lp at 1.
  rewrite (load_ok _ 0 proc) by (try lia; exact Hproc).
  unfold bind at 1. unfold call at 1. rewrite Hdup.
  replace (status <? 0) with false by (symmetry; apply Z.ltb_ge; exact Hstatus).
  unfold bind at 1. unfold call at 1. cbn [st_lp st_vdso_vmo st_world].
  rewrite Hchan. cbn [Z.eqb NO_ERROR negb].
  unfold bind at 1. rewrite Hprep.
  unfold bind at 1. unfold call_ at 1. cbn [st_lp st_vdso_vmo st_world].
  replace (ERR_BAD_STATE =? NO_ERROR) with false
    by (symmetry; apply Z.eqb_neq; exact Hbs).
  cbn [negb]. unfold bind at 1. unfold bind at 1. rewrite lp_error_eq.
  cbn [st_lp st_vdso_vmo st_world]. rewrite E. cbn [Z.eqb NO_ERROR].
  unfold ret at 1.
  replace (ERR_BAD_STATE =? NO_ERROR) with false
    by (symmetry; apply Z.eqb_neq; exact Hbs).
  unfold bind, call_, ret. reflexivity.
Qed.

(** X23.  What [launchpad_go] gives back.  Its status is never positive: a
    positive result of [launchpad_start] is a process handle and becomes
    [NO_ERROR], anything else is returned as it is.  A process handle is
    stored through [proc] only together with [NO_ERROR] and only when the
    caller passed one; the error message is stored only when the caller
    asked for it. *)
Theorem launchpad_go_result p want_proc want_errmsg (st st' : state world)
    r out msg :
  launchpad_go p want_proc want_errmsg st = Some ((r, out, msg), st') ->
  r <= NO_ERROR /\
  (forall h, out = Some h -> 0 < h /\ r = NO_ERROR /\ want_proc = true) /\
  (want_errmsg = false -> msg = None) /\
  exists h st1,
    launchpad_start st = Some (h, st1) /\
    (0 < h -> r = NO_ERROR) /\ (h <= 0 -> r = h) /\
    (want_errmsg = true -> msg = Some (errmsg (st_lp st1))).
Proof.
  unfold launchpad_go. intros Hrun.
  apply bind_inv in Hrun as (h & st1 & Hstart & Hrun).
  apply bind_inv in Hrun as (lp & st1' & Hg & Hrun).
  apply get_lp_inv in Hg as (-> & ->).
  apply bind_inv in Hrun as (res & st2 & Hres & Hrun).
  apply bind_inv in Hrun as (u & st3 & _ & Hrun).
  apply ret_inv in Hrun as (Hr & _). injection Hr as -> -> ->.
  assert (Hcase : (0 < h /\ fst res = NO_ERROR /\
                   (snd res = None \/ snd res = Some h /\ want_proc = true))
                  \/ (h <= 0 /\ res = (h, None))).
  { destruct (0 <? h) eqn:Eh.
    - apply Z.ltb_lt in Eh. left. split; [exact Eh|].
      destruct want_proc; inv_m; simpl; auto.
    - apply Z.ltb_ge in Eh. right. split; [exact Eh|].
      inv_m. reflexivity. }
  split.
  { destruct Hcase as [(_ & -> & _)|(Hle & ->)]; simpl; unfold NO_ERROR; lia. }
  split.
  { intros h' Hout.
    destruct Hcase as [(Hpos & Hr & [Hn|(Hs & Hw)])|(_ & ->)];
      simpl in *; try congruence.
    rewrite Hs in Hout. injection Hout as <-. auto. }
  split.
  { intros ->. reflexivity. }
  exists h, st1. split; [exact Hstart|].
  split.
  { intros Hpos. destruct Hcase as [(_ & Hr & _)|(Hle & _)]; [exact Hr|lia]. }
  split.
  { intros Hle. destruct Hcase as [(Hpos & _)|(_ & ->)]; [lia|reflexivity]. }
  intros ->. reflexivity.
Qed.

(** The steps of [prepare_start], from a context that is not in error: a
    step that returns early returns a failure, and from the moment the
    thread exists the last thing a failing step does to the world is to
    close the thread handle. *)
Lemma prepare_start_stack_early (st st' : state world) e sp :
  error (st_lp st) = NO_ERROR ->
  prepare_start_stack st = Some ((Some e, sp), st') ->
  e <> NO_ERROR.
Proof.
  unfold prepare_start_stack, lp_vmar. intros E0 Hrun.
  inv_m.
  all: repeat match goal with
       | H : load _ _ _ = Some _ |- _ => apply load_Some in H as (? & _)
       | H : launchpad_add_handle _ _ _ = Some _ |- _ =>
           apply launchpad_add_handle_status in H as (? & _)
       end; subst.
  all: bool_hyps; cbn [st_lp] in *.
  all: try rewrite E0; cbn [Z.eqb NO_ERROR]; unfold NO_ERROR in *; try lia.
  all: repeat match goal with
       | |- context [if ?b then _ else _] => destruct b eqn:?
       end; bool_hyps; unfold NO_ERROR in *; try lia; try congruence.
Qed.

Lemma prepare_start_thread_early name (st st' : state world) e thread :
  error (st_lp st) = NO_ERROR ->
  prepare_start_thread name st = Some ((Some e, thread), st') ->
  e <> NO_ERROR /\
  ((exists w, st_world st' = mx_handle_close thread w) \/
   (exists p, mx_thread_create p name (st_world st)
                = ((e, thread), st_world st') /\ e < 0)).
Proof.
  unfold prepare_start_thread, lp_proc. intros E0 Hrun.
  inv_m.
  all: repeat match goal with
       | H : load _ _ _ = Some _ |- _ => apply load_Some in H as (? & _)
       | H : launchpad_add_handle _ _ _ = Some _ |- _ =>
           apply launchpad_add_handle_status in H as (? & _)
       end; subst.
  all: bool_hyps; cbn [st_lp st_world] in *.
  all: try rewrite E0; cbn [Z.eqb NO_ERROR]; unfold NO_ERROR in *.
  - split; [lia|]. right. eexists. split; [eassumption|lia].
  - split; [lia|]. left. eexists. reflexivity.
  - split; [assumption|]. left. eexists. reflexivity.
Qed.

Lemma prepare_start_loader_early thread ch (st st' : state world) e :
  error (st_lp st) = NO_ERROR ->
  prepare_start_loader thread ch st = Some (Some e, st') ->
  e <> NO_ERROR /\ exists w, st_world st' = mx_handle_close thread w.
Proof.
  unfold prepare_start_loader. intros E0 Hrun.
  inv_m.
  match goal with
  | H : send_loader_message _ _ _ = Some _ |- _ =>
      apply send_loader_message_error in H
  end.
  bool_hyps. cbn [st_lp st_world] in *.
  match goal with
  | H : error _ = error _ |- _ => rewrite H, E0
  end.
  cbn [Z.eqb NO_ERROR]. split; [assumption|]. eexists. reflexivity.
Qed.

Lemma prepare_start_procargs_result thread ch (st st' : state world) r :
  ERR_NO_MEMORY <> NO_ERROR ->
  ERR_BUFFER_TOO_SMALL <> NO_ERROR ->
  error (st_lp st) = NO_ERROR ->
  prepare_start_procargs thread ch st = Some (r, st') ->
  (r = NO_ERROR /\ handle_count (st_lp st') = 0 /\
   error (st_lp st') = NO_ERROR /\ entry (st_lp st') = entry (st_lp st))
  \/
  (r <> NO_ERROR /\ exists w, st_world st' = mx_handle_close thread w).
Proof.
  unfold prepare_start_procargs. intros Hnm Hbts E0 Hrun.
  apply bind_inv in Hrun as (m & st1 & Hb & Hrun).
  apply build_message_lp in Hb as (Hlp & _ & _).
  destruct m as [msg|]; inv_m.
  all: repeat match goal with
       | H : load_n _ _ _ = Some _ |- _ => apply load_n_Some in H as (? & ? & _)
       end; subst.
  all: bool_hyps; cbn [st_lp st_world] in *.
  all: try rewrite Hlp; try rewrite E0; cbn [Z.eqb NO_ERROR].
  - right. split; [assumption|]. eexists. reflexivity.
  - left. cbn [handle_count error entry with_handle_count with_handles].
    auto.
  - right. split; [assumption|]. eexists. reflexivity.
  - right. split; [assumption|]. eexists. reflexivity.
Qed.

(** The outcome of [prepare_start] on a context that is not in error. *)
Lemma prepare_start_outcome name ch (st st' : state world) status thread sp :
  ERR_BAD_STATE <> NO_ERROR ->
  ERR_NO_MEMORY <> NO_ERROR ->
  ERR_BUFFER_TOO_SMALL <> NO_ERROR ->
  error (st_lp st) = NO_ERROR ->
  prepare_start name ch st = Some ((status, thread, sp), st') ->
  (status = NO_ERROR /\ handle_count (st_lp st') = 0 /\
   error (st_lp st') = NO_ERROR /\ entry (st_lp st) <> 0 /\
   (exists t, thread = Some t) /\ (exists p, sp = Some p))
  \/
  (status <> NO_ERROR /\
   forall t, thread = Some t ->
     (exists w, st_world st' = mx_handle_close t w) \/
     (exists p w0, mx_thread_create p name w0 = ((status, t), st_world st') /\
                   status < 0)).
Proof.
  intros Hbs Hnm Hbts E0. unfold prepare_start. intros Hrun.
  apply bind_inv in Hrun as (lp & st0 & Hg & Hrun).
  apply get_lp_inv in Hg as (-> & ->).
  destruct (entry (st_lp st) =? 0) eqn:Eentry.
  { inv_m. right. split; [exact Hbs|]. intros t Ht. discriminate. }
  apply Z.eqb_neq in Eentry.
  apply bind_inv in Hrun as ([early sp1] & st1 & H1 & Hrun).
  pose proof (prepare_start_stack_error _ _ _ _ E0 H1) as I1.
  destruct early as [e|].
  { pose proof (prepare_start_stack_early _ _ _ _ E0 H1) as Hne.
    inv_m. right. split; [exact Hne|]. intros t Ht. discriminate. }
  apply bind_inv in Hrun as ([early t] & st2 & H2 & Hrun).
  pose proof (prepare_start_thread_error _ _ _ _ _ I1 H2) as I2.
  destruct early as [e|].
  { destruct (prepare_start_thread_early _ _ _ _ _ I1 H2) as (Hne & Hw).
    inv_m. right. split; [exact Hne|]. intros t' [= <-].
    destruct Hw as [Hw|(p & Hc & Hlt)]; [left; exact Hw|].
    right. exists p, (st_world st1). split; assumption. }
  apply bind_inv in Hrun as (early & st3 & H3 & Hrun).
  pose proof (prepare_start_loader_error _ _ _ _ _ I2 H3) as I3.
  destruct early as [e|].
  { destruct (prepare_start_loader_early _ _ _ _ _ I2 H3) as (Hne & Hw).
    inv_m. right. split; [exact Hne|]. intros t' [= <-]. left. exact Hw. }
  apply bind_inv in Hrun as (s & st4 & H4 & Hrun).
  destruct (prepare_start_procargs_result _ _ _ _ _ Hnm Hbts I3 H4)
    as [(Hs & Hc & He & _)|(Hne & Hw)]; inv_m.
  - left. repeat split; eauto.
  - right. split; [exact Hne|]. intros t' [= <-]. left. exact Hw.
Qed.

(** X24.  [prepare_start] does not leak the thread.  From a context that is not
    in error it either returns [NO_ERROR], and then the handle table is
    empty (its handles went with the bootstrap message) and the context is
    still not in error; or it returns a failure, and then, if a thread
    handle has been written to the caller, either the last thing done to
    the world was to close that handle, or [mx_thread_create] itself had
    failed with the status returned. *)
Theorem prepare_start_releases_thread name ch (st st' : state world)
    status thread sp :
  ERR_BAD_STATE <> NO_ERROR ->
  ERR_NO_MEMORY <> NO_ERROR ->
  ERR_BUFFER_TOO_SMALL <> NO_ERROR ->
  error (st_lp st) = NO_ERROR ->
  prepare_start name ch st = Some ((status, Some thread, sp), st') ->
  (status = NO_ERROR /\ handle_count (st_lp st') = 0 /\
   error (st_lp st') = NO_ERROR)
  \/
  (status <> NO_ERROR /\
   ((exists w, st_world st' = mx_handle_close thread w) \/
    (exists p w0,
       mx_thread_create p name w0 = ((status, thread), st_world st') /\
       status < 0))).
Proof.
  intros Hbs Hnm Hbts E0 Hrun.
  destruct (prepare_start_outcome _ _ _ _ _ _ _ Hbs Hnm Hbts E0 Hrun)
    as [(Hs & Hc & He & _)|(Hne & Hw)].
  - left. auto.
  - right. split; [exact Hne|]. apply Hw. reflexivity.
Qed.


(** What the steps before the bootstrap message leave of the sizes the
    message is made of. *)
Lemma more_handles_sizes n (st st' : state world) r :
  more_handles n st = Some (r, st') ->
  handle_count (st_lp st') = handle_count (st_lp st) /\
  args_len (st_lp st') = args_len (st_lp st) /\
  env_len (st_lp st') = env_len (st_lp st) /\
  stack_size (st_lp st') = stack_size (st_lp st).
Proof.
  unfold more_handles. intros Hrun. inv_m; cbn [st_lp].
  all: repeat match goal with
       | |- context [if ?b then _ else _] => destruct b
       end; simpl; auto.
Qed.

Lemma launchpad_add_handle_sizes h id (st st' : state world) r :
  launchpad_add_handle h id st = Some (r, st') ->
  args_len (st_lp st') = args_len (st_lp st) /\
  env_len (st_lp st') = env_len (st_lp st) /\
  stack_size (st_lp st') = stack_size (st_lp st) /\
  (handle_count (st_lp st') = handle_count (st_lp st) \/
   handle_count (st_lp st') = wrap64 (handle_count (st_lp st) + 1)).
Proof.
  unfold launchpad_add_handle. intros Hrun.
  destruct (h =? MX_HANDLE_INVALID).
  { inv_m. cbn [st_lp]. destruct (error (st_lp st) =? NO_ERROR); simpl; auto. }
  apply bind_inv in Hrun as (s & st1 & Hm & Hrun).
  apply more_handles_sizes in Hm as (Hc & Ha & He & Hs).
  inv_m.
  all: repeat match goal with
       | H : store _ _ _ _ = Some _ |- _ => apply store_Some in H as (? & ? & _)
       end; subst; cbn [st_lp]; simpl.
  - rewrite Hc. auto.
  - auto.
Qed.

Lemma send_loader_message_sizes thread ch (st st' : state world) r :
  send_loader_message thread ch st = Some (r, st') ->
  handle_count (st_lp st') = handle_count (st_lp st) /\
  args_len (st_lp st') = args_len (st_lp st) /\
  env_len (st_lp st') = env_len (st_lp st) /\
  stack_size (st_lp st') = stack_size (st_lp st).
Proof.
  unfold send_loader_message, lp_proc, lp_vmar. intros Hrun.
  inv_m.
  all: repeat match goal with
       | H : load _ _ _ = Some _ |- _ => apply load_Some in H as (? & _)
       end; subst; cbn [st_lp]; simpl; auto.
Qed.

Lemma prepare_start_procargs_fits thread ch (st st' : state world) :
  ERR_NO_MEMORY <> NO_ERROR ->
  ERR_BUFFER_TOO_SMALL <> NO_ERROR ->
  error (st_lp st) = NO_ERROR ->
  prepare_start_procargs thread ch st = Some (NO_ERROR, st') ->
  wrap64 (sizeof_mx_proc_args_t + handle_count (st_lp st) * sizeof_uint32
          + args_len (st_lp st) + env_len (st_lp st))
    <= stack_size (st_lp st) / 2.
Proof.
  unfold prepare_start_procargs. intros Hnm Hbts E0 Hrun.
  apply bind_inv in Hrun as (m & st1 & Hb & Hrun).
  apply build_message_lp in Hb as (Hlp & _ & Hsize).
  destruct m as [msg|].
  - rewrite <- (Hsize msg eq_refl). inv_m.
    all: bool_hyps; cbn [st_lp] in *.
    all: try rewrite Hlp in *; try rewrite E0 in *.
    all: cbn [Z.eqb NO_ERROR] in *; try congruence; try lia.
  - inv_m. cbn [st_lp] in *.
    try rewrite Hlp in *; try rewrite E0 in *.
    cbn [Z.eqb NO_ERROR] in *. congruence.
Qed.

(** X26.  A stack size of zero and the bootstrap message.  [prepare_start]
    accepts the message only if its size is at most half the stack size;
    with a stack size of zero no message passes, since even an empty one
    has its header.  So on a context whose stack size has been set to
    zero [launchpad_start_injected] never returns [NO_ERROR]: the call
    fails (with [ERR_BUFFER_TOO_SMALL] if nothing failed before) and
    leaves the context in error. *)
Theorem launchpad_start_injected_zero_stack name ch bootstrap
    (st st' : state world) r :
  ERR_BAD_STATE <> NO_ERROR ->
  ERR_NO_MEMORY <> NO_ERROR ->
  ERR_BAD_HANDLE <> NO_ERROR ->
  ERR_BUFFER_TOO_SMALL <> NO_ERROR ->
  0 < sizeof_mx_proc_args_t ->
  error (st_lp st) = NO_ERROR ->
  stack_size (st_lp st) = 0 ->
  0 <= handle_count (st_lp st) ->
  0 <= args_len (st_lp st) -> 0 <= env_len (st_lp st) ->
  sizeof_mx_proc_args_t + (handle_count (st_lp st) + 1) * sizeof_uint32
    + args_len (st_lp st) + env_len (st_lp st) < 2 ^ 64 ->
  launchpad_start_injected name ch bootstrap st = Some (r, st') ->
  r <> NO_ERROR /\ error (st_lp st') <> NO_ERROR.
Proof.
  intros Hbs Hnm Hbh Hbts Hhdr E0 Hstack Hc Ha He Hsmall Hrun.
  unfold sizeof_uint32 in *.
  unfold launchpad_start_injected in Hrun.
  apply bind_inv in Hrun as (lp & st0 & Hg & Hrun).
  apply get_lp_inv in Hg as (-> & ->).
  rewrite E0 in Hrun. cbn [Z.eqb NO_ERROR negb] in Hrun.
  apply bind_inv in Hrun as ([[status thread] sp] & st1 & Hprep & Hrun).
  destruct (status =? NO_ERROR) eqn:Es; cbn [negb] in Hrun.
  2:{ apply Z.eqb_neq in Es.
      apply bind_inv in Hrun as (e & st2 & Hle & Hrun).
      rewrite lp_error_eq in Hle. inv_m. split; [exact Es|].
      cbn [st_lp]. destruct (error (st_lp st1) =? NO_ERROR) eqn:E1;
        cbn [error with_error]; [exact Es|].
      apply Z.eqb_neq in E1. exact E1. }
  exfalso. apply Z.eqb_eq in Es. subst status. clear Hrun.
  unfold prepare_start in Hprep.
  apply bind_inv in Hprep as (lp & st0 & Hg & Hprep).
  apply get_lp_inv in Hg as (-> & ->).
  destruct (entry (st_lp st) =? 0).
  { inv_m; congruence. }
  apply bind_inv in Hprep as ([early sp1] & sta & H1 & Hprep).
  assert (Hsta : early = None /\ sta = st).
  { revert H1. unfold prepare_start_stack, bind, get_lp, ret.
    rewrite Hstack. cbn [Z.ltb Z.compare]. intros [= <- _ <-]. auto. }
  destruct Hsta as (-> & ->).
  apply bind_inv in Hprep as ([early t] & stb & H2 & Hprep).
  pose proof (prepare_start_thread_error _ _ _ _ _ E0 H2) as I2.
  destruct early as [e|].
  { destruct (prepare_start_thread_early _ _ _ _ _ E0 H2) as (Hne & _).
    inv_m; congruence. }
  assert (Hb : handle_count (st_lp stb) = handle_count (st_lp st) + 1 /\
               args_len (st_lp stb) = args_len (st_lp st) /\
               env_len (st_lp stb) = env_len (st_lp st) /\
               stack_size (st_lp stb) = stack_size (st_lp st)).
  { clear Hprep. revert H2. unfold prepare_start_thread, lp_proc. intros H2.
    inv_m.
    match goal with
    | H : launchpad_add_handle _ _ _ = Some (?s, _) |- _ =>
        pose proof (launchpad_add_handle_status _ _ _ _ _ H) as (Hs & _);
        pose proof (launchpad_add_handle_sizes _ _ _ _ _ H)
          as (Hal & Hel & Hss & Hcount)
    end.
    repeat match goal with
    | H : load _ _ _ = Some _ |- _ => apply load_Some in H as (? & _)
    end; subst. cbn [st_lp] in *. bool_hyps.
    split; [|auto].
    destruct Hcount as [Hsame|Hinc].
    - exfalso.
      match goal with
      | H : launchpad_add_handle ?h ?id ?s = Some _ |- _ =>
          revert H; unfold launchpad_add_handle
      end.
      destruct (_ =? MX_HANDLE_INVALID).
      + rewrite lp_error_eq. cbn [st_lp]. rewrite E0. cbn [Z.eqb NO_ERROR].
        intros [= Hr _]. congruence.
      + intros H. apply bind_inv in H as (s & stm & Hm & H).
        apply more_handles_sizes in Hm as (Hcm & _).
        destruct (s =? NO_ERROR) eqn:Esm.
        * inv_m.
          repeat match goal with
          | H : store _ _ _ _ = Some _ |- _ =>
              apply store_Some in H as (? & ? & ?)
          end; subst. cbn [st_lp handle_count with_handle_count] in *.
          cbn [st_lp] in Hcm. rewrite Hcm in Hsame.
          rewrite wrap64_small in Hsame by lia. lia.
        * inv_m. bool_hyps. congruence.
    - rewrite Hinc. apply wrap64_small. lia. }
  destruct Hb as (Hcb & Hab & Heb & Hsb).
  apply bind_inv in Hprep as (early & stc & H3 & Hprep).
  pose proof (prepare_start_loader_error _ _ _ _ _ I2 H3) as I3.
  destruct early as [e|].
  { destruct (prepare_start_loader_early _ _ _ _ _ I2 H3) as (Hne & _).
    inv_m; congruence. }
  assert (Hcs : handle_count (st_lp stc) = handle_count (st_lp stb) /\
               args_len (st_lp stc) = args_len (st_lp stb) /\
               env_len (st_lp stc) = env_len (st_lp stb) /\
               stack_size (st_lp stc) = stack_size (st_lp stb)).
  { clear Hprep. revert H3. unfold prepare_start_loader. intros H3.
    inv_m; auto.
    match goal with
    | H : send_loader_message _ _ _ = Some _ |- _ =>
        apply send_loader_message_sizes in H
    end. assumption. }
  destruct Hcs as (Hcc & Hac & Hec & Hsc).
  apply bind_inv in Hprep as (s & std & H4 & Hprep).
  inv_m.
  pose proof (prepare_start_procargs_fits _ _ _ _ Hnm Hbts I3 H4) as Hfit.
  rewrite Hcc, Hac, Hec, Hsc, Hcb, Hab, Heb, Hsb, Hstack in Hfit.
  unfold sizeof_uint32 in Hfit. rewrite wrap64_small in Hfit by lia.
  change (0 / 2) with 0 in Hfit. lia.
Qed.

End StartMore.

(** ** The further properties on runs of the scripted kernel *)

Section MoreRuns.

#[local] Existing Instance magenta_x86_64.
#[local] Existing Instance plain_kernel.

Lemma table_ok_created : table_ok (st_lp created).
Proof. unfold table_ok. vm_compute. repeat split; congruence. Qed.

Lemma launchpad_add_handle_appends_witness :
  exists r st1 st',
    more_handles 1 created = Some (r, st1) /\
    launchpad_add_handle 5 1 created = Some (r, st') /\
    (forall i : nat, Z.of_nat i < handle_count (st_lp created) ->
       handles (st_lp st') !! i = handles (st_lp created) !! i /\
       handles_info (st_lp st') !! i = handles_info (st_lp created) !! i) /\
    (r = NO_ERROR ->
       error (st_lp st') = NO_ERROR /\
       handle_count (st_lp st') = handle_count (st_lp created) + 1 /\
       handle_count (st_lp st') <= handle_alloc (st_lp st') /\
       handle_alloc (st_lp st') <= len (handles (st_lp st')) /\
       handle_alloc (st_lp st') <= len (handles_info (st_lp st')) /\
       handles (st_lp st') !! Z.to_nat (handle_count (st_lp created))
         = Some 5 /\
       handles_info (st_lp st') !! Z.to_nat (handle_count (st_lp created))
         = Some 1 /\
       st_world st' = st_world st1) /\
    (r <> NO_ERROR ->
       r = ERR_NO_MEMORY /\
       error (st_lp st') = ERR_NO_MEMORY /\
       handle_count (st_lp st') = handle_count (st_lp created) /\
       st_world st' = mx_handle_close 5 (st_world st1)).
Proof.
  apply (launchpad_add_handle_appends 5 1 created).
  - discriminate.
  - vm_compute; reflexivity.
  - exact table_ok_created.
  - discriminate.
Defined.

Lemma launchpad_add_handles_stores_witness :
  exists r st',
    launchpad_add_handles 3 [5; 6; 7] [1; 2; 3] created = Some (r, st') /\
    (r = NO_ERROR ->
       (MX_HANDLE_INVALID ∉ take (Z.to_nat 3) [5; 6; 7]) /\
       error (st_lp st') = NO_ERROR /\
       handle_count (st_lp st') = handle_count (st_lp created) + 3 /\
       handle_count (st_lp st') <= handle_alloc (st_lp st') /\
       handle_alloc (st_lp st') <= len (handles (st_lp st')) /\
       handle_alloc (st_lp st') <= len (handles_info (st_lp st')) /\
       take (Z.to_nat 3)
            (drop (Z.to_nat (handle_count (st_lp created)))
                  (handles (st_lp st')))
         = take (Z.to_nat 3) [5; 6; 7] /\
       take (Z.to_nat 3)
            (drop (Z.to_nat (handle_count (st_lp created)))
                  (handles_info (st_lp st')))
         = take (Z.to_nat 3) [1; 2; 3] /\
       (forall i : nat, Z.of_nat i < handle_count (st_lp created) ->
          handles (st_lp st') !! i = handles (st_lp created) !! i /\
          handles_info (st_lp st') !! i = handles_info (st_lp created) !! i)).
Proof.
  apply (launchpad_add_handles_stores 3 [5; 6; 7] [1; 2; 3] created).
  - discriminate.
  - discriminate.
  - vm_compute; reflexivity.
  - exact table_ok_created.
  - vm_compute. split; discriminate.
  - vm_compute. discriminate.
  - vm_compute. discriminate.
Defined.

Lemma launchpad_destroy_closes_in_use_witness :
  launchpad_destroy LpHeap created =
  Some (tt,
        mkState (st_lp created) (st_vdso_vmo created)
          (free (free (free (free (free
             (close_world (valid_handles (in_use (st_lp created)))
                (close_world
                   (valid_handles
                      [special_get (special_handles (st_lp created))
                         HND_LOADER_SVC;
                       special_get (special_handles (st_lp created))
                         HND_EXEC_VMO])
                   (st_world created))))))))) /\
  events (close_world (valid_handles (in_use (st_lp created)))
            (st_world created))
    = [EvHandleClose 11; EvHandleClose 10].
Proof.
  split.
  - apply (launchpad_destroy_closes_in_use created).
    vm_compute. split; discriminate.
  - vm_compute; reflexivity.
Defined.

Lemma more_handles_keeps_table_witness :
  NO_ERROR = error (st_lp (mkState
     (mkLaunchpad 0 0 None 0 None 0
        [10; 11; 57005; 57005; 57005; 57005; 57005; 57005;
         57005; 57005; 57005; 57005; 57005; 57005; 57005; 57005]
        [1; 4; 57005; 57005; 57005; 57005; 57005; 57005;
         57005; 57005; 57005; 57005; 57005; 57005; 57005; 57005]
        2 16 "no error" 0 0 0 0 262144 (0, 0) false)
     0 (mkTrace [] 5))) /\
  handle_alloc (st_lp created) = 8 /\
  grown (handle_alloc (st_lp created)) = 16.
Proof.
  pose proof (more_handles_keeps_table 7 created
    (mkState
       (mkLaunchpad 0 0 None 0 None 0
          [10; 11; 57005; 57005; 57005; 57005; 57005; 57005;
           57005; 57005; 57005; 57005; 57005; 57005; 57005; 57005]
          [1; 4; 57005; 57005; 57005; 57005; 57005; 57005;
           57005; 57005; 57005; 57005; 57005; 57005; 57005; 57005]
          2 16 "no error" 0 0 0 0 262144 (0, 0) false)
       0 (mkTrace [] 5))
    NO_ERROR eq_refl table_ok_created eq_refl) as (Hr & _).
  split; [exact Hr|]. split; reflexivity.
Defined.

Lemma launchpad_create_with_process_holds_witness :
  exists r p st',
    launchpad_create_with_process 10 11 (start_state zeroed_launchpad)
      = Some ((r, p), st') /\
    r = error (st_lp st') /\
    (r = NO_ERROR ->
       p = LpHeap /\
       10 <> MX_HANDLE_INVALID /\ 11 <> MX_HANDLE_INVALID /\
       launchpad_get_process_handle st' = Some (10, st') /\
       launchpad_get_root_vmar_handle st' = Some (11, st') /\
       handle_count (st_lp st') = 2 /\
       in_use (st_lp st') = [10; 11] /\
       in_use_info (st_lp st') = [MX_HND_TYPE_PROC_SELF; MX_HND_TYPE_VMAR_ROOT] /\
       stack_size (st_lp st') = MAGENTA_DEFAULT_STACK_SIZE /\
       errmsg (st_lp st') = "no error"%string).
Proof.
  apply (launchpad_create_with_process_holds 10 11
           (start_state zeroed_launchpad)); discriminate.
Defined.

Lemma launchpad_create_with_jobs_reports_failure_witness :
  exists r p st',
    launchpad_create_with_jobs (K := failing (-4)) 3 1003 "app"
      (start_state zeroed_launchpad) = Some ((r, p), st') /\
    r <> NO_ERROR /\
    r = error (st_lp st') /\
    r = ERR_BAD_HANDLE /\
    events (st_world st') = [EvHandleClose 1003].
Proof.
  destruct (launchpad_create_with_jobs (K := failing (-4)) 3 1003 "app"
              (start_state zeroed_launchpad))
    as [[[r p] st']|] eqn:Hrun; [|vm_compute in Hrun; discriminate Hrun].
  exists r, p, st'. split; [reflexivity|].
  destruct (launchpad_create_with_jobs_reports_failure (K := failing (-4))
              3 1003 "app" (start_state zeroed_launchpad)
              st' r p (-4) MX_HANDLE_INVALID MX_HANDLE_INVALID fresh_trace
              eq_refl eq_refl Hrun) as (Hne & Hr & _).
  split; [exact Hne|]. split; [exact Hr|].
  vm_compute in Hrun. injection Hrun as <- <- <-. split; reflexivity.
Defined.

Lemma launchpad_abort_latches_witness :
  exists st',
    launchpad_abort 7 "caller gave up" created = Some (tt, st') /\
    error (st_lp st') <> NO_ERROR /\
    launchpad_get_status st' = Some (error (st_lp st'), st') /\
    (error (st_lp created) = NO_ERROR ->
       st' = mkState (with_error (if 7 <? 0 then 7 else ERR_INTERNAL)
                        "caller gave up" (st_lp created))
                     (st_vdso_vmo created) (st_world created)) /\
    (error (st_lp created) <> NO_ERROR -> st' = created).
Proof.
  apply (launchpad_abort_latches 7 "caller gave up" created).
  vm_compute; reflexivity.
Defined.

Ltac nul_free_list :=
  repeat constructor; unfold nul_free; simpl;
  let H := fresh "H" in
  intros H; repeat (destruct H as [H|H]; [discriminate H|]); exact H.

Lemma launchpad_set_environ_round_trip_witness :
  exists st',
    launchpad_set_environ (Some (map stable ["X=1"; "PATH=/bin"]%string))
      created = Some (NO_ERROR, st') /\
    envc (st_lp st') = len ["X=1"; "PATH=/bin"]%string /\
    env_len (st_lp st') = serialized_length ["X=1"; "PATH=/bin"]%string /\
    len (buf_bytes (env (st_lp st')))
      = serialized_length ["X=1"; "PATH=/bin"]%string /\
    split_nul (buf_bytes (env (st_lp st'))) = ["X=1"; "PATH=/bin"]%string /\
    st_lp st' = with_env (envc (st_lp st')) (env (st_lp st'))
                  (env_len (st_lp st')) (st_lp created) /\
    (["X=1"; "PATH=/bin"]%string = [] ->
     launchpad_set_environ None created = Some (NO_ERROR, st')).
Proof.
  apply (launchpad_set_environ_round_trip ["X=1"; "PATH=/bin"]%string created).
  - vm_compute; reflexivity.
  - nul_free_list.
  - vm_compute. reflexivity.
  - vm_compute. reflexivity.
  - vm_compute; reflexivity.
Defined.

Lemma launchpad_set_args_failure_keeps_witness :
  ERR_INVALID_ARGS
    = error (with_error ERR_INVALID_ARGS "arguments: negative argc"
               (st_lp created)) /\
  st_lp created
    = with_args (argc (st_lp created)) (args (st_lp created))
        (args_len (st_lp created))
        (with_error (error (st_lp created)) (errmsg (st_lp created))
           (with_error ERR_INVALID_ARGS "arguments: negative argc"
              (st_lp created))) /\
  (ERR_INVALID_ARGS <> NO_ERROR ->
     argc (with_error ERR_INVALID_ARGS "arguments: negative argc"
             (st_lp created)) = argc (st_lp created) /\
     args (with_error ERR_INVALID_ARGS "arguments: negative argc"
             (st_lp created)) = args (st_lp created) /\
     args_len (with_error ERR_INVALID_ARGS "arguments: negative argc"
                 (st_lp created)) = args_len (st_lp created)).
Proof.
  apply (proj1 launchpad_set_args_failure_keeps (-1) [] created
           (mkState (with_error ERR_INVALID_ARGS "arguments: negative argc"
                       (st_lp created))
                    (st_vdso_vmo created) (st_world created))
           ERR_INVALID_ARGS).
  vm_compute; reflexivity.
Defined.

Lemma build_message_carries_strings_witness :
  exists msg st',
    (launchpad_set_args (len ["a"; "bb"]%string)
       (map stable ["a"; "bb"]%string) ;;
     launchpad_set_environ (Some (map stable ["X=1"]%string)) ;;
     build_message) created = Some (Some msg, st') /\
    pa_args_num msg = len ["a"; "bb"]%string /\
    pa_environ_num msg = len ["X=1"]%string /\
    split_nul (pa_strings msg) = ["a"; "bb"]%string ++ ["X=1"]%string /\
    pa_handle_info msg = in_use_info (st_lp created) /\
    pa_handle_info_off msg = sizeof_mx_proc_args_t /\
    (["a"; "bb"]%string <> [] ->
       pa_args_off msg
         = pa_handle_info_off msg + len (pa_handle_info msg) * sizeof_uint32) /\
    (["X=1"]%string <> [] ->
       pa_environ_off msg
         = pa_handle_info_off msg + len (pa_handle_info msg) * sizeof_uint32
           + serialized_length ["a"; "bb"]%string) /\
    pa_size msg
      = pa_handle_info_off msg + len (pa_handle_info msg) * sizeof_uint32
        + len (pa_strings msg).
Proof.
  apply (build_message_carries_strings ["a"; "bb"]%string ["X=1"]%string
           created).
  - vm_compute; reflexivity.
  - intros n w. reflexivity.
  - nul_free_list.
  - nul_free_list.
  - vm_compute. reflexivity.
  - vm_compute. discriminate.
  - vm_compute. split; discriminate.
  - vm_compute. reflexivity.
Defined.

Lemma launchpad_set_stack_size_settles_witness :
  exists st1,
    launchpad_set_stack_size 5000 created
      = Some (stack_size (st_lp created), st1) /\
    launchpad_set_stack_size (stack_size (st_lp st1)) st1
      = Some (stack_size (st_lp st1), st1) /\
    (forall larger st2 old,
        5000 <= larger <= SIZE_MAX ->
        launchpad_set_stack_size larger created = Some (old, st2) ->
        stack_size (st_lp st1) <= stack_size (st_lp st2)).
Proof.
  apply (launchpad_set_stack_size_settles 5000 created).
  - vm_compute. split; [discriminate|reflexivity].
  - vm_compute; reflexivity.
  - vm_compute. split; discriminate.
Defined.

Lemma launchpad_elf_load_static_witness :
  exists st',
    launchpad_elf_load 80 created = Some (NO_ERROR, st') /\
    st_lp st' =
      with_stack_size
        (if 0 <? 0 then page_rounded 0 else stack_size (st_lp created))
        (with_loader_message false
           (with_entry (80 * 65536 + 4096)
              (with_base (80 * 65536) (st_lp created)))) /\
    st_vdso_vmo st' = st_vdso_vmo created /\
    st_world st' =
      mx_handle_close 80 (elf_load_destroy 80 (mkTrace [EvElfFinish 80] 3)) /\
    (80 * 65536 + 4096 <> 0 ->
       launchpad_get_entry_address st'
         = Some ((NO_ERROR, Some (80 * 65536 + 4096)), st')) /\
    (80 * 65536 <> 0 ->
       launchpad_get_base_address st'
         = Some ((NO_ERROR, Some (80 * 65536)), st')).
Proof.
  apply (launchpad_elf_load_static 80 created 80 (mkTrace [] 3) 0
           (mkTrace [] 3) 11 (80 * 65536) (80 * 65536 + 4096)
           (mkTrace [EvElfFinish 80] 3) 0 (mkTrace [EvElfFinish 80] 3));
    vm_compute; reflexivity.
Defined.

Lemma launchpad_load_from_file_open_failed_witness :
  exists st',
    launchpad_load_from_file (K := failing (-25)) "bin/app" created
      = Some (-25, st') /\
    st_lp st' = with_error (-25) "elf_load: negative vmo" (st_lp created).
Proof.
  apply (proj1 (launchpad_load_from_file_open_failed (K := failing (-25)))
           "bin/app"%string created (-25) (st_world created));
    vm_compute; reflexivity.
Defined.

Lemma launchpad_elf_load_extra_keeps_main_witness :
  exists r st',
    launchpad_elf_load_extra 81 0 0 (ready 5) = Some (r, st') /\
    fst (fst r) = error (st_lp st') /\
    st_lp (ready 5)
      = with_error (error (st_lp (ready 5))) (errmsg (st_lp (ready 5)))
          (st_lp st') /\
    entry (st_lp st') = 80 * 65536 + 4096 /\
    snd r = 81 * 65536 + 4096.
Proof.
  destruct (launchpad_elf_load_extra 81 0 0 (ready 5))
    as [[r st']|] eqn:Hrun; [|vm_compute in Hrun; discriminate Hrun].
  exists r, st'. split; [reflexivity|].
  destruct (proj1 launchpad_elf_load_extra_keeps_main 81 0 0 (ready 5) st' r
              Hrun) as (Hr & Hlp).
  split; [exact Hr|]. split; [exact Hlp|].
  vm_compute in Hrun. injection Hrun as <- <-. split; reflexivity.
Defined.

Lemma launchpad_elf_load_interpreter_failed_witness :
  exists sth,
    handle_interp (K := interpreter_refused) 80 "lib/ld.so.1" 11
      (mkState (st_lp created) (st_vdso_vmo created) (st_world created))
      = Some (-25, sth) /\
    launchpad_elf_load (K := interpreter_refused) 80 created =
    Some (-25,
          mkState (with_error (-25) "elf_load: handle_interp failed"
                     (st_lp sth))
            (st_vdso_vmo sth)
            (mx_handle_close 80 (elf_load_destroy 80 (free (st_world sth)))))
    /\
    special_get (special_handles (st_lp sth)) HND_EXEC_VMO
      = special_get (special_handles (st_lp created)) HND_EXEC_VMO /\
    loader_message (st_lp sth) = loader_message (st_lp created).
Proof.
  destruct (handle_interp (K := interpreter_refused) 80 "lib/ld.so.1" 11
              (mkState (st_lp created) (st_vdso_vmo created)
                       (st_world created)))
    as [[s sth]|] eqn:Hh; [|vm_compute in Hh; discriminate Hh].
  assert (Hs : s = -25).
  { vm_compute in Hh. injection Hh as <- _. reflexivity. }
  subst s. exists sth. split; [reflexivity|].
  apply (launchpad_elf_load_interpreter_failed (K := interpreter_refused)
           80 created sth 80 (st_world created) "lib/ld.so.1"%string 11
           (st_world created) (-25)).
  - vm_compute; reflexivity.
  - vm_compute; reflexivity.
  - vm_compute; reflexivity.
  - vm_compute; reflexivity.
  - exact Hh.
  - discriminate.
Defined.

Lemma loader_svc_rpc_passes_reply_witness :
  loader_svc_rpc 50 LOADER_SVC_OP_LOAD_OBJECT
    (list_ascii_of_string (padding 2000)) 2000 created
    = Some (ERR_BUFFER_TOO_SMALL, created)
  /\
  rq_num_bytes (request_for 7 LOADER_SVC_OP_LOAD_OBJECT
                  (list_ascii_of_string "libc.so") 7) <= LOADER_SVC_MSG_MAX /\
  len (rq_data (request_for 7 LOADER_SVC_OP_LOAD_OBJECT
                  (list_ascii_of_string "libc.so") 7)) = 7 + 1 /\
  (rp_status no_reply <> NO_ERROR ->
     loader_svc_rpc 50 LOADER_SVC_OP_LOAD_OBJECT
       (list_ascii_of_string "libc.so") 7 created =
     Some (if rp_status no_reply =? ERR_CALL_FAILED
           then rp_read_status no_reply else rp_status no_reply,
           mkState (st_lp created) (st_vdso_vmo created)
             (log (EvChannelCall 50
                     (request_for 7 LOADER_SVC_OP_LOAD_OBJECT
                        (list_ascii_of_string "libc.so") 7))
                  (st_world created)))) /\
  (rp_status no_reply = NO_ERROR -> ~ protocol_violating no_reply ->
     loader_svc_rpc 50 LOADER_SVC_OP_LOAD_OBJECT
       (list_ascii_of_string "libc.so") 7 created =
     Some (if rp_arg no_reply =? NO_ERROR
           then rp_handle no_reply else rp_arg no_reply,
           mkState (st_lp created) (st_vdso_vmo created)
             (log (EvChannelCall 50
                     (request_for 7 LOADER_SVC_OP_LOAD_OBJECT
                        (list_ascii_of_string "libc.so") 7))
                  (st_world created))) /\
     (rp_arg no_reply <> NO_ERROR ->
        rp_arg no_reply < 0 /\ rp_handle no_reply = MX_HANDLE_INVALID)).
Proof.
  split.
  - apply (proj1 loader_svc_rpc_passes_reply). vm_compute. discriminate.
  - apply (proj2 loader_svc_rpc_passes_reply 50 LOADER_SVC_OP_LOAD_OBJECT
             (list_ascii_of_string "libc.so") 7 created 7 (st_world created)
             no_reply).
    + vm_compute. reflexivity.
    + vm_compute. split; discriminate.
    + vm_compute; reflexivity.
    + vm_compute; reflexivity.
Defined.

Lemma setup_loader_svc_once_witness :
  (forall svc,
      svc <> MX_HANDLE_INVALID ->
      exists st1,
        launchpad_use_loader_service svc created
          = Some (special_get (special_handles (st_lp created)) HND_LOADER_SVC,
                  st1) /\
        st_lp st1 = with_special_handles
                      (special_set (special_handles (st_lp created))
                         HND_LOADER_SVC svc) (st_lp created) /\
        st_world st1 = st_world created /\
        setup_loader_svc st1 = Some (NO_ERROR, st1) /\
        forall svc2, exists st2,
          launchpad_use_loader_service svc2 st1 = Some (svc, st2) /\
          st_world st2 = st_world created)
  /\
  (special_get (special_handles (st_lp created)) HND_LOADER_SVC
     = MX_HANDLE_INVALID ->
   forall h w1,
     mxio_loader_service (st_world created) = (h, w1) ->
     setup_loader_svc created =
     Some (if h <? 0 then h else NO_ERROR,
           mkState
             (if h <? 0 then st_lp created
              else with_special_handles
                     (special_set (special_handles (st_lp created))
                        HND_LOADER_SVC h) (st_lp created))
             (st_vdso_vmo created) w1)).
Proof.
  apply (setup_loader_svc_once created). vm_compute; reflexivity.
Defined.

Lemma launchpad_set_vdso_vmo_installs_witness :
  exists st1,
    launchpad_set_vdso_vmo 70 created = Some (st_vdso_vmo created, st1) /\
    st_vdso_vmo st1 = 70 /\
    st_lp st1 = st_lp created /\
    st_world st1 = mtx_unlock (mtx_lock (st_world created)) /\
    (70 <> MX_HANDLE_INVALID ->
       vdso_get_vmo st1 = Some (70, st1) /\
       forall status d w2,
         mx_handle_duplicate 70 (mtx_lock (st_world st1)) = ((status, d), w2) ->
         launchpad_get_vdso_vmo st1 =
         Some (if status <? 0 then status else d,
               mkState (st_lp created) 70 (mtx_unlock w2))).
Proof.
  apply (launchpad_set_vdso_vmo_installs 70 created).
Defined.

Lemma launchpad_add_vdso_vmo_adds_duplicate_witness :
  (NO_ERROR < 0 ->
     launchpad_add_vdso_vmo created_with_vdso =
     Some (NO_ERROR,
           mkState (with_error NO_ERROR "add_vdso_vmo: get_vdso_vmo failed"
                      (st_lp created_with_vdso))
                   (st_vdso_vmo created_with_vdso)
                   (mtx_unlock (mtx_lock (st_world created_with_vdso))))) /\
  (0 <= NO_ERROR -> 0 < 1070 ->
     exists r st',
       launchpad_add_vdso_vmo created_with_vdso = Some (r, st') /\
       st_vdso_vmo st' = st_vdso_vmo created_with_vdso /\
       (r = NO_ERROR ->
          error (st_lp st') = NO_ERROR /\
          handle_count (st_lp st')
            = handle_count (st_lp created_with_vdso) + 1 /\
          handles (st_lp st')
            !! Z.to_nat (handle_count (st_lp created_with_vdso))
            = Some 1070 /\
          handles_info (st_lp st')
            !! Z.to_nat (handle_count (st_lp created_with_vdso))
            = Some (MX_HND_INFO MX_HND_TYPE_VDSO_VMO 0)) /\
       (r <> NO_ERROR ->
          r = ERR_NO_MEMORY /\ error (st_lp st') = ERR_NO_MEMORY /\
          handle_count (st_lp st')
            = handle_count (st_lp created_with_vdso))).
Proof.
  apply (launchpad_add_vdso_vmo_adds_duplicate created_with_vdso
           NO_ERROR 1070 (mtx_lock (st_world created_with_vdso))).
  - vm_compute; reflexivity.
  - vm_compute; reflexivity.
  - exact table_ok_created.
  - discriminate.
  - vm_compute; reflexivity.
Defined.

Lemma send_loader_message_all_or_nothing_witness :
  exists r st',
    send_loader_message 40 20 created = Some (r, st') /\
    (r <> NO_ERROR -> st_lp st' = st_lp created) /\
    (r = NO_ERROR ->
       st_lp st' = with_loader_message false
                     (with_special_handles
                        (MX_HANDLE_INVALID, MX_HANDLE_INVALID)
                        (st_lp created))) /\
    r = NO_ERROR.
Proof.
  destruct (send_loader_message 40 20 created)
    as [[r st']|] eqn:Hrun; [|vm_compute in Hrun; discriminate Hrun].
  exists r, st'. split; [reflexivity|].
  destruct (send_loader_message_all_or_nothing 40 20 created st' r)
    as (Hbad & Hgood); [discriminate|exact Hrun|].
  split; [exact Hbad|]. split; [exact Hgood|].
  vm_compute in Hrun. injection Hrun as <- _. reflexivity.
Defined.

Lemma launchpad_add_pipe_checks_fd_witness :
  (300 < 0 \/ MAX_MXIO_FD <= 300 ->
     launchpad_add_pipe 300 created =
     Some ((ERR_INVALID_ARGS, None),
           mkState (with_error ERR_INVALID_ARGS "add_pipe: invalid target fd"
                      (st_lp created)) (st_vdso_vmo created)
                   (st_world created)))
  /\
  (0 <= 300 < MAX_MXIO_FD ->
   forall status h id w1,
     mxio_pipe_half (st_world created) = ((status, h, id), w1) ->
     (status < 0 ->
        launchpad_add_pipe 300 created =
        Some ((status, None),
              mkState (with_error status "add_pipe: failed to create pipe"
                         (st_lp created)) (st_vdso_vmo created) w1)) /\
     (0 <= status -> h <> MX_HANDLE_INVALID ->
        exists r out st',
          launchpad_add_pipe 300 created = Some ((r, out), st') /\
          (r = NO_ERROR ->
             out = Some status /\
             error (st_lp st') = NO_ERROR /\
             handle_count (st_lp st') = handle_count (st_lp created) + 1 /\
             handles (st_lp st') !! Z.to_nat (handle_count (st_lp created))
               = Some h /\
             handles_info (st_lp st')
               !! Z.to_nat (handle_count (st_lp created))
               = Some (MX_HND_INFO (MX_HND_INFO_TYPE id) 300)) /\
          (r <> NO_ERROR ->
             out = None /\ r = ERR_NO_MEMORY /\
             error (st_lp st') = ERR_NO_MEMORY /\
             handle_count (st_lp st') = handle_count (st_lp created)))).
Proof.
  apply (launchpad_add_pipe_checks_fd 300 created).
  - vm_compute; reflexivity.
  - vm_compute; reflexivity.
  - exact table_ok_created.
Defined.

Lemma launchpad_start_not_loaded_witness :
  prepare_start "main" 20
    (mkState (st_lp created) (st_vdso_vmo created) (st_world created))
    = Some ((ERR_BAD_STATE, None, None),
            mkState (st_lp created) (st_vdso_vmo created)
                    (st_world created)) /\
  launchpad_start created =
  Some (ERR_BAD_STATE,
        mkState (with_error ERR_BAD_STATE "start: prepare_start() failed"
                   (st_lp created))
                (st_vdso_vmo created)
                (mx_handle_close 21 (mx_handle_close 20 (st_world created)))).
Proof.
  apply (launchpad_start_not_loaded created 10 NO_ERROR 1010
           (st_world created) 20 21 (st_world created)).
  - discriminate.
  - vm_compute; reflexivity.
  - vm_compute; reflexivity.
  - vm_compute; reflexivity.
  - vm_compute; reflexivity.
  - vm_compute. discriminate.
  - vm_compute; reflexivity.
Defined.

Lemma launchpad_go_result_witness :
  exists r out msg st',
    launchpad_go LpHeap true true (ready 5) = Some ((r, out, msg), st') /\
    r <= NO_ERROR /\
    (forall h, out = Some h -> 0 < h /\ r = NO_ERROR /\ true = true) /\
    (true = false -> msg = None) /\
    r = NO_ERROR /\ out = Some 1010 /\ msg = Some "no error"%string.
Proof.
  destruct (launchpad_go LpHeap true true (ready 5))
    as [[[[r out] msg] st']|] eqn:Hrun; [|vm_compute in Hrun; discriminate Hrun].
  exists r, out, msg, st'. split; [reflexivity|].
  destruct (launchpad_go_result LpHeap true true (ready 5) st' r out msg Hrun)
    as (Hle & Hout & Hmsg & _).
  split; [exact Hle|]. split; [exact Hout|]. split; [exact Hmsg|].
  vm_compute in Hrun. injection Hrun as <- <- <- _. repeat split.
Defined.

Lemma prepare_start_releases_thread_witness :
  exists sp st',
    prepare_start "main" 20 (ready 3000)
      = Some ((ERR_BUFFER_TOO_SMALL, Some 40, sp), st') /\
    ((ERR_BUFFER_TOO_SMALL = NO_ERROR /\ handle_count (st_lp st') = 0 /\
      error (st_lp st') = NO_ERROR)
     \/
     (ERR_BUFFER_TOO_SMALL <> NO_ERROR /\
      ((exists w, st_world st' = mx_handle_close 40 w) \/
       (exists p w0,
          mx_thread_create p "main" w0
            = ((ERR_BUFFER_TOO_SMALL, 40), st_world st') /\
          ERR_BUFFER_TOO_SMALL < 0)))).
Proof.
  destruct (prepare_start "main" 20 (ready 3000))
    as [[[[status thread] sp] st']|] eqn:Hrun;
    [|vm_compute in Hrun; discriminate Hrun].
  assert (Hst : status = ERR_BUFFER_TOO_SMALL /\ thread = Some 40).
  { vm_compute in Hrun. injection Hrun as <- <- _ _. split; reflexivity. }
  destruct Hst as (-> & ->).
  exists sp, st'. split; [reflexivity|].
  apply (prepare_start_releases_thread "main" 20 (ready 3000) st'
           ERR_BUFFER_TOO_SMALL 40 sp).
  - discriminate.
  - discriminate.
  - discriminate.
  - vm_compute; reflexivity.
  - exact Hrun.
Defined.


Lemma launchpad_start_injected_zero_stack_witness :
  stack_size (st_lp unstacked) = 0 /\
  exists r st',
    launchpad_start_injected "worker" 20 0 unstacked = Some (r, st') /\
    r <> NO_ERROR /\ error (st_lp st') <> NO_ERROR /\
    r = ERR_BUFFER_TOO_SMALL.
Proof.
  split; [reflexivity|].
  destruct (launchpad_start_injected "worker" 20 0 unstacked)
    as [[r st']|] eqn:Hrun; [|vm_compute in Hrun; discriminate Hrun].
  exists r, st'. split; [reflexivity|].
  destruct (launchpad_start_injected_zero_stack "worker" 20 0 unstacked st' r)
    as (Hr & He);
    [discriminate|discriminate|discriminate|discriminate
    |vm_compute; reflexivity|vm_compute; reflexivity|vm_compute; reflexivity
    |vm_compute; discriminate|vm_compute; discriminate
    |vm_compute; discriminate|vm_compute; reflexivity|exact Hrun|].
  split; [exact Hr|]. split; [exact He|].
  vm_compute in Hrun. injection Hrun as <- _. reflexivity.
Defined.

End MoreRuns.
